(** * Verification of the Vapor utility layer and refund CLI of swap

    The development embeds [swap/providers/vapor/utils.py] and
    [swap/cli/providers/vapor/refund.py].  Python values are modelled by
    [pyval], exceptions by [exn], binary64 arithmetic by the [SpecFloat]
    specification of IEEE 754, and functions that may raise return a
    [result]. *)

From Stdlib Require Import ZArith QArith Qabs String List Bool Lia Ascii.
From Stdlib Require Import Floats.SpecFloat.
Import ListNotations.
#[local] Set Warnings "-register-all,-notation-for-abbreviation".
Local Open Scope Z_scope.
Local Open Scope string_scope.

(** ** Python values *)

Module Py.

(** Python numbers: unbounded [int] and binary64 [float]. *)
Inductive num :=
| NInt (z : Z)
| NFloat (f : spec_float).

(** The values that [json.loads] produces, plus [None]. *)
Inductive pyval :=
| PNone
| PBool (b : bool)
| PNum (n : num)
| PStr (s : string)
| PList (l : list pyval)
| PDict (d : list (string * pyval)).

(** ** Exceptions *)

(** The exception classes of [swap.exceptions]. *)
Inductive swap_error :=
| SymbolError | NetworkError | APIError | TransactionRawError | AddressError.

(** An exception raised by library code outside the repository (binascii,
    json, requests, pybytom, click ...).  [lib_is_exception] tells whether
    the class derives from [Exception] or only from [BaseException]
    (as [KeyboardInterrupt] and [SystemExit] do). *)
Record lib_exn := {
  lib_name : string;
  lib_text : string;
  lib_is_exception : bool
}.

Inductive exn :=
| PyTypeError (msg : string)
| PyKeyError (key : pyval)
| PyValueError (msg : string)
| PyOverflowError (msg : string)
| PyZeroDivisionError (msg : string)
| SwapError (c : swap_error) (args : list pyval)
| LibError (e : lib_exn).

(** [isinstance(e, Exception)]. *)
Definition is_Exception (e : exn) : bool :=
  match e with
  | LibError l => lib_is_exception l
  | _ => true
  end.

(** ** Results *)

Inductive result (A : Type) :=
| OK (a : A)
| Raise (e : exn).
Arguments OK {A} a.
Arguments Raise {A} e.

Definition bind {A B} (r : result A) (k : A -> result B) : result B :=
  match r with
  | OK a => k a
  | Raise e => Raise e
  end.

(** A library call, which can only raise library exceptions. *)
Definition lib_result (A : Type) := (A + lib_exn)%type.

Definition lift {A} (r : lib_result A) : result A :=
  match r with
  | inl a => OK a
  | inr e => Raise (LibError e)
  end.

End Py.
Export Py.

Declare Scope py_scope.
Delimit Scope py_scope with py.
Notation "x <- c ;; k" := (bind c (fun x => k))
  (at level 61, c at next level, right associativity) : py_scope.
Local Open Scope py_scope.

(** ** Python arithmetic on [int] and [float] *)

Module PyNum.

Definition prec : Z := 53.
Definition emax : Z := 1024.

Definition is_inf (f : spec_float) : bool :=
  match f with S754_infinity _ => true | _ => false end.

(** [float(n)] for an [int]: the nearest binary64, ties to even;
    [OverflowError] when that is out of range. *)
Definition float_of_int (z : Z) : result spec_float :=
  let f := binary_normalize prec emax z 0 false in
  if is_inf f then Raise (PyOverflowError "int too large to convert to float")
  else OK f.

(** The operand conversion of a mixed [int]/[float] operation. *)
Definition as_float (n : num) : result spec_float :=
  match n with
  | NInt z => float_of_int z
  | NFloat f => OK f
  end.

(** [x * y]. *)
Definition mul (x y : num) : result num :=
  match x, y with
  | NInt a, NInt b => OK (NInt (a * b))
  | _, _ =>
      fx <- as_float x ;;
      fy <- as_float y ;;
      OK (NFloat (SFmul prec emax fx fy))
  end.

Definition is_zero (f : spec_float) : bool :=
  match f with S754_zero _ => true | _ => false end.

(** [a / b] on two [int]s: the correctly rounded quotient. *)
Definition int_truediv (a b : Z) : result spec_float :=
  match a, b with
  | _, Z0 => Raise (PyZeroDivisionError "division by zero")
  | Z0, _ => OK (S754_zero (b <? 0)%Z)
  | _, _ =>
      let f := SFdiv prec emax
                 (S754_finite (a <? 0)%Z (Z.to_pos (Z.abs a)) 0)
                 (S754_finite (b <? 0)%Z (Z.to_pos (Z.abs b)) 0) in
      if is_inf f
      then Raise (PyOverflowError "integer division result too large for a float")
      else OK f
  end.

(** [x / y] (true division). *)
Definition truediv (x y : num) : result num :=
  match x, y with
  | NInt a, NInt b => f <- int_truediv a b ;; OK (NFloat f)
  | _, _ =>
      fx <- as_float x ;;
      fy <- as_float y ;;
      if is_zero fy then Raise (PyZeroDivisionError "float division by zero")
      else OK (NFloat (SFdiv prec emax fx fy))
  end.

(** [float(x)]. *)
Definition to_float (x : num) : result num :=
  f <- as_float x ;; OK (NFloat f).

(** The integer part of a finite binary64, rounding toward zero. *)
Definition trunc_float (s : bool) (m : positive) (e : Z) : Z :=
  let a := match e with
           | Z0 => Zpos m
           | Zpos p => Z.shiftl (Zpos m) e
           | Zneg p => Z.shiftr (Zpos m) (Zpos p)
           end in
  if s then - a else a.

(** [int(x)]. *)
Definition to_int (x : num) : result num :=
  match x with
  | NInt z => OK (NInt z)
  | NFloat (S754_zero _) => OK (NInt 0)
  | NFloat (S754_finite s m e) => OK (NInt (trunc_float s m e))
  | NFloat (S754_infinity _) =>
      Raise (PyOverflowError "cannot convert float infinity to integer")
  | NFloat S754_nan =>
      Raise (PyValueError "cannot convert float NaN to integer")
  end.

(** The exact rational value of a number, when it is finite. *)
Definition Q_of_float (f : spec_float) : option Q :=
  match f with
  | S754_zero _ => Some 0%Q
  | S754_finite s m e =>
      let a := if s then Zneg m else Zpos m in
      Some (match e with
            | Z0 => inject_Z a
            | Zpos p => inject_Z (a * 2 ^ e)
            | Zneg p => Qmake a (2 ^ p)
            end)
  | _ => None
  end.

Definition Q_of_num (n : num) : option Q :=
  match n with
  | NInt z => Some (inject_Z z)
  | NFloat f => Q_of_float f
  end.

End PyNum.

(** ** [swap/providers/vapor/utils.py]: amount_converter *)

Definition symbols : list string :=
  ["BTM2mBTM"; "BTM2NEU"; "mBTM2BTM"; "mBTM2NEU"; "NEU2BTM"; "NEU2mBTM"].

Definition str_in (s : string) (l : list string) : bool :=
  existsb (String.eqb s) l.

Definition symbol_error (symbol : string) : exn :=
  SwapError SymbolError
    [PStr ("Invalid '" ++ symbol ++ "' symbol/type");
     PStr "choose only 'BTM2mBTM', 'BTM2NEU', 'mBTM2BTM', 'mBTM2NEU', 'NEU2BTM' or 'NEU2mBTM' symbols."].

Definition amount_converter (amount : num) (symbol : string) : result pyval :=
  if negb (str_in symbol symbols) then Raise (symbol_error symbol)
  else
    let BTM := NInt 1 in
    let mBTM := NInt 1000 in
    let NEU := NInt 100000000 in
    if symbol =? "BTM2mBTM" then
      p <- PyNum.mul amount mBTM ;; q <- PyNum.truediv p BTM ;;
      r <- PyNum.to_float q ;; OK (PNum r)
    else if symbol =? "BTM2NEU" then
      p <- PyNum.mul amount NEU ;; q <- PyNum.truediv p BTM ;;
      r <- PyNum.to_int q ;; OK (PNum r)
    else if symbol =? "mBTM2BTM" then
      p <- PyNum.mul amount BTM ;; q <- PyNum.truediv p mBTM ;;
      r <- PyNum.to_float q ;; OK (PNum r)
    else if symbol =? "mBTM2NEU" then
      p <- PyNum.mul amount NEU ;; q <- PyNum.truediv p mBTM ;;
      r <- PyNum.to_int q ;; OK (PNum r)
    else if symbol =? "NEU2BTM" then
      p <- PyNum.mul amount BTM ;; q <- PyNum.truediv p NEU ;;
      r <- PyNum.to_float q ;; OK (PNum r)
    else if symbol =? "NEU2mBTM" then
      p <- PyNum.mul amount mBTM ;; q <- PyNum.truediv p NEU ;;
      r <- PyNum.to_int q ;; OK (PNum r)
    else OK PNone.

(** ** Subscripts and membership on JSON values *)

Fixpoint lookup (k : string) (d : list (string * pyval)) : option pyval :=
  match d with
  | [] => None
  | (k', v) :: d' => if k' =? k then Some v else lookup k d'
  end.

(** [c[k]] for a [str] literal [k]. *)
Definition getitem_str (c : pyval) (k : string) : result pyval :=
  match c with
  | PDict d =>
      match lookup k d with
      | Some v => OK v
      | None => Raise (PyKeyError (PStr k))
      end
  | PList _ => Raise (PyTypeError "list indices must be integers or slices, not str")
  | PStr _ => Raise (PyTypeError "string indices must be integers")
  | PNone => Raise (PyTypeError "'NoneType' object is not subscriptable")
  | PBool _ => Raise (PyTypeError "'bool' object is not subscriptable")
  | PNum (NInt _) => Raise (PyTypeError "'int' object is not subscriptable")
  | PNum (NFloat _) => Raise (PyTypeError "'float' object is not subscriptable")
  end.

(** [d[k]] for a dict with [str] keys and any key [k]. *)
Definition dict_getitem (d : list (string * pyval)) (k : pyval) : result pyval :=
  match k with
  | PStr s =>
      match lookup s d with
      | Some v => OK v
      | None => Raise (PyKeyError k)
      end
  | PList _ => Raise (PyTypeError "unhashable type: 'list'")
  | PDict _ => Raise (PyTypeError "unhashable type: 'dict'")
  | _ => Raise (PyKeyError k)
  end.

(** [v == s] for a [str] [s]. *)
Definition eq_str (v : pyval) (s : string) : bool :=
  match v with
  | PStr t => t =? s
  | _ => false
  end.

(** [v in l] for a list [l] of [str]. *)
Definition in_strs (v : pyval) (l : list string) : bool :=
  existsb (eq_str v) l.

(** [v != n] for an [int] literal [n]. *)
Definition ne_int (v : pyval) (n : Z) : bool :=
  match v with
  | PNum (NInt z) => negb (z =? n)%Z
  | PNum (NFloat f) =>
      negb (SFeqb f (binary_normalize PyNum.prec PyNum.emax n 0 false))
  | PBool b => negb ((if b then 1 else 0) =? n)%Z
  | _ => true
  end.

(** ** Network effects: the HTTP requests issued so far *)

Definition bytes := list Byte.byte.

Record request := {
  req_url : string;
  req_data : string;
  req_params : option pyval;
  req_headers : pyval;
  req_timeout : pyval
}.

Record response := {
  status_code : Z;
  response_json : lib_result pyval
}.

(** A computation that may post requests and may raise: it maps the log of
    requests already sent to the extended log and its result. *)
Definition io (A : Type) := list request -> list request * result A.

Definition io_ret {A} (a : A) : io A := fun log => (log, OK a).
Definition io_raise {A} (e : exn) : io A := fun log => (log, Raise e).
Definition io_lift {A} (r : result A) : io A := fun log => (log, r).
Definition io_bind {A B} (c : io A) (k : A -> io B) : io B :=
  fun log =>
    match c log with
    | (log', OK a) => k a log'
    | (log', Raise e) => (log', Raise e)
    end.

Notation "x <~ c ;; k" := (io_bind c (fun x => k))
  (at level 61, c at next level, right associativity) : py_scope.

(** Run a computation from the empty log. *)
Definition run {A} (c : io A) : list request * result A := c [].

Definition tags : list string :=
  ["vapor_fund_unsigned"; "vapor_fund_signed";
   "vapor_claim_unsigned"; "vapor_claim_signed";
   "vapor_refund_unsigned"; "vapor_refund_signed"].

Definition networks : list string := ["mainnet"; "solonet"; "testnet"].

Section Utils.

(** [swap.utils.clean_transaction_raw], a helper of the repository. *)
Variable clean_transaction_raw : string -> result string.
(** [str.encode], [bytes.decode], [base64.b64decode], [json.loads],
    [json.dumps]. *)
Variable str_encode : string -> lib_result bytes.
Variable bytes_decode : bytes -> lib_result string.
Variable b64decode : bytes -> lib_result bytes.
Variable json_loads : string -> lib_result pyval.
Variable json_dumps : pyval -> lib_result string.
(** The dict returned by [swap.providers.config.vapor()]. *)
Variable config : list (string * pyval).
(** [str(v)] as an f-string interpolates it. *)
Variable format : pyval -> string.
(** [requests.post]. *)
Variable requests_post : request -> lib_result response.
(** [str(datetime.datetime.utcnow())]. *)
Variable utcnow : string.
(** [pybytom.utils.is_address(address, network, vapor)]. *)
Variable btm_is_address : string -> option string -> bool -> bool.

Definition post (r : request) : io response :=
  fun log => ((log ++ [r])%list, lift (requests_post r)).

(** The three statements that load the envelope. *)
Definition load_transaction_raw (transaction_raw : string) : result pyval :=
  transaction_raw <- clean_transaction_raw transaction_raw ;;
  encoded <- lift (str_encode transaction_raw) ;;
  decoded_transaction_raw <- lift (b64decode encoded) ;;
  text <- lift (bytes_decode decoded_transaction_raw) ;;
  lift (json_loads text).

Definition is_network (network : pyval) : result bool :=
  match network with
  | PStr s => OK (str_in s networks)
  | _ => Raise (PyTypeError "Network must be str.")
  end.

Definition is_address (address : string) (network : option string) : result bool :=
  match network with
  | None => OK (btm_is_address address None true)
  | Some n =>
      valid <- is_network (PStr n) ;;
      if negb valid then
        Raise (SwapError NetworkError
                 [PStr ("Invalid Vapor '" ++ n ++ "' network");
                  PStr "choose only 'mainnet', 'solonet' or 'testnet' networks."])
      else OK (btm_is_address address (Some n) true)
  end.

Definition is_transaction_raw (transaction_raw : pyval) : result bool :=
  match transaction_raw with
  | PStr s =>
      let body :=
        loaded_transaction_raw <- load_transaction_raw s ;;
        type <- getitem_str loaded_transaction_raw "type" ;;
        OK (in_strs type tags) in
      match body with
      | OK b => OK b
      | Raise _ => OK false
      end
  | _ => Raise (PyTypeError "Transaction raw must be str.")
  end.

Definition transaction_raw_error : exn :=
  SwapError TransactionRawError [PStr "Invalid Vapor transaction raw."].

Definition decode_transaction_raw (transaction_raw : string)
    (headers timeout : pyval) : io pyval :=
  valid <~ io_lift (is_transaction_raw (PStr transaction_raw)) ;;
  if negb valid then io_raise transaction_raw_error
  else
    loaded_transaction_raw <~ io_lift (load_transaction_raw transaction_raw) ;;
    network <~ io_lift (getitem_str loaded_transaction_raw "network") ;;
    node <~ io_lift (dict_getitem config network) ;;
    core <~ io_lift (getitem_str node "vapor-core") ;;
    let url := format core ++ "/decode-raw-transaction" in
    raw <~ io_lift (getitem_str loaded_transaction_raw "raw") ;;
    let data := PDict [("raw_transaction", raw)] in
    body <~ io_lift (lift (json_dumps data)) ;;
    response <~ post {| req_url := url; req_data := body; req_params := None;
                        req_headers := headers; req_timeout := timeout |} ;;
    response_json <~ io_lift (lift (response_json response)) ;;
    if (status_code response =? 400)%Z then
      msg <~ io_lift (getitem_str response_json "msg") ;;
      code <~ io_lift (getitem_str response_json "code") ;;
      io_raise (SwapError APIError [msg; code])
    else
      fee <~ io_lift (getitem_str loaded_transaction_raw "fee") ;;
      address <~ io_lift (getitem_str loaded_transaction_raw "address") ;;
      type <~ io_lift (getitem_str loaded_transaction_raw "type") ;;
      tx <~ io_lift (getitem_str response_json "data") ;;
      unsigned_datas <~ io_lift (getitem_str loaded_transaction_raw "unsigned_datas") ;;
      signatures <~ io_lift (getitem_str loaded_transaction_raw "signatures") ;;
      network <~ io_lift (getitem_str loaded_transaction_raw "network") ;;
      io_ret (PDict [("fee", fee); ("address", address); ("type", type);
                     ("tx", tx); ("unsigned_datas", unsigned_datas);
                     ("signatures", signatures); ("network", network)]).

Definition submit_transaction_raw (transaction_raw : string)
    (headers timeout : pyval) : io pyval :=
  valid <~ io_lift (is_transaction_raw (PStr transaction_raw)) ;;
  if negb valid then io_raise transaction_raw_error
  else
    loaded_transaction_raw <~ io_lift (load_transaction_raw transaction_raw) ;;
    network <~ io_lift (getitem_str loaded_transaction_raw "network") ;;
    node <~ io_lift (dict_getitem config network) ;;
    center <~ io_lift (getitem_str node "blockcenter") ;;
    let url := format center ++ "/merchant/submit-payment" in
    raw <~ io_lift (getitem_str loaded_transaction_raw "raw") ;;
    signatures <~ io_lift (getitem_str loaded_transaction_raw "signatures") ;;
    let data := PDict [("raw_transaction", raw); ("signatures", signatures)] in
    address <~ io_lift (getitem_str loaded_transaction_raw "address") ;;
    let params := PDict [("address", address)] in
    body <~ io_lift (lift (json_dumps data)) ;;
    response <~ post {| req_url := url; req_data := body; req_params := Some params;
                        req_headers := headers; req_timeout := timeout |} ;;
    response_json <~ io_lift (lift (response_json response)) ;;
    code <~ io_lift (getitem_str response_json "code") ;;
    if ne_int code 200 then
      msg <~ io_lift (getitem_str response_json "msg") ;;
      code <~ io_lift (getitem_str response_json "code") ;;
      io_raise (SwapError APIError [msg; code])
    else
      fee <~ io_lift (getitem_str loaded_transaction_raw "fee") ;;
      type <~ io_lift (getitem_str loaded_transaction_raw "type") ;;
      data <~ io_lift (getitem_str response_json "data") ;;
      transaction_id <~ io_lift (getitem_str data "tx_hash") ;;
      network <~ io_lift (getitem_str loaded_transaction_raw "network") ;;
      io_ret (PDict [("fee", fee); ("type", type);
                     ("transaction_id", transaction_id);
                     ("network", network); ("date", PStr utcnow)]).

Definition address_error (address : string) : exn :=
  SwapError AddressError [PStr ("Invalid Vapor '" ++ address ++ "' address.")].

Definition get_address_type (address : string) : result pyval :=
  valid <- is_address address None ;;
  if negb valid then Raise (address_error address)
  else if (Z.of_nat (String.length address) =? 42)%Z then OK (PStr "p2wpkh")
  else if (Z.of_nat (String.length address) =? 62)%Z then OK (PStr "p2wsh")
  else OK PNone.

End Utils.

(** ** [swap/cli/providers/vapor/refund.py] *)

(** What the command does to the outside: text handed to [click.echo]
    (with its [err] flag) and calls of the transaction builder. *)
Inductive event :=
| Echo (message : string) (err : bool)
| Build (address transaction_id : string) (amount : pyval)
        (max_amount : bool) (asset : string).

(** How the command ends: it returns, [sys.exit()] ends the process, or an
    exception leaves the function. *)
Inductive outcome :=
| Returned
| Exited
| Propagated (e : exn).

(** A computation that emits events and may raise. *)
Definition cli (A : Type) := (list event * result A)%type.

Definition cli_lift {A} (r : result A) : cli A := ([], r).
Definition emit (e : event) : cli unit := ([e], OK tt).
Definition cli_bind {A B} (c : cli A) (k : A -> cli B) : cli B :=
  match c with
  | (evs, OK a) => let (evs', r) := k a in ((evs ++ evs')%list, r)
  | (evs, Raise e) => (evs, Raise e)
  end.

Notation "x <! c ;; k" := (cli_bind c (fun x => k))
  (at level 61, c at next level, right associativity) : py_scope.

Section Refund.

(** The class [RefundTransaction] of [swap.providers.vapor.transaction]:
    its constructor and the two methods the command calls. *)
Variable transaction : Type.
Variable RefundTransaction : string -> result transaction.
Variable build_transaction :
  transaction -> string -> string -> pyval -> bool -> string -> result transaction.
Variable transaction_raw : transaction -> result string.
(** The unit converter the command imports from
    [swap.providers.vapor.utils], called with [amount] and [unit_from]. *)
Variable amount_unit_converter : num -> string -> result pyval.
(** [str(exception)]. *)
Variable exn_str : exn -> string.
(** What [click.style] appends to an unstyled text. *)
Variable style_reset : string.

(** [click.style(text)]. *)
Definition style (text : string) : string := text ++ style_reset.

(** [click.style("Error: {}").format(text)]. *)
Definition error_message (text : string) : string :=
  "Error: " ++ text ++ style_reset.

(** The [amount] argument that the command computes for the builder. *)
Definition refund_amount (amount : num) (unit : string) : result pyval :=
  if unit =? "NEU" then r <- PyNum.to_int amount ;; OK (PNum r)
  else amount_unit_converter amount (unit ++ "2NEU").

(** The body of the [try] block. *)
Definition refund_try (address transaction_id : string) (amount : num)
    (max_amount : bool) (unit asset network : string) : cli Datatypes.unit :=
  t <! cli_lift (RefundTransaction network) ;;
  a <! cli_lift (refund_amount amount unit) ;;
  _ <! emit (Build address transaction_id a max_amount asset) ;;
  t' <! cli_lift (build_transaction t address transaction_id a max_amount asset) ;;
  raw <! cli_lift (transaction_raw t') ;;
  emit (Echo raw false).

Definition refund (address transaction_id : string) (amount : num)
    (max_amount : bool) (unit asset network : string) : list event * outcome :=
  match refund_try address transaction_id amount max_amount unit asset network with
  | (evs, OK _) => (evs, Returned)
  | (evs, Raise exception) =>
      if is_Exception exception
      then ((evs ++ [Echo (error_message (exn_str exception)) true])%list, Exited)
      else (evs, Propagated exception)
  end.

End Refund.

(** ** The conversion table of the specification *)

(** The denominations and their factors: BTM = 1, mBTM = 1000,
    NEU = 100,000,000. *)
Definition units : list (string * Z) :=
  [("BTM", 1); ("mBTM", 1000); ("NEU", 100000000)].

(** The symbols whose result goes through [int(...)]. *)
Definition int_symbols : list string := ["BTM2NEU"; "mBTM2NEU"; "NEU2mBTM"].

(** The symbols whose result goes through [float(...)]. *)
Definition float_symbols : list string := ["BTM2mBTM"; "mBTM2BTM"; "NEU2BTM"].

(** [(amount * target) / source] in Python arithmetic, then [int(...)] or
    [float(...)] as the symbol [source2target] asks. *)
Definition rescale (amount : num) (source target : string * Z) : result pyval :=
  p <- PyNum.mul amount (NInt (snd target)) ;;
  q <- PyNum.truediv p (NInt (snd source)) ;;
  r <- (if str_in (fst source ++ "2" ++ fst target) int_symbols
        then PyNum.to_int q else PyNum.to_float q) ;;
  OK (PNum r).

(** The exact rational [amount * factor(target) / factor(source)]. *)
Definition rescaled_exactly (amount : Q) (source target : Z) : Q :=
  (amount * inject_Z target / inject_Z source)%Q.

(** The round trip NEU -> BTM -> NEU of an integer amount. *)
Definition neu_round_trip (x : Z) : result pyval :=
  r <- amount_converter (NInt x) "NEU2BTM" ;;
  match r with
  | PNum btm => amount_converter btm "BTM2NEU"
  | _ => OK PNone
  end.

(** ** A sample environment

    Concrete stand-ins for the library functions, enough to run the
    embedded functions on a sample transaction raw. *)

Module Sample.

Definition dq : string := String (ascii_of_nat 34) EmptyString.

Fixpoint digits_of (fuel : nat) (n : Z) (acc : string) : string :=
  match fuel with
  | O => acc
  | S fuel' =>
      let d := String (ascii_of_nat (48 + Z.to_nat (n mod 10))) acc in
      if (n <? 10)%Z then d else digits_of fuel' (n / 10) d
  end.

Definition render_int (z : Z) : string :=
  if (z <? 0)%Z then "-" ++ digits_of (S (Z.to_nat (Z.log2 (- z)))) (- z) ""
  else digits_of (S (Z.to_nat (Z.log2 z))) z "".

(** [json.dumps] on the values the sample needs (floats are not rendered). *)
Fixpoint render (v : pyval) : string :=
  match v with
  | PNone => "null"
  | PBool true => "true"
  | PBool false => "false"
  | PNum (NInt z) => render_int z
  | PNum (NFloat _) => "NaN"
  | PStr s => dq ++ s ++ dq
  | PList l =>
      "[" ++ (fix go (l : list pyval) : string :=
                match l with
                | [] => ""
                | [v] => render v
                | v :: l' => render v ++ ", " ++ go l'
                end) l ++ "]"
  | PDict d =>
      "{" ++ (fix go (d : list (string * pyval)) : string :=
                match d with
                | [] => ""
                | [(k, v)] => dq ++ k ++ dq ++ ": " ++ render v
                | (k, v) :: d' => dq ++ k ++ dq ++ ": " ++ render v ++ ", " ++ go d'
                end) d ++ "}"
  end.

Definition envelope : pyval :=
  PDict [("fee", PNum (NInt 449000));
         ("address", PStr "vp1qf78sazxs539nmzztq7md63fk2x8lew6ed2gu5rnt9um7jerrh07qcyvk37");
         ("raw", PStr "07010001");
         ("unsigned_datas", PList []);
         ("signatures", PList []);
         ("network", PStr "mainnet");
         ("type", PStr "vapor_refund_unsigned")].

(** The base64 text of [render envelope]. *)
Definition transaction_raw : string :=
  "eyJmZWUiOiA0NDkwMDAsICJhZGRyZXNzIjogInZwMXFmNzhzYXp4czUzOW5tenp0cTdtZDYzZmsyeDhsZXc2ZWQyZ3U1cm50OXVtN2plcnJoMDdxY3l2azM3IiwgInJhdyI6ICIwNzAxMDAwMSIsICJ1bnNpZ25lZF9kYXRhcyI6IFtdLCAic2lnbmF0dXJlcyI6IFtdLCAibmV0d29yayI6ICJtYWlubmV0IiwgInR5cGUiOiAidmFwb3JfcmVmdW5kX3Vuc2lnbmVkIn0=".

Definition binascii_error : lib_exn :=
  {| lib_name := "binascii.Error"; lib_text := "Incorrect padding";
     lib_is_exception := true |}.

Definition json_error : lib_exn :=
  {| lib_name := "json.JSONDecodeError"; lib_text := "Expecting value";
     lib_is_exception := true |}.

Definition keyboard_interrupt : lib_exn :=
  {| lib_name := "KeyboardInterrupt"; lib_text := "";
     lib_is_exception := false |}.

(** The value of a character of the base64 alphabet. *)
Definition sextet (b : Byte.byte) : option N :=
  let n := Byte.to_N b in
  if ((65 <=? n) && (n <=? 90))%N then Some (n - 65)%N
  else if ((97 <=? n) && (n <=? 122))%N then Some (n - 71)%N
  else if ((48 <=? n) && (n <=? 57))%N then Some (n + 4)%N
  else if (n =? 43)%N then Some 62%N
  else if (n =? 47)%N then Some 63%N
  else None.

Definition byte_of (n : N) : Byte.byte :=
  match Byte.of_N (n mod 256) with
  | Some b => b
  | None => Byte.x00
  end.

Definition pad : Byte.byte := byte_of 61.

(** Strict base64 decoding of groups of four characters. *)
Fixpoint b64 (fuel : nat) (l : bytes) : option bytes :=
  match fuel, l with
  | _, [] => Some []
  | S fuel', a :: b :: c :: d :: rest =>
      match sextet a, sextet b with
      | Some x, Some y =>
          let b1 := byte_of (x * 4 + y / 16) in
          match sextet c, sextet d, rest with
          | Some z, Some w, _ =>
              match b64 fuel' rest with
              | Some tl =>
                  Some (b1 :: byte_of (y * 16 + z / 4) :: byte_of (z * 64 + w) :: tl)
              | None => None
              end
          | Some z, None, [] =>
              if Byte.eqb d pad then Some [b1; byte_of (y * 16 + z / 4)] else None
          | None, None, [] =>
              if Byte.eqb c pad && Byte.eqb d pad then Some [b1] else None
          | _, _, _ => None
          end
      | _, _ => None
      end
  | _, _ => None
  end.

Definition clean_transaction_raw (s : string) : result string := OK s.
Definition str_encode (s : string) : lib_result bytes := inl (list_byte_of_string s).
Definition bytes_decode (b : bytes) : lib_result string := inl (string_of_list_byte b).
Definition b64decode (b : bytes) : lib_result bytes :=
  match b64 (List.length b) b with
  | Some d => inl d
  | None => inr binascii_error
  end.
Definition json_loads (t : string) : lib_result pyval :=
  if t =? render envelope then inl envelope
  else if t =? "[]" then inl (PList [])
  else if t =? "{}" then inl (PDict [])
  else inr json_error.
Definition json_dumps (v : pyval) : lib_result string := inl (render v).

Definition config : list (string * pyval) :=
  [("mainnet", PDict [("vapor-core", PStr "https://vapor.example/api");
                      ("blockcenter", PStr "https://center.example/api/v3")]);
   ("timeout", PNum (NInt 60));
   ("headers", PDict [("content-type", PStr "application/json")])].

Definition format (v : pyval) : string :=
  match v with
  | PStr s => s
  | _ => render v
  end.

Definition decoded_tx : pyval := PDict [("tx_id", PStr "96db48d3")].

Definition requests_post (r : request) : lib_result response :=
  inl {| status_code := 200;
         response_json := inl (PDict [("code", PNum (NInt 200)); ("msg", PStr "");
                                      ("data", decoded_tx)]) |}.

Definition headers : pyval := PDict [("content-type", PStr "application/json")].
Definition timeout : pyval := PNum (NInt 60).

(** The request that decoding the sample posts, and the dict it returns. *)
Definition decode_request : request :=
  {| req_url := "https://vapor.example/api/decode-raw-transaction";
     req_data := render (PDict [("raw_transaction", PStr "07010001")]);
     req_params := None;
     req_headers := headers;
     req_timeout := timeout |}.

Definition decoded : pyval :=
  PDict [("fee", PNum (NInt 449000));
         ("address", PStr "vp1qf78sazxs539nmzztq7md63fk2x8lew6ed2gu5rnt9um7jerrh07qcyvk37");
         ("type", PStr "vapor_refund_unsigned");
         ("tx", decoded_tx);
         ("unsigned_datas", PList []);
         ("signatures", PList []);
         ("network", PStr "mainnet")].

(** A stand-in for [pybytom.utils.is_address]: addresses start with "vp1". *)
Definition btm_is_address (a : string) (network : option string) (vapor : bool) : bool :=
  vapor && String.prefix "vp1" a.

(** A stand-in for [RefundTransaction]: the builder accepts [int] amounts
    and the raw text records the amount. *)
Definition RefundTransaction (network : string) : result string :=
  if str_in network networks then OK network
  else Raise (SwapError NetworkError [PStr "Invalid network"]).

Definition build_transaction (t address transaction_id : string) (amount : pyval)
    (max_amount : bool) (asset : string) : result string :=
  match amount with
  | PNum (NInt z) => OK (t ++ ":" ++ render_int z)
  | _ => Raise (LibError keyboard_interrupt)
  end.

Definition get_raw (t : string) : result string := OK t.

(** A builder that is interrupted from the keyboard while it runs. *)
Definition interrupted_build (t address transaction_id : string) (amount : pyval)
    (max_amount : bool) (asset : string) : result string :=
  Raise (LibError keyboard_interrupt).

Definition exn_str (e : exn) : string :=
  match e with
  | PyTypeError m | PyValueError m | PyOverflowError m | PyZeroDivisionError m => m
  | PyKeyError k => render k
  | SwapError _ (PStr m :: _) => m
  | SwapError _ _ => ""
  | LibError l => lib_text l
  end.

End Sample.

(** ** Binary64 rounding

    The exact quotient or product that an operation rounds is [N / D]
    times a power of two; these definitions state where it lies and what
    the rounded mantissa becomes. *)

(** Where [N / D] lies in the interval [m, m + 1), as a rounding location. *)
Definition located (m : Z) (l : location) (N D : Z) : Prop :=
  match l with
  | loc_Exact => (N = m * D)%Z
  | loc_Inexact Lt => (m * D < N /\ 2 * N < (2 * m + 1) * D)%Z
  | loc_Inexact Eq => (2 * N = (2 * m + 1) * D)%Z
  | loc_Inexact Gt => ((2 * m + 1) * D < 2 * N /\ N < (m + 1) * D)%Z
  end.

(** The mantissa and exponent that [binary_round_aux] produces from the
    rounded mantissa [m] at exponent [e]. *)
Definition renormalized (s : bool) (m e : Z) : spec_float :=
  if (m <? 2 ^ 53)%Z then S754_finite s (Z.to_pos m) e
  else S754_finite s (Z.to_pos (2 ^ 52)) (e + 1).

(** [1.0], as [float(1)] yields it. *)
Definition one : spec_float := S754_finite false 4503599627370496 (-52).

(** [float(100000000)]. *)
Definition hundred_million : spec_float :=
  S754_finite false 6710886400000000 (-26).

(** The builder calls among the events of a run. *)
Definition builder_calls (evs : list event) : list event :=
  filter (fun e => match e with Build _ _ _ _ _ => true | Echo _ _ => false end) evs.

(** [r] raises an exception of class [c] of [swap.exceptions]. *)
Definition raises {A} (c : swap_error) (r : result A) : Prop :=
  exists args, r = Raise (SwapError c args).

(** No exception of class [c] comes out of [r]. *)
Definition never {A} (c : swap_error) (r : result A) : Prop := ~ raises c r.

(** No run of [m] raises an exception of class [c]. *)
Definition io_never {A} (c : swap_error) (m : io A) : Prop :=
  forall log, never c (snd (m log)).

(** The keys of the envelope that decode_transaction_raw copies. *)
Definition metadata_keys : list string :=
  ["fee"; "address"; "type"; "unsigned_datas"; "signatures"; "network"].

(** ** The phases of decode_transaction_raw and submit_transaction_raw

    Both functions prepare one request from the envelope, post it, and
    build their result from the envelope and the response.  The two pure
    phases are named here to state what happens around the single post. *)

(** The statements of decode_transaction_raw from [url = ...] to the
    arguments of [requests.post]. *)
Definition decode_prepare (json_dumps : pyval -> lib_result string)
    (config : list (string * pyval)) (format : pyval -> string)
    (loaded headers timeout : pyval) : result request :=
  network <- getitem_str loaded "network" ;;
  node <- dict_getitem config network ;;
  core <- getitem_str node "vapor-core" ;;
  raw <- getitem_str loaded "raw" ;;
  body <- lift (json_dumps (PDict [("raw_transaction", raw)])) ;;
  OK {| req_url := format core ++ "/decode-raw-transaction";
        req_data := body; req_params := None;
        req_headers := headers; req_timeout := timeout |}.

(** The statements of decode_transaction_raw after [requests.post]. *)
Definition decode_finish (loaded : pyval) (resp : response) : result pyval :=
  response_json <- lift (response_json resp) ;;
  if (status_code resp =? 400)%Z then
    msg <- getitem_str response_json "msg" ;;
    code <- getitem_str response_json "code" ;;
    Raise (SwapError APIError [msg; code])
  else
    fee <- getitem_str loaded "fee" ;;
    address <- getitem_str loaded "address" ;;
    type <- getitem_str loaded "type" ;;
    tx <- getitem_str response_json "data" ;;
    unsigned_datas <- getitem_str loaded "unsigned_datas" ;;
    signatures <- getitem_str loaded "signatures" ;;
    network <- getitem_str loaded "network" ;;
    OK (PDict [("fee", fee); ("address", address); ("type", type);
               ("tx", tx); ("unsigned_datas", unsigned_datas);
               ("signatures", signatures); ("network", network)]).

(** The statements of submit_transaction_raw from [url = ...] to the
    arguments of [requests.post]. *)
Definition submit_prepare (json_dumps : pyval -> lib_result string)
    (config : list (string * pyval)) (format : pyval -> string)
    (loaded headers timeout : pyval) : result request :=
  network <- getitem_str loaded "network" ;;
  node <- dict_getitem config network ;;
  center <- getitem_str node "blockcenter" ;;
  raw <- getitem_str loaded "raw" ;;
  signatures <- getitem_str loaded "signatures" ;;
  address <- getitem_str loaded "address" ;;
  body <- lift (json_dumps (PDict [("raw_transaction", raw);
                                   ("signatures", signatures)])) ;;
  OK {| req_url := format center ++ "/merchant/submit-payment";
        req_data := body; req_params := Some (PDict [("address", address)]);
        req_headers := headers; req_timeout := timeout |}.

(** The statements of submit_transaction_raw after [requests.post]. *)
Definition submit_finish (utcnow : string) (loaded : pyval) (resp : response) :
    result pyval :=
  response_json <- lift (response_json resp) ;;
  code <- getitem_str response_json "code" ;;
  if ne_int code 200 then
    msg <- getitem_str response_json "msg" ;;
    code <- getitem_str response_json "code" ;;
    Raise (SwapError APIError [msg; code])
  else
    fee <- getitem_str loaded "fee" ;;
    type <- getitem_str loaded "type" ;;
    data <- getitem_str response_json "data" ;;
    transaction_id <- getitem_str data "tx_hash" ;;
    network <- getitem_str loaded "network" ;;
    OK (PDict [("fee", fee); ("type", type);
               ("transaction_id", transaction_id);
               ("network", network); ("date", PStr utcnow)]).

(** What a run that checks, loads, prepares one request, posts it and
    finishes from the response leaves: the log and the result. *)
Definition one_post_run (valid : result bool) (loaded : result pyval)
    (prepare : pyval -> result request)
    (requests_post : request -> lib_result response)
    (finish : pyval -> response -> result pyval) : list request * result pyval :=
  match valid with
  | Raise e => ([], Raise e)
  | OK false => ([], Raise transaction_raw_error)
  | OK true =>
      match loaded with
      | Raise e => ([], Raise e)
      | OK envelope =>
          match prepare envelope with
          | Raise e => ([], Raise e)
          | OK req =>
              ([req],
               match requests_post req with
               | inr e => Raise (LibError e)
               | inl resp => finish envelope resp
               end)
          end
      end
  end.

(** The negation of a result: of the int or of the float returned. *)
Definition negated (r : result pyval) : result pyval :=
  match r with
  | OK (PNum (NInt z)) => OK (PNum (NInt (- z)))
  | OK (PNum (NFloat f)) => OK (PNum (NFloat (SFopp f)))
  | _ => r
  end.

(** ** Sample services

    Stand-ins for the two HTTP services and for an envelope that lacks
    the fee, to run the transaction-raw functions on. *)

Module Service.

(** A service that rejects every request with the given HTTP status. *)
Definition rejecting_post (status : Z) (r : request) : lib_result response :=
  inl {| status_code := status;
         response_json := inl (PDict [("code", PNum (NInt 300));
                                      ("msg", PStr "invalid transaction")]) |}.

(** The payment service accepting a transaction. *)
Definition accepting_post (r : request) : lib_result response :=
  inl {| status_code := 200;
         response_json :=
           inl (PDict [("code", PNum (NInt 200)); ("msg", PStr "");
                       ("data", PDict [("tx_hash", PStr "96db48d3")])]) |}.

(** The request that submitting the sample posts, and the dict returned. *)
Definition submit_request : request :=
  {| req_url := "https://center.example/api/v3/merchant/submit-payment";
     req_data := Sample.render (PDict [("raw_transaction", PStr "07010001");
                                       ("signatures", PList [])]);
     req_params :=
       Some (PDict [("address",
                     PStr "vp1qf78sazxs539nmzztq7md63fk2x8lew6ed2gu5rnt9um7jerrh07qcyvk37")]);
     req_headers := Sample.headers;
     req_timeout := Sample.timeout |}.

Definition submitted : pyval :=
  PDict [("fee", PNum (NInt 449000));
         ("type", PStr "vapor_refund_unsigned");
         ("transaction_id", PStr "96db48d3");
         ("network", PStr "mainnet");
         ("date", PStr "2020-01-01")].

(** An envelope with a type, a network and a raw, and nothing else. *)
Definition short_envelope : pyval :=
  PDict [("raw", PStr "07010001");
         ("network", PStr "mainnet");
         ("type", PStr "vapor_fund_signed")].

(** A [json.loads] that reads that envelope from every text. *)
Definition json_loads_short (t : string) : lib_result pyval := inl short_envelope.

End Service.

(** * Properties *)

(** ** Results and the request log *)

Lemma bind_OK {A B} (r : result A) (k : A -> result B) (b : B) :
  bind r k = OK b -> exists a, r = OK a /\ k a = OK b.
Proof.
  destruct r as [a|e]; simpl; intros H; [exists a; auto | discriminate].
Qed.

Lemma lift_OK {A} (r : lib_result A) (a : A) : lift r = OK a -> r = inl a.
Proof. destruct r; simpl; congruence. Qed.

Lemma io_bind_OK {A B} (c : io A) (k : A -> io B) log log' (b : B) :
  io_bind c k log = (log', OK b) ->
  exists a log1, c log = (log1, OK a) /\ k a log1 = (log', OK b).
Proof.
  unfold io_bind. destruct (c log) as [log1 [a|e]]; intros H.
  - exists a, log1. auto.
  - discriminate.
Qed.

Lemma io_lift_OK {A} (r : result A) log log' (a : A) :
  io_lift r log = (log', OK a) -> log' = log /\ r = OK a.
Proof. unfold io_lift. intros H. inversion H. auto. Qed.

Lemma never_OK {A} c (a : A) : never c (OK a).
Proof. intros [args H]. discriminate. Qed.

Lemma never_lift {A} c (r : lib_result A) : never c (lift r).
Proof. intros [args H]. destruct r; discriminate. Qed.

Lemma never_getitem_str c v k : never c (getitem_str v k).
Proof.
  intros [args H]. destruct v as [| |[]| | |d]; simpl in H; try discriminate.
  destruct (lookup k d); discriminate.
Qed.

Lemma never_dict_getitem c d k : never c (dict_getitem d k).
Proof.
  intros [args H]. destruct k; simpl in H; try discriminate.
  destruct (lookup s d); discriminate.
Qed.

Lemma io_never_lift {A} c (r : result A) : never c r -> io_never c (io_lift r).
Proof. intros H log. exact H. Qed.

Lemma io_never_ret {A} c (a : A) : io_never c (io_ret a).
Proof. intros log. apply never_OK. Qed.

Lemma io_never_bind {A B} c (m : io A) (k : A -> io B) :
  io_never c m -> (forall a, io_never c (k a)) -> io_never c (io_bind m k).
Proof.
  intros Hm Hk log. unfold io_bind. specialize (Hm log).
  destruct (m log) as [log1 [a|e]]; simpl in *; [apply Hk |].
  intros [args H]. apply Hm. exists args. congruence.
Qed.

Lemma io_never_raise {A} c c' args :
  c' <> c -> io_never c (@io_raise A (SwapError c' args)).
Proof. intros Hne log [args' H]. simpl in H. congruence. Qed.

Create HintDb swap.
#[local] Hint Resolve never_OK never_lift never_getitem_str never_dict_getitem
  io_never_lift io_never_ret : swap.

Ltac io_never_steps :=
  repeat first
    [ apply io_never_ret
    | apply io_never_raise; discriminate
    | apply io_never_bind; [ solve [auto with swap] | intros ? ]
    | match goal with |- io_never _ (if ?b then _ else _) => destruct b end ].

(** ** The transaction-raw functions *)

Section UtilsFacts.

Variable clean_transaction_raw : string -> result string.
Variable str_encode : string -> lib_result bytes.
Variable bytes_decode : bytes -> lib_result string.
Variable b64decode : bytes -> lib_result bytes.
Variable json_loads : string -> lib_result pyval.
Variable json_dumps : pyval -> lib_result string.
Variable config : list (string * pyval).
Variable format : pyval -> string.
Variable requests_post : request -> lib_result response.
Variable utcnow : string.
Variable btm_is_address : string -> option string -> bool -> bool.

Notation load :=
  (load_transaction_raw clean_transaction_raw str_encode bytes_decode
     b64decode json_loads).
Notation is_raw :=
  (is_transaction_raw clean_transaction_raw str_encode bytes_decode
     b64decode json_loads).
Notation decode :=
  (decode_transaction_raw clean_transaction_raw str_encode bytes_decode
     b64decode json_loads json_dumps config format requests_post).
Notation submit :=
  (submit_transaction_raw clean_transaction_raw str_encode bytes_decode
     b64decode json_loads json_dumps config format requests_post utcnow).

Lemma is_transaction_raw_str (s : string) :
  is_raw (PStr s) =
  OK match load s with
     | OK v =>
         match getitem_str v "type" with
         | OK type => in_strs type tags
         | Raise _ => false
         end
     | Raise _ => false
     end.
Proof.
  unfold is_transaction_raw, bind.
  destruct (load s) as [v|e]; [|reflexivity].
  destruct (getitem_str v "type"); reflexivity.
Qed.

Lemma load_OK (s : string) (v : pyval) :
  load s = OK v <->
  exists c enc d t,
    clean_transaction_raw s = OK c /\ str_encode c = inl enc /\
    b64decode enc = inl d /\ bytes_decode d = inl t /\ json_loads t = inl v.
Proof.
  unfold load_transaction_raw. split.
  - intros H.
    apply bind_OK in H as (c & Hc & H).
    apply bind_OK in H as (enc & Henc & H). apply lift_OK in Henc.
    apply bind_OK in H as (d & Hd & H). apply lift_OK in Hd.
    apply bind_OK in H as (t & Ht & H). apply lift_OK in Ht.
    apply lift_OK in H.
    exists c, enc, d, t. auto.
  - intros (c & enc & d & t & Hc & Henc & Hd & Ht & Hv).
    rewrite Hc. simpl. rewrite Henc. simpl. rewrite Hd. simpl.
    rewrite Ht. simpl. rewrite Hv. reflexivity.
Qed.

Lemma in_strs_true (v : pyval) (l : list string) :
  in_strs v l = true <-> exists t, v = PStr t /\ In t l.
Proof.
  unfold in_strs. rewrite existsb_exists. split.
  - intros (x & Hin & Heq). destruct v; simpl in Heq; try discriminate.
    apply String.eqb_eq in Heq. subst. eauto.
  - intros (t & -> & Hin). exists t. split; [exact Hin|].
    simpl. apply String.eqb_refl.
Qed.

Lemma getitem_str_OK (c : pyval) (k : string) (v : pyval) :
  getitem_str c k = OK v <-> exists d, c = PDict d /\ lookup k d = Some v.
Proof.
  split.
  - destruct c as [| |[]| | |d]; simpl; try discriminate.
    destruct (lookup k d) eqn:E; [|discriminate].
    intros H. inversion H. subst. eauto.
  - intros (d & -> & H). simpl. rewrite H. reflexivity.
Qed.

Lemma is_transaction_raw_valid (s : string) :
  is_raw (PStr s) = OK true ->
  exists d type,
    load s = OK (PDict d) /\ lookup "type" d = Some (PStr type) /\ In type tags.
Proof.
  rewrite is_transaction_raw_str. intros H.
  destruct (load s) as [v|e]; [|discriminate].
  destruct (getitem_str v "type") as [ty|e] eqn:E; [|discriminate].
  apply getitem_str_OK in E as (d & -> & Hl).
  assert (Hin : in_strs ty tags = true) by congruence.
  apply in_strs_true in Hin as (t & -> & Hin). eauto.
Qed.

(** C2: on a string, is_transaction_raw returns a boolean, and it returns
    True exactly when the cleaned string can be base64-decoded to bytes
    that parse as a JSON object having a 'type' key whose value is one
    of the six vapor tags. *)
Theorem is_transaction_raw_true_iff (s : string) :
  exists b,
    is_raw (PStr s) = OK b /\
    (b = true <->
     exists c enc d t kv type,
       clean_transaction_raw s = OK c /\ str_encode c = inl enc /\
       b64decode enc = inl d /\ bytes_decode d = inl t /\
       json_loads t = inl (PDict kv) /\
       lookup "type" kv = Some (PStr type) /\ In type tags).
Proof.
  eexists. split; [apply is_transaction_raw_str|]. split.
  - intros H.
    destruct (is_transaction_raw_valid s) as (kv & ty & Hl & Hk & Hin).
    { rewrite is_transaction_raw_str. f_equal. exact H. }
    apply load_OK in Hl as (c & enc & d & t & Hl).
    exists c, enc, d, t, kv, ty. intuition.
  - intros (c & enc & d & t & kv & ty & Hc & He & Hd & Ht & Hj & Hk & Hin).
    assert (Hl : load s = OK (PDict kv)).
    { apply load_OK. exists c, enc, d, t. auto. }
    rewrite Hl. unfold getitem_str. rewrite Hk. apply in_strs_true. eauto.
Qed.

(** C8: on every string is_transaction_raw returns a boolean and never
    raises; a failure of cleaning, decoding or parsing, text that is not
    base64, base64 of bytes that are not JSON, and a JSON object without
    the 'type' key all give False. *)
Theorem is_transaction_raw_total (s : string) :
  (exists b, is_raw (PStr s) = OK b) /\
  (forall e, load s = Raise e -> is_raw (PStr s) = OK false) /\
  (forall c enc e,
      clean_transaction_raw s = OK c -> str_encode c = inl enc ->
      b64decode enc = inr e -> is_raw (PStr s) = OK false) /\
  (forall c enc d t e,
      clean_transaction_raw s = OK c -> str_encode c = inl enc ->
      b64decode enc = inl d -> bytes_decode d = inl t ->
      json_loads t = inr e -> is_raw (PStr s) = OK false) /\
  (forall v e,
      load s = OK v -> getitem_str v "type" = Raise e ->
      is_raw (PStr s) = OK false) /\
  (forall kv,
      load s = OK (PDict kv) -> lookup "type" kv = None ->
      is_raw (PStr s) = OK false).
Proof.
  rewrite is_transaction_raw_str. repeat split.
  - eexists. reflexivity.
  - intros e H. rewrite H. reflexivity.
  - intros c enc e Hc He Hd. unfold load_transaction_raw.
    rewrite Hc. simpl. rewrite He. simpl. rewrite Hd. reflexivity.
  - intros c enc d t e Hc He Hd Ht Hj. unfold load_transaction_raw.
    rewrite Hc. simpl. rewrite He. simpl. rewrite Hd. simpl.
    rewrite Ht. simpl. rewrite Hj. reflexivity.
  - intros v e Hl Hk. rewrite Hl, Hk. reflexivity.
  - intros kv Hl Hk. rewrite Hl. simpl. rewrite Hk. reflexivity.
Qed.

Lemma decode_invalid (s : string) (headers timeout : pyval) :
  is_raw (PStr s) = OK false ->
  run (decode s headers timeout) = ([], Raise transaction_raw_error).
Proof.
  intros H. unfold run, decode_transaction_raw, io_bind, io_lift.
  rewrite H. reflexivity.
Qed.

Lemma submit_invalid (s : string) (headers timeout : pyval) :
  is_raw (PStr s) = OK false ->
  run (submit s headers timeout) = ([], Raise transaction_raw_error).
Proof.
  intros H. unfold run, submit_transaction_raw, io_bind, io_lift.
  rewrite H. reflexivity.
Qed.

Lemma io_never_post c (r : request) :
  io_never c (post requests_post r).
Proof. intros log. unfold post. simpl. apply never_lift. Qed.

Lemma decode_valid (s : string) (headers timeout : pyval) :
  is_raw (PStr s) = OK true ->
  never TransactionRawError (snd (run (decode s headers timeout))).
Proof.
  intros H. destruct (is_transaction_raw_valid s H) as (kv & ty & Hl & _).
  unfold run, decode_transaction_raw.
  unfold io_bind at 1. unfold io_lift at 1. rewrite H. cbn [negb].
  rewrite Hl.
  generalize (@nil request).
  change (io_never TransactionRawError
    (loaded <~ io_lift (OK (PDict kv)) ;;
     network <~ io_lift (getitem_str loaded "network") ;;
     node <~ io_lift (dict_getitem config network) ;;
     core <~ io_lift (getitem_str node "vapor-core") ;;
     raw <~ io_lift (getitem_str loaded "raw") ;;
     body <~ io_lift (lift (json_dumps (PDict [("raw_transaction", raw)]))) ;;
     response <~ post requests_post
                   {| req_url := format core ++ "/decode-raw-transaction";
                      req_data := body; req_params := None;
                      req_headers := headers; req_timeout := timeout |} ;;
     response_json <~ io_lift (lift (response_json response)) ;;
     if (status_code response =? 400)%Z then
       msg <~ io_lift (getitem_str response_json "msg") ;;
       code <~ io_lift (getitem_str response_json "code") ;;
       io_raise (SwapError APIError [msg; code])
     else
       fee <~ io_lift (getitem_str loaded "fee") ;;
       address <~ io_lift (getitem_str loaded "address") ;;
       type <~ io_lift (getitem_str loaded "type") ;;
       tx <~ io_lift (getitem_str response_json "data") ;;
       unsigned_datas <~ io_lift (getitem_str loaded "unsigned_datas") ;;
       signatures <~ io_lift (getitem_str loaded "signatures") ;;
       network <~ io_lift (getitem_str loaded "network") ;;
       io_ret (PDict [("fee", fee); ("address", address); ("type", type);
                      ("tx", tx); ("unsigned_datas", unsigned_datas);
                      ("signatures", signatures); ("network", network)]))%py).
  repeat (apply io_never_bind; [solve [auto with swap] | intros ?]).
  apply io_never_bind; [apply io_never_post | intros ?].
  io_never_steps.
Qed.

Lemma submit_valid (s : string) (headers timeout : pyval) :
  is_raw (PStr s) = OK true ->
  never TransactionRawError (snd (run (submit s headers timeout))).
Proof.
  intros H. destruct (is_transaction_raw_valid s H) as (kv & ty & Hl & _).
  unfold run, submit_transaction_raw.
  unfold io_bind at 1. unfold io_lift at 1. rewrite H. cbn [negb].
  rewrite Hl. generalize (@nil request).
  match goal with
  | |- forall l, never _ (snd (?m l)) => change (io_never TransactionRawError m)
  end.
  repeat (apply io_never_bind; [solve [auto with swap] | intros ?]).
  apply io_never_bind; [apply io_never_post | intros ?].
  io_never_steps.
Qed.

Lemma is_transaction_raw_bool (s : string) :
  is_raw (PStr s) = OK true \/ is_raw (PStr s) = OK false.
Proof.
  rewrite is_transaction_raw_str.
  match goal with |- OK ?b = _ \/ _ => destruct b end; auto.
Qed.

(** C3: decode_transaction_raw and submit_transaction_raw raise
    TransactionRawError exactly when is_transaction_raw returns False for
    the input, and in that case no HTTP request has been issued. *)
Theorem transaction_raw_checked_first (s : string) (headers timeout : pyval) :
  (raises TransactionRawError (snd (run (decode s headers timeout))) <->
   is_raw (PStr s) = OK false) /\
  (raises TransactionRawError (snd (run (submit s headers timeout))) <->
   is_raw (PStr s) = OK false) /\
  (is_raw (PStr s) = OK false ->
   fst (run (decode s headers timeout)) = [] /\
   fst (run (submit s headers timeout)) = []).
Proof.
  split; [|split].
  - split.
    + intros Hr. destruct (is_transaction_raw_bool s) as [Ht|Hf]; [|exact Hf].
      exfalso. exact (decode_valid s headers timeout Ht Hr).
    + intros Hf. rewrite (decode_invalid s headers timeout Hf).
      eexists. reflexivity.
  - split.
    + intros Hr. destruct (is_transaction_raw_bool s) as [Ht|Hf]; [|exact Hf].
      exfalso. exact (submit_valid s headers timeout Ht Hr).
    + intros Hf. rewrite (submit_invalid s headers timeout Hf).
      eexists. reflexivity.
  - intros Hf. rewrite (decode_invalid s headers timeout Hf).
    rewrite (submit_invalid s headers timeout Hf). auto.
Qed.

Lemma post_OK (r : request) log log' (resp : response) :
  post requests_post r log = (log', OK resp) ->
  log' = (log ++ [r])%list /\ requests_post r = inl resp.
Proof.
  unfold post. intros H. inversion H. split; [reflexivity|].
  apply lift_OK. assumption.
Qed.

(** C4: a dict returned by decode_transaction_raw has exactly the keys
    fee, address, type, tx, unsigned_datas, signatures and network; the six
    metadata values are those of the decoded JSON envelope, and tx is the
    'data' member of the response of the one request that was posted. *)
Theorem decode_transaction_raw_frame (s : string) (headers timeout : pyval)
    (log : list request) (d : pyval) :
  run (decode s headers timeout) = (log, OK d) ->
  exists loaded req resp rj items,
    load s = OK loaded /\ log = [req] /\
    requests_post req = inl resp /\ response_json resp = inl rj /\
    d = PDict items /\
    map fst items =
      ["fee"; "address"; "type"; "tx"; "unsigned_datas"; "signatures"; "network"] /\
    (forall k, In k metadata_keys ->
       exists v, getitem_str loaded k = OK v /\ getitem_str d k = OK v) /\
    (exists v, getitem_str rj "data" = OK v /\ getitem_str d "tx" = OK v).
Proof.
  unfold run, decode_transaction_raw. intros H.
  apply io_bind_OK in H as (valid & l0 & Hv & H).
  apply io_lift_OK in Hv as [-> Hv].
  destruct valid; cbn [negb] in H; [|discriminate].
  apply io_bind_OK in H as (loaded & l1 & Hl & H).
  apply io_lift_OK in Hl as [-> Hl].
  apply io_bind_OK in H as (network & l1 & Hn & H).
  apply io_lift_OK in Hn as [-> Hn].
  apply io_bind_OK in H as (node & l1 & Hnode & H).
  apply io_lift_OK in Hnode as [-> Hnode].
  apply io_bind_OK in H as (core & l1 & Hcore & H).
  apply io_lift_OK in Hcore as [-> Hcore].
  apply io_bind_OK in H as (raw & l1 & Hraw & H).
  apply io_lift_OK in Hraw as [-> Hraw].
  apply io_bind_OK in H as (body & l1 & Hbody & H).
  apply io_lift_OK in Hbody as [-> Hbody].
  apply io_bind_OK in H as (resp & l1 & Hpost & H).
  apply post_OK in Hpost as [-> Hpost].
  apply io_bind_OK in H as (rj & l1 & Hrj & H).
  apply io_lift_OK in Hrj as [-> Hrj]. apply lift_OK in Hrj.
  destruct (status_code resp =? 400)%Z.
  { apply io_bind_OK in H as (msg & l1 & _ & H).
    apply io_bind_OK in H as (code & l2 & _ & H). discriminate. }
  apply io_bind_OK in H as (fee & l1 & Hfee & H).
  apply io_lift_OK in Hfee as [-> Hfee].
  apply io_bind_OK in H as (address & l1 & Haddr & H).
  apply io_lift_OK in Haddr as [-> Haddr].
  apply io_bind_OK in H as (type & l1 & Htype & H).
  apply io_lift_OK in Htype as [-> Htype].
  apply io_bind_OK in H as (tx & l1 & Htx & H).
  apply io_lift_OK in Htx as [-> Htx].
  apply io_bind_OK in H as (unsigned_datas & l1 & Hu & H).
  apply io_lift_OK in Hu as [-> Hu].
  apply io_bind_OK in H as (signatures & l1 & Hs & H).
  apply io_lift_OK in Hs as [-> Hs].
  apply io_bind_OK in H as (network' & l1 & Hn' & H).
  apply io_lift_OK in Hn' as [-> Hn'].
  unfold io_ret in H. inversion H; subst log d; clear H.
  eexists loaded, _, resp, rj, _.
  split; [exact Hl|]. split; [reflexivity|]. split; [exact Hpost|].
  split; [exact Hrj|]. split; [reflexivity|]. split; [reflexivity|]. split.
  - intros k Hk. unfold metadata_keys in Hk. simpl in Hk.
    destruct Hk as [<-|[<-|[<-|[<-|[<-|[<-|[]]]]]]]; eexists;
      (split; [eassumption | reflexivity]).
  - exists tx. split; [exact Htx | reflexivity].
Qed.

(** C10: for an address that pybytom accepts as a Vapor address and whose
    length is neither 42 nor 62, get_address_type returns None; for an
    address that it rejects, get_address_type raises AddressError. *)
Theorem get_address_type_other (address : string) :
  (is_address btm_is_address address None = OK true ->
   String.length address <> 42%nat -> String.length address <> 62%nat ->
   get_address_type btm_is_address address = OK PNone) /\
  (is_address btm_is_address address None = OK false ->
   get_address_type btm_is_address address = Raise (address_error address) /\
   raises AddressError (get_address_type btm_is_address address)).
Proof.
  unfold get_address_type. split.
  - intros Hv H42 H62. rewrite Hv. cbn [bind negb].
    destruct (Z.eqb_spec (Z.of_nat (String.length address)) 42) as [E|_]; [lia|].
    destruct (Z.eqb_spec (Z.of_nat (String.length address)) 62) as [E|_]; [lia|].
    reflexivity.
  - intros Hv. rewrite Hv. cbn [bind negb]. split; [reflexivity|].
    eexists. reflexivity.
Qed.

End UtilsFacts.

(** ** Binary64 arithmetic: what rounding does

    The operations of [SpecFloat] are characterised in the normal range:
    each returns a mantissa of 53 bits within half a unit of the exact
    result.  The facts about amount_converter follow from that. *)

Local Open Scope Z_scope.

(** [digits2_pos p] is the number of bits of [p]. *)
Lemma digits2_pos_bounds (p : positive) :
  2 ^ (Zpos (digits2_pos p) - 1) <= Zpos p < 2 ^ Zpos (digits2_pos p).
Proof.
  induction p as [p IH|p IH|]; cbn [digits2_pos].
  - rewrite Pos2Z.inj_succ.
    replace (Z.succ (Zpos (digits2_pos p)) - 1) with (Z.succ (Zpos (digits2_pos p) - 1)) by lia.
    rewrite !Z.pow_succ_r by lia. lia.
  - rewrite Pos2Z.inj_succ.
    replace (Z.succ (Zpos (digits2_pos p)) - 1) with (Z.succ (Zpos (digits2_pos p) - 1)) by lia.
    rewrite !Z.pow_succ_r by lia. lia.
  - simpl. lia.
Qed.

Lemma Zdigits2_unique (m k : Z) :
  2 ^ (k - 1) <= m < 2 ^ k -> 0 < k -> Zdigits2 m = k.
Proof.
  intros [Hlo Hhi] Hk.
  assert (0 < m) by (pose proof (Z.pow_pos_nonneg 2 (k - 1)); lia).
  destruct m as [|p|p]; try lia. cbn [Zdigits2].
  pose proof (digits2_pos_bounds p) as [Hl Hh].
  set (d := Zpos (digits2_pos p)) in *.
  assert (0 < d) by (unfold d; lia).
  destruct (Z.lt_trichotomy d k) as [Hlt|[Heq|Hgt]]; [|exact Heq|].
  - assert (2 ^ d <= 2 ^ (k - 1)) by (apply Z.pow_le_mono_r; lia). lia.
  - assert (2 ^ k <= 2 ^ (d - 1)) by (apply Z.pow_le_mono_r; lia). lia.
Qed.

Lemma shr_1_m (mrs : shr_record) :
  0 <= shr_m mrs -> shr_m (shr_1 mrs) = shr_m mrs / 2.
Proof.
  destruct mrs as [m r s]. cbn [shr_m]. intros Hm.
  destruct m as [|[p|p|]|p]; try lia; cbn [shr_1 shr_m].
  - reflexivity.
  - rewrite Pos2Z.inj_xI. apply Z.div_unique with 1; lia.
  - rewrite Pos2Z.inj_xO. apply Z.div_unique with 0; lia.
  - reflexivity.
Qed.

(** One right shift halves the mantissa and keeps the location of [N / D],
    now read against [2 * D]. *)
Lemma shr_1_located (mrs : shr_record) (N D : Z) :
  0 <= shr_m mrs -> 0 < D ->
  located (shr_m mrs) (loc_of_shr_record mrs) N D ->
  located (shr_m (shr_1 mrs)) (loc_of_shr_record (shr_1 mrs)) N (2 * D).
Proof.
  destruct mrs as [m r s]. cbn [shr_m]. intros Hm HD H.
  destruct m as [|[p|p|]|p]; try lia.
  - destruct r, s; cbn [shr_1 shr_m loc_of_shr_record orb located] in *; lia.
  - rewrite Pos2Z.inj_xI in H. set (P := Zpos p) in *.
    destruct r, s; cbn [shr_1 shr_m loc_of_shr_record orb located] in *;
      fold P; lia.
  - rewrite Pos2Z.inj_xO in H. set (P := Zpos p) in *.
    destruct r, s; cbn [shr_1 shr_m loc_of_shr_record orb located] in *;
      fold P; lia.
  - destruct r, s; cbn [shr_1 shr_m loc_of_shr_record orb located] in *; lia.
Qed.

Lemma loc_of_record (m : Z) (l : location) :
  loc_of_shr_record (shr_record_of_loc m l) = l /\ shr_m (shr_record_of_loc m l) = m.
Proof. destruct l as [|[]]; split; reflexivity. Qed.

(** [p] right shifts divide the mantissa by [2 ^ p]. *)
Lemma iter_shr_1 (N : Z) (p : positive) :
  forall (mrs : shr_record) (D : Z),
    0 <= shr_m mrs -> 0 < D ->
    located (shr_m mrs) (loc_of_shr_record mrs) N D ->
    let mrs' := iter_pos shr_1 p mrs in
    shr_m mrs' = shr_m mrs / 2 ^ Zpos p /\
    located (shr_m mrs') (loc_of_shr_record mrs') N (D * 2 ^ Zpos p).
Proof.
  induction p as [p IH|p IH|]; intros mrs D Hm HD H; cbn [iter_pos].
  - pose proof (shr_1_m mrs Hm) as E1.
    pose proof (shr_1_located mrs N D Hm HD H) as L1.
    assert (Hm1 : 0 <= shr_m (shr_1 mrs)) by (rewrite E1; apply Z.div_pos; lia).
    assert (Hp : 0 < 2 ^ Zpos p) by (apply Z.pow_pos_nonneg; lia).
    destruct (IH (shr_1 mrs) (2 * D) Hm1 ltac:(lia) L1) as [E2 L2].
    assert (Hm2 : 0 <= shr_m (iter_pos shr_1 p (shr_1 mrs)))
      by (rewrite E2; apply Z.div_pos; lia).
    destruct (IH _ (2 * D * 2 ^ Zpos p) Hm2 ltac:(lia) L2) as [E3 L3].
    cbn zeta.
    assert (Hpow : 2 ^ Zpos p~1 = 2 * (2 ^ Zpos p * 2 ^ Zpos p)).
    { replace (Zpos p~1) with (Z.succ (Zpos p + Zpos p)) by lia.
      rewrite Z.pow_succ_r, Z.pow_add_r by lia. reflexivity. }
    rewrite Hpow. split.
    + rewrite E3, E2, E1, !Z.div_div by lia. reflexivity.
    + replace (D * (2 * (2 ^ Zpos p * 2 ^ Zpos p))) with (2 * D * 2 ^ Zpos p * 2 ^ Zpos p) by lia.
      exact L3.
  - assert (Hp : 0 < 2 ^ Zpos p) by (apply Z.pow_pos_nonneg; lia).
    destruct (IH mrs D Hm HD H) as [E2 L2].
    assert (Hm2 : 0 <= shr_m (iter_pos shr_1 p mrs))
      by (rewrite E2; apply Z.div_pos; lia).
    destruct (IH _ (D * 2 ^ Zpos p) Hm2 ltac:(lia) L2) as [E3 L3].
    cbn zeta.
    assert (Hsq : 2 ^ Zpos p~0 = 2 ^ Zpos p * 2 ^ Zpos p).
    { replace (Zpos p~0) with (Zpos p + Zpos p) by lia.
      rewrite Z.pow_add_r by lia. reflexivity. }
    rewrite Hsq. split.
    + rewrite E3, E2, Z.div_div by lia. reflexivity.
    + rewrite Z.mul_assoc. exact L3.
  - cbn zeta. rewrite Z.pow_1_r. split.
    + apply shr_1_m; assumption.
    + rewrite Z.mul_comm. apply shr_1_located; assumption.
Qed.

Lemma fexp_normal (e : Z) : -1074 <= e - 53 -> fexp 53 1024 e = e - 53.
Proof. intros H. unfold fexp, emin. lia. Qed.

Lemma shr_fexp_spec (mx ex : Z) (lx : location) (N D d : Z) :
  0 < D -> 2 ^ (d - 1) <= mx < 2 ^ d -> 53 <= d -> -1074 <= ex + d - 53 ->
  located mx lx N D ->
  exists mrs,
    shr_fexp 53 1024 mx ex lx = (mrs, ex + (d - 53)) /\
    shr_m mrs = mx / 2 ^ (d - 53) /\
    located (shr_m mrs) (loc_of_shr_record mrs) N (D * 2 ^ (d - 53)).
Proof.
  intros HD Hmx Hd He H. unfold shr_fexp.
  rewrite (Zdigits2_unique mx d) by lia.
  rewrite fexp_normal by lia.
  replace (d + ex - 53 - ex) with (d - 53) by lia.
  destruct (loc_of_record mx lx) as [El Em].
  assert (Hpos : 0 <= mx) by (pose proof (Z.pow_nonneg 2 (d - 1)); lia).
  destruct (d - 53) as [|p|p] eqn:E; try lia.
  - exists (shr_record_of_loc mx lx). cbn [shr].
    rewrite Z.add_0_r, Z.pow_0_r, Z.div_1_r, Z.mul_1_r, El, Em. auto.
  - exists (iter_pos shr_1 p (shr_record_of_loc mx lx)). cbn [shr].
    split; [reflexivity|].
    destruct (iter_shr_1 N p (shr_record_of_loc mx lx) D) as [E1 L1];
      rewrite ?El, ?Em; try assumption.
    rewrite Em in E1. auto.
Qed.

(** In the normal range and below overflow, [binary_round_aux] keeps 53 bits:
    the mantissa [m] it rounds to is within half a unit of the exact value
    [N / (D * 2 ^ (d - 53))], where [d] is the size of the input mantissa. *)
Lemma binary_round_aux_spec (sx : bool) (mx ex : Z) (lx : location) (N D d : Z) :
  0 < D -> 2 ^ (d - 1) <= mx < 2 ^ d -> 53 <= d ->
  -1074 <= ex + d - 53 -> ex + d <= 1023 ->
  located mx lx N D ->
  exists m,
    2 ^ 52 <= m <= 2 ^ 53 /\
    2 * m * (D * 2 ^ (d - 53)) - D * 2 ^ (d - 53) <= 2 * N
      <= 2 * m * (D * 2 ^ (d - 53)) + D * 2 ^ (d - 53) /\
    binary_round_aux 53 1024 sx mx ex lx = renormalized sx m (ex + (d - 53)).
Proof.
  intros HD Hmx Hd He Hov H.
  destruct (shr_fexp_spec mx ex lx N D d HD Hmx Hd He H) as (mrs & E & Em & L).
  unfold binary_round_aux. rewrite E.
  set (n := d - 53) in *. set (D' := D * 2 ^ n) in *.
  assert (Hn : 0 < 2 ^ n) by (apply Z.pow_pos_nonneg; lia).
  assert (HD' : 0 < D') by (unfold D'; lia).
  set (m1 := shr_m mrs) in *.
  assert (Hm1 : 2 ^ 52 <= m1 < 2 ^ 53).
  { rewrite Em. replace d with (53 + n) in Hmx by (unfold n; lia).
    replace (53 + n - 1) with (52 + n) in Hmx by lia.
    rewrite !Z.pow_add_r in Hmx by lia. split.
    - apply Z.div_le_lower_bound; lia.
    - apply Z.div_lt_upper_bound; lia. }
  set (l1 := loc_of_shr_record mrs) in *.
  set (m2 := round_nearest_even m1 l1).
  assert (Hm2 : (m2 = m1 \/ m2 = m1 + 1) /\
                2 * m2 * D' - D' <= 2 * N <= 2 * m2 * D' + D').
  { unfold m2. destruct l1 as [|[]]; cbn [round_nearest_even located] in *.
    - split; [auto|lia].
    - destruct (Z.even m1); split; auto; lia.
    - split; [auto|lia].
    - split; [auto|lia]. }
  destruct Hm2 as [Hm2 Hnear].
  exists m2. split; [lia|]. split; [exact Hnear|].
  unfold renormalized. change (2 ^ 53) with 9007199254740992 in *.
  change (2 ^ 52) with 4503599627370496 in *.
  destruct (Z.ltb_spec m2 9007199254740992) as [Hlt|Hge].
  - unfold shr_fexp. rewrite (Zdigits2_unique m2 53) by
      (change (2 ^ (53 - 1)) with 4503599627370496;
       change (2 ^ 53) with 9007199254740992; lia).
    rewrite fexp_normal by lia.
    replace (53 + (ex + n) - 53 - (ex + n)) with 0 by lia.
    cbn [shr shr_record_of_loc shr_m].
    destruct m2 as [|p|p]; try lia.
    replace (ex + n <=? 1024 - 53) with true by (symmetry; apply Z.leb_le; lia).
    reflexivity.
  - assert (m2 = 9007199254740992) by lia. subst m2. rewrite H0.
    unfold shr_fexp. change (Zdigits2 9007199254740992) with 54.
    rewrite fexp_normal by lia.
    replace (54 + (ex + n) - 53 - (ex + n)) with 1 by lia.
    cbn [shr shr_record_of_loc shr_m iter_pos shr_1].
    replace (ex + n + 1 <=? 1024 - 53) with true by (symmetry; apply Z.leb_le; lia).
    reflexivity.
Qed.

(** The location that the remainder of a division gives. *)
Lemma new_location_located (b q r : Z) :
  0 < b -> 0 <= r < b -> located q (new_location b r) (q * b + r) b.
Proof.
  intros Hb Hr. unfold new_location, new_location_even, new_location_odd.
  destruct (Z.even b) eqn:Ev.
  - destruct (Z.eqb_spec r 0) as [->|Hr0]; cbn [located]; [lia|].
    destruct (Z.compare_spec (2 * r) b); cbn [located]; lia.
  - destruct (Z.eqb_spec r 0) as [->|Hr0]; cbn [located]; [lia|].
    assert (Hodd : Z.odd b = true) by (rewrite <- Z.negb_even, Ev; reflexivity).
    apply Z.odd_spec in Hodd as [j Hj].
    destruct (Z.compare_spec (2 * r + 1) b); cbn [located]; lia.
Qed.

Lemma shift_match (m s : Z) :
  0 <= s ->
  match s with
  | 0 => m
  | Zpos _ => Z.shiftl m s
  | Zneg _ => 0
  end = m * 2 ^ s.
Proof.
  intros Hs. destruct s as [|p|p]; try lia.
  apply Z.shiftl_mul_pow2. lia.
Qed.

(** Division of finite operands: the numerator is shifted left by [s] bits,
    the quotient is shifted right by [n] bits, and the rounded mantissa [m]
    is within half a unit of the exact quotient. *)
Lemma SFdiv_finite_spec (sx sy : bool) (mx my : positive) (ex ey dx dy : Z) :
  2 ^ (dx - 1) <= Zpos mx < 2 ^ dx -> 2 ^ (dy - 1) <= Zpos my < 2 ^ dy ->
  0 < dx -> 0 < dy ->
  -1074 <= dx + ex - (dy + ey) - 53 ->
  dx + ex - (dy + ey) + 1 <= 1023 ->
  exists m s n,
    s = Z.max 0 (53 + dy - dx) /\
    dx + s - dy - 53 <= n <= dx + s - dy - 52 /\ 0 <= n /\
    2 ^ 52 <= m <= 2 ^ 53 /\
    2 * m * (Zpos my * 2 ^ n) - Zpos my * 2 ^ n <= 2 * (Zpos mx * 2 ^ s)
      <= 2 * m * (Zpos my * 2 ^ n) + Zpos my * 2 ^ n /\
    SFdiv 53 1024 (S754_finite sx mx ex) (S754_finite sy my ey) =
      renormalized (xorb sx sy) m (ex - ey - s + n).
Proof.
  intros Hmx Hmy Hdx Hdy Hlo Hhi. cbn [SFdiv]. unfold SFdiv_core_binary. cbv zeta.
  rewrite (Zdigits2_unique (Zpos mx) dx), (Zdigits2_unique (Zpos my) dy) by assumption.
  rewrite fexp_normal by lia.
  set (e' := Z.min (dx + ex - (dy + ey) - 53) (ex - ey)).
  set (s := ex - ey - e').
  assert (Hs : s = Z.max 0 (53 + dy - dx)) by (unfold s, e'; lia).
  rewrite (shift_match (Zpos mx) s) by lia.
  set (N := Zpos mx * 2 ^ s).
  pose proof (Z_div_mod N (Zpos my) ltac:(lia)) as Hdm.
  destruct (Z.div_eucl N (Zpos my)) as [q r]. destruct Hdm as [HN Hr].
  assert (Hps : 0 < 2 ^ s) by (apply Z.pow_pos_nonneg; lia).
  (* the size of the quotient *)
  set (k := dx + s - dy).
  assert (Hk : 53 <= k) by (unfold k; lia).
  assert (Hq : 2 ^ (k - 1) <= q < 2 ^ (k + 1)).
  { assert (E1 : 2 ^ (dx - 1) * 2 ^ s = 2 ^ (k - 1) * 2 ^ dy).
    { rewrite <- !Z.pow_add_r by lia. f_equal. unfold k. lia. }
    assert (E2 : 2 ^ dx * 2 ^ s = 2 ^ (k + 1) * 2 ^ (dy - 1)).
    { rewrite <- !Z.pow_add_r by lia. f_equal. unfold k. lia. }
    assert (0 < 2 ^ (k - 1)) by (apply Z.pow_pos_nonneg; lia).
    assert (0 < 2 ^ (k + 1)) by (apply Z.pow_pos_nonneg; lia).
    assert (0 < 2 ^ (dy - 1)) by (apply Z.pow_pos_nonneg; lia).
    split.
    - (* N >= 2^(k-1) * 2^dy > 2^(k-1) * my, so q >= 2^(k-1) *)
      assert (2 ^ (k - 1) * 2 ^ dy <= N) by (unfold N; nia).
      assert (2 ^ (k - 1) * Zpos my < (q + 1) * Zpos my) by nia.
      assert (2 ^ (k - 1) < q + 1) by nia. lia.
    - assert (N < 2 ^ (k + 1) * 2 ^ (dy - 1)) by (unfold N; nia).
      assert (q * Zpos my < 2 ^ (k + 1) * Zpos my) by nia.
      nia. }
  assert (Hdq : exists d, (d = k \/ d = k + 1) /\ 2 ^ (d - 1) <= q < 2 ^ d).
  { destruct (Z.lt_ge_cases q (2 ^ k)).
    - exists k. split; [auto|lia].
    - exists (k + 1). replace (k + 1 - 1) with k by lia. split; [auto|lia]. }
  destruct Hdq as (d & Hd & Hqd).
  assert (Hloc : located q (new_location (Zpos my) r) N (Zpos my)).
  { replace N with (q * Zpos my + r) by lia.
    apply new_location_located; lia. }
  destruct (binary_round_aux_spec (xorb sx sy) q e' (new_location (Zpos my) r)
              N (Zpos my) d) as (m & Hm & Hnear & Hres);
    try assumption; try (unfold s, k in *; lia).
  exists m, s, (d - 53). unfold k in Hd.
  split; [exact Hs|]. split; [lia|]. split; [lia|]. split; [exact Hm|].
  split; [exact Hnear|].
  rewrite Hres. f_equal. unfold s. lia.
Qed.

(** Multiplication of finite operands: the rounded mantissa [m] is within
    half a unit of the exact product shifted right by [n] bits. *)
Lemma SFmul_finite_spec (sx sy : bool) (mx my : positive) (ex ey dx dy : Z) :
  2 ^ (dx - 1) <= Zpos mx < 2 ^ dx -> 2 ^ (dy - 1) <= Zpos my < 2 ^ dy ->
  0 < dx -> 0 < dy -> 54 <= dx + dy ->
  -1074 <= ex + ey + dx + dy - 54 ->
  ex + ey + dx + dy <= 1023 ->
  exists m n,
    0 <= n /\ dx + dy - 54 <= n <= dx + dy - 53 /\ 2 ^ 52 <= m <= 2 ^ 53 /\
    2 * m * 2 ^ n - 2 ^ n <= 2 * (Zpos mx * Zpos my) <= 2 * m * 2 ^ n + 2 ^ n /\
    SFmul 53 1024 (S754_finite sx mx ex) (S754_finite sy my ey) =
      renormalized (xorb sx sy) m (ex + ey + n).
Proof.
  intros Hmx Hmy Hdx Hdy Hd Hlo Hhi. cbn [SFmul].
  set (k := dx + dy).
  assert (Hp : 2 ^ (k - 2) <= Zpos (mx * my) < 2 ^ k).
  { rewrite Pos2Z.inj_mul.
    assert (E1 : 2 ^ (k - 2) = 2 ^ (dx - 1) * 2 ^ (dy - 1)).
    { rewrite <- Z.pow_add_r by lia. f_equal. unfold k. lia. }
    assert (E2 : 2 ^ k = 2 ^ dx * 2 ^ dy).
    { rewrite <- Z.pow_add_r by lia. reflexivity. }
    assert (0 < 2 ^ (dx - 1)) by (apply Z.pow_pos_nonneg; lia).
    assert (0 < 2 ^ (dy - 1)) by (apply Z.pow_pos_nonneg; lia).
    rewrite E1, E2. split; nia. }
  assert (Hdq : exists d, (d = k - 1 \/ d = k) /\ 2 ^ (d - 1) <= Zpos (mx * my) < 2 ^ d).
  { destruct (Z.lt_ge_cases (Zpos (mx * my)) (2 ^ (k - 1))).
    - exists (k - 1). replace (k - 1 - 1) with (k - 2) by lia. split; [auto|lia].
    - exists k. split; [auto|lia]. }
  destruct Hdq as (d & Hdk & Hqd).
  destruct (binary_round_aux_spec (xorb sx sy) (Zpos (mx * my)) (ex + ey) loc_Exact
              (Zpos (mx * my)) 1 d) as (m & Hm & Hnear & Hres);
    try assumption; try (unfold k in *; lia).
  { cbn [located]. lia. }
  exists m, (d - 53). rewrite Z.mul_1_l in Hnear. rewrite Pos2Z.inj_mul in Hnear.
  unfold k in *. repeat split; try lia. exact Hres.
Qed.

(** Truncation of a float whose exponent is written [n - s]. *)
Lemma trunc_float_div (sg : bool) (p : positive) (n s : Z) :
  0 <= n -> 0 <= s ->
  PyNum.trunc_float sg p (n - s) =
  if sg then - (Zpos p * 2 ^ n / 2 ^ s) else Zpos p * 2 ^ n / 2 ^ s.
Proof.
  intros Hn Hs. unfold PyNum.trunc_float.
  assert (Hps : 0 < 2 ^ s) by (apply Z.pow_pos_nonneg; lia).
  assert (Hpn : 0 < 2 ^ n) by (apply Z.pow_pos_nonneg; lia).
  assert (E : match n - s with
              | 0 => Zpos p
              | Zpos _ => Z.shiftl (Zpos p) (n - s)
              | Zneg q => Z.shiftr (Zpos p) (Zpos q)
              end = Zpos p * 2 ^ n / 2 ^ s).
  { destruct (n - s) as [|q|q] eqn:E.
    - replace n with s by lia. rewrite Z.div_mul by lia. reflexivity.
    - rewrite Z.shiftl_mul_pow2 by lia.
      replace n with (Zpos q + s) by lia.
      rewrite Z.pow_add_r, Z.mul_assoc, Z.div_mul by lia. reflexivity.
    - rewrite Z.shiftr_div_pow2 by lia.
      replace s with (Zpos q + n) by lia.
      rewrite Z.pow_add_r by lia.
      rewrite Z.div_mul_cancel_r by lia. reflexivity. }
  rewrite E. reflexivity.
Qed.

Lemma to_int_renormalized (sg : bool) (m n s : Z) :
  0 <= n -> 0 <= s -> 2 ^ 52 <= m <= 2 ^ 53 ->
  PyNum.to_int (NFloat (renormalized sg m (n - s))) =
  OK (NInt (if sg then - (m * 2 ^ n / 2 ^ s) else m * 2 ^ n / 2 ^ s)).
Proof.
  intros Hn Hs Hm. unfold renormalized.
  change (2 ^ 53) with 9007199254740992 in *.
  change (2 ^ 52) with 4503599627370496 in *.
  destruct (Z.ltb_spec m 9007199254740992) as [Hlt|Hge]; cbn [PyNum.to_int].
  - rewrite trunc_float_div by assumption.
    rewrite Z2Pos.id by lia. reflexivity.
  - replace (n - s + 1) with (n + 1 - s) by lia.
    rewrite trunc_float_div by lia.
    assert (m = 9007199254740992) by lia. subst m.
    rewrite Z.pow_add_r by lia. cbn [Z.to_pos].
    replace (4503599627370496 * (2 ^ n * 2 ^ 1)) with (9007199254740992 * 2 ^ n) by lia.
    reflexivity.
Qed.

Lemma renormalized_not_inf (sg : bool) (m e : Z) :
  PyNum.is_inf (renormalized sg m e) = false.
Proof. unfold renormalized. destruct (m <? 2 ^ 53); reflexivity. Qed.

Lemma renormalized_canonical (sg : bool) (m e : Z) :
  2 ^ 52 <= m <= 2 ^ 53 ->
  exists mf ef,
    renormalized sg m e = S754_finite sg mf ef /\
    2 ^ 52 <= Zpos mf < 2 ^ 53 /\
    ((Zpos mf = m /\ ef = e) \/ (m = 2 ^ 53 /\ Zpos mf = 2 ^ 52 /\ ef = e + 1)).
Proof.
  intros Hm. unfold renormalized.
  change (2 ^ 53) with 9007199254740992 in *.
  change (2 ^ 52) with 4503599627370496 in *.
  destruct (Z.ltb_spec m 9007199254740992) as [Hlt|Hge].
  - exists (Z.to_pos m), e. rewrite Z2Pos.id by lia.
    split; [reflexivity|]. split; [lia|]. left. auto.
  - exists 4503599627370496%positive, (e + 1).
    split; [reflexivity|]. split; [lia|]. right. lia.
Qed.

(** Sizes of a positive integer in bits. *)
Lemma digits_exist (a : Z) :
  0 < a -> exists d, 0 < d /\ 2 ^ (d - 1) <= a < 2 ^ d.
Proof.
  intros Ha. destruct a as [|p|p]; try lia.
  exists (Zpos (digits2_pos p)). split; [lia|]. apply digits2_pos_bounds.
Qed.

Lemma digits_le (a d k : Z) :
  0 < d -> 0 <= k -> 2 ^ (d - 1) <= a < 2 ^ k -> d <= k.
Proof.
  intros Hd Hk [Hlo Hhi].
  destruct (Z.le_gt_cases d k) as [|Hgt]; [assumption|].
  assert (2 ^ k <= 2 ^ (d - 1)) by (apply Z.pow_le_mono_r; lia). lia.
Qed.

(** [a / b] on [int]s returns the nearest binary64 of the exact quotient. *)
Lemma int_truediv_spec (a b da db : Z) :
  a <> 0 -> 0 < b ->
  0 < da -> 0 < db ->
  2 ^ (da - 1) <= Z.abs a < 2 ^ da -> 2 ^ (db - 1) <= b < 2 ^ db ->
  -1021 <= da - db <= 1022 ->
  exists m s n,
    s = Z.max 0 (53 + db - da) /\
    da + s - db - 53 <= n <= da + s - db - 52 /\ 0 <= n /\
    2 ^ 52 <= m <= 2 ^ 53 /\
    2 * m * (b * 2 ^ n) - b * 2 ^ n <= 2 * (Z.abs a * 2 ^ s)
      <= 2 * m * (b * 2 ^ n) + b * 2 ^ n /\
    PyNum.int_truediv a b = OK (renormalized (a <? 0) m (n - s)).
Proof.
  intros Ha Hb Hda Hdb Hna Hnb Hd.
  destruct (SFdiv_finite_spec (a <? 0) (b <? 0) (Z.to_pos (Z.abs a)) (Z.to_pos b)
              0 0 da db) as (m & s & n & Hs & Hn & Hn0 & Hm & Hnear & Hres);
    rewrite ?Z2Pos.id by lia; try assumption; try lia.
  exists m, s, n. rewrite !Z2Pos.id in Hnear by lia.
  split; [exact Hs|]. split; [exact Hn|]. split; [exact Hn0|].
  split; [exact Hm|]. split; [exact Hnear|].
  unfold PyNum.int_truediv.
  replace (Z.abs b) with b by lia.
  assert (E : SFdiv PyNum.prec PyNum.emax
                (S754_finite (a <? 0) (Z.to_pos (Z.abs a)) 0)
                (S754_finite (b <? 0) (Z.to_pos b) 0) =
              renormalized (a <? 0) m (n - s)).
  { unfold PyNum.prec, PyNum.emax. rewrite Hres.
    replace (b <? 0) with false by (symmetry; apply Z.ltb_ge; lia).
    rewrite xorb_false_r. f_equal. lia. }
  destruct a as [|pa|pa]; try lia; destruct b as [|pb|pb]; try lia;
    rewrite E, renormalized_not_inf; reflexivity.
Qed.

(** Dividing a normal float by [1.0] returns it. *)
Lemma SFdiv_one (sg : bool) (m : positive) (e : Z) :
  2 ^ 52 <= Zpos m < 2 ^ 53 -> -1020 <= e <= 960 ->
  SFdiv 53 1024 (S754_finite sg m e) one = S754_finite sg m e.
Proof.
  intros Hm He. unfold one.
  destruct (SFdiv_finite_spec sg false m 4503599627370496 e (-52) 53 53)
    as (q & s & n & Hs & Hn & Hn0 & Hq & Hnear & Hres); try lia.
  rewrite Hres, xorb_false_r. unfold renormalized.
  change (Z.max 0 (53 + 53 - 53)) with 53 in Hs. subst s.
  change (2 ^ 53) with 9007199254740992 in *.
  change (2 ^ 52) with 4503599627370496 in *.
  assert (Hn' : n = 0 \/ n = 1) by lia.
  destruct Hn' as [-> | ->].
  - change (2 ^ 0) with 1 in Hnear.
    assert (q = 9007199254740992) by lia. subst q.
    assert (m = 4503599627370496%positive) by lia. subst m.
    replace (Z.ltb 9007199254740992 9007199254740992) with false by reflexivity.
    cbn [Z.to_pos]. f_equal. lia.
  - change (2 ^ 1) with 2 in Hnear.
    assert (q = Zpos m) by lia. subst q.
    replace (Zpos m <? 9007199254740992) with true by (symmetry; apply Z.ltb_lt; lia).
    cbn [Z.to_pos]. f_equal. lia.
Qed.

Lemma amount_converter_NEU2mBTM (amount : num) :
  amount_converter amount "NEU2mBTM" =
  bind (PyNum.mul amount (NInt 1000)) (fun p =>
  bind (PyNum.truediv p (NInt 100000000)) (fun q =>
  bind (PyNum.to_int q) (fun r => OK (PNum r)))).
Proof. reflexivity. Qed.

Lemma amount_converter_NEU2BTM (amount : num) :
  amount_converter amount "NEU2BTM" =
  bind (PyNum.mul amount (NInt 1)) (fun p =>
  bind (PyNum.truediv p (NInt 100000000)) (fun q =>
  bind (PyNum.to_float q) (fun r => OK (PNum r)))).
Proof. reflexivity. Qed.

Lemma amount_converter_BTM2NEU (amount : num) :
  amount_converter amount "BTM2NEU" =
  bind (PyNum.mul amount (NInt 100000000)) (fun p =>
  bind (PyNum.truediv p (NInt 1)) (fun q =>
  bind (PyNum.to_int q) (fun r => OK (PNum r)))).
Proof. reflexivity. Qed.

Lemma pow2_pos (e : Z) : 0 <= e -> 0 < 2 ^ e.
Proof. intros. apply Z.pow_pos_nonneg; lia. Qed.

Lemma pow2_ge (e k : Z) : 0 <= k <= e -> 2 ^ k <= 2 ^ e.
Proof. intros. apply Z.pow_le_mono_r; lia. Qed.

Lemma div_between (g b k : Z) : 0 < b -> k * b <= g < (k + 1) * b -> g / b = k.
Proof.
  intros Hb [Hlo Hhi]. symmetry. apply Z.div_unique with (g - k * b); lia.
Qed.

Lemma quot_abs (x d : Z) :
  0 < d -> Z.quot x d = if x <? 0 then - (Z.abs x / d) else Z.abs x / d.
Proof.
  intros Hd. destruct (Z.ltb_spec x 0) as [Hneg|Hpos].
  - replace x with (- Z.abs x) at 1 by lia.
    rewrite Z.quot_opp_l by lia. rewrite Z.quot_div_nonneg by lia. reflexivity.
  - rewrite Z.abs_eq by lia. apply Z.quot_div_nonneg; lia.
Qed.

(** Rounding to nearest cannot reach the next integer when the unit [1 / T]
    of the mantissa is finer than twice the step [c / b] of the quotients. *)
Lemma nearest_floor (m b c X T k r : Z) :
  0 < b -> 0 < c -> 0 < T -> b < 2 * (c * T) ->
  X = b * k + r -> 0 <= r -> r + c <= b ->
  2 * (m * b) - b <= 2 * (X * T) <= 2 * (m * b) + b ->
  k * T <= m < (k + 1) * T.
Proof.
  intros Hb Hc HT HbT HX Hr Hrc H1. subst X.
  assert (HrT : 0 <= r * T <= (b - c) * T).
  { split; [apply Z.mul_nonneg_nonneg; lia|].
    apply Z.mul_le_mono_nonneg_r; lia. }
  replace ((b - c) * T) with (b * T - c * T) in HrT by ring.
  replace ((b * k + r) * T) with (b * (k * T) + r * T) in H1 by ring.
  set (D := m - k * T).
  replace (m * b) with (b * D + b * (k * T)) in H1 by (unfold D; ring).
  assert (HD : 0 <= D < T).
  { split.
    - destruct (Z.le_gt_cases 0 D) as [|Hneg]; [assumption|].
      assert (b * D <= b * (-1)) by (apply Z.mul_le_mono_nonneg_l; lia). lia.
    - destruct (Z.lt_ge_cases D T) as [|Hge]; [assumption|].
      assert (b * T <= b * D) by (apply Z.mul_le_mono_nonneg_l; lia). lia. }
  unfold D in HD. replace ((k + 1) * T) with (k * T + T) by ring. lia.
Qed.

Lemma float_of_int_NEU :
  PyNum.float_of_int 100000000 = OK hundred_million.
Proof. reflexivity. Qed.

Lemma float_of_int_BTM : PyNum.float_of_int 1 = OK one.
Proof. reflexivity. Qed.

(** C5: for every integer NEU amount x of magnitude below 2^52,
    converting with NEU2BTM and converting the result back with BTM2NEU
    returns an int that is x or the neighbour of x one unit nearer to
    zero. *)
Theorem neu_round_trip_within_one (x : Z) :
  Z.abs x < 2 ^ 52 ->
  exists r,
    neu_round_trip x = OK (PNum (NInt r)) /\ (r = x \/ r = x - Z.sgn x).
Proof.
  intros Hx. unfold neu_round_trip. rewrite amount_converter_NEU2BTM.
  cbn [PyNum.mul bind PyNum.truediv]. rewrite Z.mul_1_r.
  destruct (Z.eq_dec x 0) as [->|Hx0].
  { exists 0. split; [reflexivity|auto]. }
  change (2 ^ 52) with 4503599627370496 in Hx.
  assert (Hpos : 0 < Z.abs x) by lia.
  destruct (digits_exist (Z.abs x) Hpos) as (da & Hda & Hna).
  assert (Hda52 : da <= 52) by (apply (digits_le (Z.abs x)); lia).
  destruct (int_truediv_spec x 100000000 da 27)
    as (m1 & s1 & n1 & Hs1 & Hn1 & Hn10 & Hm1 & Hnear1 & Hres1); try lia.
  rewrite Hres1. cbn [bind PyNum.to_float PyNum.as_float].
  destruct (renormalized_canonical (x <? 0) m1 (n1 - s1) Hm1)
    as (mf & ef & Ef & Hmf & Hcase).
  rewrite Ef. rewrite amount_converter_BTM2NEU.
  cbn [PyNum.mul PyNum.as_float bind]. rewrite float_of_int_NEU. cbn [bind].
  (* the first leg: x * 2^af is within half a unit of mf * 10^8 *)
  set (af := - ef). assert (Haf : 26 <= af <= 80) by (unfold af; lia).
  pose proof (pow2_pos n1 Hn10) as HP1.
  pose proof (pow2_pos af ltac:(lia)) as HA.
  set (X := Z.abs x) in *.
  change (2 ^ 52) with 4503599627370496 in *.
  change (2 ^ 53) with 9007199254740992 in *.
  assert (H1 : 200000000 * Zpos mf - 100000000 <= 2 * (X * 2 ^ af)
               <= 200000000 * Zpos mf + 100000000).
  { destruct Hcase as [[Em Ee]|(Em & Emf & Ee)].
    - assert (Es : 2 ^ s1 = 2 ^ af * 2 ^ n1).
      { rewrite <- Z.pow_add_r by lia. f_equal. unfold af. lia. }
      rewrite Es, Em in *. set (P := 2 ^ n1) in *. set (A := 2 ^ af) in *.
      split; apply Z.mul_le_mono_pos_r with P; lia.
    - assert (Es : 2 ^ s1 = 2 * 2 ^ af * 2 ^ n1).
      { replace s1 with (1 + af + n1) by (unfold af; lia).
        rewrite !Z.pow_add_r by lia. reflexivity. }
      rewrite Es, Emf in *. subst m1. set (P := 2 ^ n1) in *. set (A := 2 ^ af) in *.
      assert (H4 : 4 * 9007199254740992 * 100000000 - 2 * 100000000 <= 8 * (X * A)
                   <= 4 * 9007199254740992 * 100000000 + 2 * 100000000).
      { split; apply Z.mul_le_mono_pos_r with P; lia. }
      lia. }
  (* the second leg *)
  unfold hundred_million.
  destruct (SFmul_finite_spec (x <? 0) false mf 6710886400000000 ef (-26) 53 53)
    as (m2 & n2 & Hn20 & Hn2 & Hm2 & Hnear2 & Hres2); try lia.
  unfold PyNum.prec, PyNum.emax. rewrite Hres2, xorb_false_r.
  cbn [PyNum.truediv PyNum.as_float bind]. rewrite float_of_int_BTM. cbn [bind].
  change (PyNum.is_zero one) with false. cbn iota.
  destruct (renormalized_canonical (x <? 0) m2 (ef + -26 + n2) Hm2)
    as (mg & eg & Eg & Hmg & Hcaseg).
  unfold PyNum.prec, PyNum.emax.
  rewrite Eg, SFdiv_one by (try assumption; destruct Hcaseg as [[? ?]|(? & ? & ?)]; lia).
  rewrite <- Eg.
  replace (ef + -26 + n2) with (n2 - (26 + af)) by (unfold af; lia).
  cbn [bind]. rewrite to_int_renormalized by lia.
  cbn [bind].
  (* the truncated product is x or its neighbour toward zero *)
  pose proof (pow2_pos n2 Hn20) as HP2.
  assert (EB : 2 ^ (26 + af) = 67108864 * 2 ^ af).
  { rewrite Z.pow_add_r by lia. reflexivity. }
  rewrite EB. set (A := 2 ^ af) in *. set (P := 2 ^ n2) in *.
  set (G := m2 * P) in *.
  assert (HG : 4503599627370496 * P <= G) by (unfold G; nia).
  assert (H2 : 2 * G - P <= 2 * (Zpos mf * 6710886400000000) <= 2 * G + P).
  { unfold G. lia. }
  set (XA := X * A) in *.
  assert (HXA : A <= XA <= 4503599627370495 * A) by (unfold XA; nia).
  assert (Hdiv : G / (67108864 * A) = X \/ G / (67108864 * A) = X - 1).
  { destruct (Z.le_gt_cases (X * (67108864 * A)) G) as [Hle|Hgt].
    - left. apply div_between; [lia|].
      replace ((X + 1) * (67108864 * A)) with (67108864 * XA + 67108864 * A)
        by (unfold XA; ring).
      replace (X * (67108864 * A)) with (67108864 * XA) in Hle by (unfold XA; ring).
      lia.
    - right. apply div_between; [lia|].
      replace ((X - 1 + 1) * (67108864 * A)) with (67108864 * XA)
        by (unfold XA; ring).
      replace ((X - 1) * (67108864 * A)) with (67108864 * XA - 67108864 * A)
        by (unfold XA; ring).
      replace (X * (67108864 * A)) with (67108864 * XA) in Hgt by (unfold XA; ring).
      lia. }
  eexists. split; [reflexivity|].
  destruct (Z.ltb_spec x 0) as [Hneg|Hnn].
  - replace (Z.sgn x) with (-1) by lia. unfold X in Hdiv. lia.
  - replace (Z.sgn x) with 1 by lia. unfold X in Hdiv. lia.
Qed.

(** ** amount_converter *)

Lemma amount_converter_mBTM2NEU (amount : num) :
  amount_converter amount "mBTM2NEU" =
  bind (PyNum.mul amount (NInt 100000000)) (fun p =>
  bind (PyNum.truediv p (NInt 1000)) (fun q =>
  bind (PyNum.to_int q) (fun r => OK (PNum r)))).
Proof. reflexivity. Qed.

Lemma amount_converter_mBTM2BTM (amount : num) :
  amount_converter amount "mBTM2BTM" =
  bind (PyNum.mul amount (NInt 1)) (fun p =>
  bind (PyNum.truediv p (NInt 1000)) (fun q =>
  bind (PyNum.to_float q) (fun r => OK (PNum r)))).
Proof. reflexivity. Qed.

Lemma amount_converter_BTM2mBTM (amount : num) :
  amount_converter amount "BTM2mBTM" =
  bind (PyNum.mul amount (NInt 1000)) (fun p =>
  bind (PyNum.truediv p (NInt 1)) (fun q =>
  bind (PyNum.to_float q) (fun r => OK (PNum r)))).
Proof. reflexivity. Qed.

(** Division of [int]s below 2^1000 returns a finite float. *)
Lemma int_truediv_returns (a b : Z) :
  Z.abs a < 2 ^ 1000 -> 0 < b < 2 ^ 1000 ->
  exists f z, PyNum.int_truediv a b = OK f /\ PyNum.to_int (NFloat f) = OK (NInt z).
Proof.
  intros Ha Hb. destruct (Z.eq_dec a 0) as [->|Ha0].
  { exists (S754_zero (b <? 0)), 0. destruct b; try lia. split; reflexivity. }
  assert (Hpos : 0 < Z.abs a) by lia.
  destruct (digits_exist (Z.abs a) Hpos) as (da & Hda & Hna).
  destruct (digits_exist b ltac:(lia)) as (db & Hdb & Hnb).
  assert (da <= 1000) by (apply (digits_le (Z.abs a)); lia).
  assert (db <= 1000) by (apply (digits_le b); lia).
  destruct (int_truediv_spec a b da db)
    as (m & s & n & Hs & Hn & Hn0 & Hm & Hnear & Hres); try lia.
  eexists _, _. split; [exact Hres|]. apply to_int_renormalized; lia.
Qed.

(** [int(c * a / (c * b))] is the integer quotient of [a] by [b] truncated
    toward zero, for [a] below 2^52. *)
Lemma int_truediv_trunc (a b c : Z) :
  0 < c -> 0 < b -> Z.abs a < 2 ^ 52 -> c * b < 2 ^ 900 ->
  exists f, PyNum.int_truediv (c * a) (c * b) = OK f /\
            PyNum.to_int (NFloat f) = OK (NInt (Z.quot a b)).
Proof.
  intros Hc Hb Ha Hcb. destruct (Z.eq_dec a 0) as [->|Ha0].
  { exists (S754_zero (c * b <? 0)). rewrite Z.mul_0_r.
    assert (0 < c * b) by (apply Z.mul_pos_pos; lia).
    destruct (c * b); try lia. split; reflexivity. }
  assert (Hcb0 : 0 < c * b) by (apply Z.mul_pos_pos; lia).
  set (X := Z.abs a) in *.
  assert (EX : Z.abs (c * a) = c * X) by (unfold X; rewrite Z.abs_mul; lia).
  assert (HcX : 0 < c * X) by (apply Z.mul_pos_pos; lia).
  change (2 ^ 52) with 4503599627370496 in Ha.
  assert (HcXb : c * X < 4503599627370496 * (c * b)).
  { assert (c * X <= c * 4503599627370495) by (apply Z.mul_le_mono_nonneg_l; lia).
    assert (c * 1 <= c * b) by (apply Z.mul_le_mono_nonneg_l; lia). lia. }
  destruct (digits_exist (c * X) HcX) as (da & Hda & Hna).
  destruct (digits_exist (c * b) Hcb0) as (db & Hdb & Hnb).
  assert (Hdb900 : db <= 900) by (apply (digits_le (c * b)); lia).
  assert (Hdab : da <= 52 + db).
  { apply (digits_le (c * X)); try lia. rewrite Z.pow_add_r by lia.
    change (2 ^ 52) with 4503599627370496. lia. }
  destruct (int_truediv_spec (c * a) (c * b) da db)
    as (m & s & n & Hs & Hn & Hn0 & Hm & Hnear & Hres);
    rewrite ?EX; try assumption; try lia.
  rewrite EX in Hnear.
  eexists. split; [exact Hres|].
  rewrite to_int_renormalized by lia.
  replace (c * a <? 0) with (a <? 0)
    by (destruct (Z.ltb_spec a 0), (Z.ltb_spec (c * a) 0); nia).
  do 2 f_equal. rewrite quot_abs by lia. fold X.
  assert (E : m * 2 ^ n / 2 ^ s = X / b); [|rewrite E; reflexivity].
  set (t := s - n). assert (Ht : 52 + db - da <= t) by (unfold t; lia).
  assert (Es : 2 ^ s = 2 ^ t * 2 ^ n).
  { rewrite <- Z.pow_add_r by lia. f_equal. unfold t. lia. }
  pose proof (pow2_pos n Hn0) as HP. pose proof (pow2_pos t ltac:(lia)) as HT.
  (* 2^t exceeds half of b *)
  assert (HTb : c * b < 2 * (c * 2 ^ t)).
  { assert (H1 : 4503599627370496 * 2 ^ db <= 2 ^ t * 2 ^ da).
    { change 4503599627370496 with (2 ^ 52). rewrite <- !Z.pow_add_r by lia.
      apply pow2_ge. lia. }
    assert (H2 : 2 ^ da = 2 * 2 ^ (da - 1)).
    { replace da with (1 + (da - 1)) at 1 by lia.
      rewrite Z.pow_add_r by lia. reflexivity. }
    assert (H3 : 2 ^ t * 2 ^ da <= 2 ^ t * (2 * (c * X))).
    { apply Z.mul_le_mono_nonneg_l; lia. }
    assert (H4 : c * X * 2 ^ t <= c * 4503599627370495 * 2 ^ t).
    { apply Z.mul_le_mono_nonneg_r; [lia|].
      apply Z.mul_le_mono_nonneg_l; lia. }
    assert (H5 : 4503599627370496 * (c * b) < 4503599627370496 * 2 ^ db) by lia.
    replace (2 ^ t * (2 * (c * X))) with (2 * (c * X * 2 ^ t)) in H3 by ring.
    replace (c * 4503599627370495 * 2 ^ t) with (4503599627370495 * (c * 2 ^ t)) in H4 by ring.
    lia. }
  clear Ha Hcb Hna Hnb Hs Hn HcXb.
  rewrite Es in *. rewrite Z.div_mul_cancel_r by lia.
  set (P := 2 ^ n) in *. set (T := 2 ^ t) in *.
  assert (H1 : 2 * (m * (c * b)) - c * b <= 2 * (c * X * T) <= 2 * (m * (c * b)) + c * b).
  { split; apply Z.mul_le_mono_pos_r with P; lia. }
  pose proof (Z.div_mod X b ltac:(lia)) as Hdm.
  pose proof (Z.mod_pos_bound X b ltac:(lia)) as Hr.
  apply div_between; [lia|].
  assert (G1 : c * X = c * b * (X / b) + c * (X mod b)).
  { rewrite Hdm at 1. ring. }
  assert (G2 : 0 <= c * (X mod b)) by (apply Z.mul_nonneg_nonneg; lia).
  assert (G3 : c * (X mod b) + c <= c * b).
  { replace (c * (X mod b) + c) with (c * (X mod b + 1)) by ring.
    apply Z.mul_le_mono_nonneg_l; lia. }
  exact (nearest_floor m (c * b) c (c * X) T (X / b) (c * (X mod b))
           Hcb0 Hc HT HTb G1 G2 G3 H1).
Qed.

Lemma to_int_is_int (q r : num) :
  PyNum.to_int q = OK r -> exists z, r = NInt z.
Proof.
  destruct q as [z|[sg|sg| |sg m e]]; cbn [PyNum.to_int]; intros H;
    inversion H; eauto.
Qed.

Lemma to_float_is_float (q r : num) :
  PyNum.to_float q = OK r -> exists f, r = NFloat f.
Proof.
  unfold PyNum.to_float. intros H. apply bind_OK in H as (f & _ & H).
  inversion H. eauto.
Qed.

Lemma rescale_int_is_int (amount : num) (ft fs : Z) (v : pyval) :
  bind (PyNum.mul amount (NInt ft)) (fun p =>
  bind (PyNum.truediv p (NInt fs)) (fun q =>
  bind (PyNum.to_int q) (fun r => OK (PNum r)))) = OK v ->
  exists z, v = PNum (NInt z).
Proof.
  intros H. apply bind_OK in H as (p & _ & H). apply bind_OK in H as (q & _ & H).
  apply bind_OK in H as (r & Hr & H). apply to_int_is_int in Hr as [z ->].
  inversion H. eauto.
Qed.

Lemma rescale_float_is_float (amount : num) (ft fs : Z) (v : pyval) :
  bind (PyNum.mul amount (NInt ft)) (fun p =>
  bind (PyNum.truediv p (NInt fs)) (fun q =>
  bind (PyNum.to_float q) (fun r => OK (PNum r)))) = OK v ->
  exists f, v = PNum (NFloat f).
Proof.
  intros H. apply bind_OK in H as (p & _ & H). apply bind_OK in H as (q & _ & H).
  apply bind_OK in H as (r & Hr & H). apply to_float_is_float in Hr as [f ->].
  inversion H. eauto.
Qed.

Lemma rescale_int_returns (a ft fs : Z) :
  Z.abs (a * ft) < 2 ^ 1000 -> 0 < fs < 2 ^ 1000 ->
  exists z,
    bind (PyNum.mul (NInt a) (NInt ft)) (fun p =>
    bind (PyNum.truediv p (NInt fs)) (fun q =>
    bind (PyNum.to_int q) (fun r => OK (PNum r)))) = OK (PNum (NInt z)).
Proof.
  intros Ha Hb. destruct (int_truediv_returns (a * ft) fs Ha Hb) as (f & z & Hf & Hz).
  exists z. cbn [PyNum.mul bind PyNum.truediv]. rewrite Hf. cbn [bind].
  rewrite Hz. reflexivity.
Qed.

Lemma rescale_float_returns (a ft fs : Z) :
  Z.abs (a * ft) < 2 ^ 1000 -> 0 < fs < 2 ^ 1000 ->
  exists f,
    bind (PyNum.mul (NInt a) (NInt ft)) (fun p =>
    bind (PyNum.truediv p (NInt fs)) (fun q =>
    bind (PyNum.to_float q) (fun r => OK (PNum r)))) = OK (PNum (NFloat f)).
Proof.
  intros Ha Hb. destruct (int_truediv_returns (a * ft) fs Ha Hb) as (f & z & Hf & Hz).
  exists f. cbn [PyNum.mul bind PyNum.truediv]. rewrite Hf. reflexivity.
Qed.

Lemma rescale_int_trunc (a ft fs c a' b' : Z) :
  a * ft = c * a' -> fs = c * b' -> 0 < c -> 0 < b' ->
  Z.abs a' < 2 ^ 52 -> c * b' < 2 ^ 900 ->
  bind (PyNum.mul (NInt a) (NInt ft)) (fun p =>
  bind (PyNum.truediv p (NInt fs)) (fun q =>
  bind (PyNum.to_int q) (fun r => OK (PNum r)))) =
  OK (PNum (NInt (Z.quot a' b'))).
Proof.
  intros Ea Eb Hc Hb Ha Hcb.
  destruct (int_truediv_trunc a' b' c Hc Hb Ha Hcb) as (f & Hf & Hz).
  cbn [PyNum.mul bind PyNum.truediv]. rewrite Ea, Eb, Hf. cbn [bind].
  rewrite Hz. reflexivity.
Qed.

Lemma str_in_In (x : string) (l : list string) : str_in x l = true <-> In x l.
Proof.
  unfold str_in. rewrite existsb_exists. split.
  - intros (y & Hy & E). apply String.eqb_eq in E. subst. exact Hy.
  - intros H. exists x. split; [exact H | apply String.eqb_refl].
Qed.

Lemma amount_converter_invalid (amount : num) (symbol : string) :
  ~ In symbol symbols -> amount_converter amount symbol = Raise (symbol_error symbol).
Proof.
  intros H. unfold amount_converter.
  destruct (str_in symbol symbols) eqn:E; [|reflexivity].
  apply str_in_In in E. contradiction.
Qed.

(** [int(x)] of a finite float drops the fraction: the result is the
    mantissa shifted by the exponent, rounded toward zero. *)
Lemma trunc_float_toward_zero (sg : bool) (m : positive) (e : Z) :
  PyNum.trunc_float sg m e =
  (if sg then -1 else 1) * (Zpos m * 2 ^ Z.max e 0 / 2 ^ Z.max (- e) 0).
Proof.
  replace e with (Z.max e 0 - Z.max (- e) 0) at 1 by lia.
  rewrite trunc_float_div by lia. destruct sg; lia.
Qed.

Ltac split_units H :=
  cbn [units In] in H;
  destruct H as [<-|[<-|[<-|[]]]].

(** C1: for every int or float amount and every symbol source2target of
    the six, amount_converter evaluates (amount * factor(target)) /
    factor(source) in Python arithmetic with the factors BTM = 1,
    mBTM = 1000, NEU = 100,000,000 and passes the quotient through int()
    for BTM2NEU, mBTM2NEU, NEU2mBTM and through float() for the others;
    for an integer amount whose scaled value is below 2^52 the int
    conversions return the exact quotient truncated toward zero; for
    every other symbol it raises SymbolError. *)
Theorem amount_converter_rescales :
  (forall amount source target,
      In source units -> In target units -> source <> target ->
      amount_converter amount (fst source ++ "2" ++ fst target)%string =
      rescale amount source target) /\
  (forall symbol,
      In symbol symbols <->
      exists source target,
        In source units /\ In target units /\ source <> target /\
        symbol = (fst source ++ "2" ++ fst target)%string) /\
  (forall amount symbol,
      ~ In symbol symbols ->
      amount_converter amount symbol = Raise (symbol_error symbol) /\
      raises SymbolError (amount_converter amount symbol)) /\
  (forall a source target,
      In source units -> In target units -> source <> target ->
      In (fst source ++ "2" ++ fst target)%string int_symbols ->
      Z.abs (a * snd target) < 2 ^ 52 ->
      amount_converter (NInt a) (fst source ++ "2" ++ fst target)%string =
      OK (PNum (NInt (Z.quot (a * snd target) (snd source))))).
Proof.
  split; [|split; [|split]].
  - intros amount source target Hs Ht Hne.
    split_units Hs; split_units Ht; try congruence; reflexivity.
  - intros symbol. split.
    + intros H. cbn [symbols In] in H.
      destruct H as [<-|[<-|[<-|[<-|[<-|[<-|[]]]]]]].
      * exists ("BTM", 1), ("mBTM", 1000). cbn. intuition congruence.
      * exists ("BTM", 1), ("NEU", 100000000). cbn. intuition congruence.
      * exists ("mBTM", 1000), ("BTM", 1). cbn. intuition congruence.
      * exists ("mBTM", 1000), ("NEU", 100000000). cbn. intuition congruence.
      * exists ("NEU", 100000000), ("BTM", 1). cbn. intuition congruence.
      * exists ("NEU", 100000000), ("mBTM", 1000). cbn. intuition congruence.
    + intros (source & target & Hs & Ht & Hne & ->).
      split_units Hs; split_units Ht; try congruence; cbn; auto 10.
  - intros amount symbol H. rewrite (amount_converter_invalid amount symbol H).
    split; [reflexivity|]. eexists. reflexivity.
  - intros a source target Hs Ht Hne Hint Ha.
    split_units Hs; split_units Ht; try congruence;
      cbn [fst snd] in *; cbn in Hint;
      try (exfalso; intuition discriminate).
    + rewrite amount_converter_BTM2NEU.
      apply (rescale_int_trunc a 100000000 1 1 (a * 100000000) 1); lia.
    + rewrite amount_converter_mBTM2NEU.
      apply (rescale_int_trunc a 100000000 1000 1 (a * 100000000) 1000); lia.
    + rewrite amount_converter_NEU2mBTM.
      apply (rescale_int_trunc a 1000 100000000 1 (a * 1000) 100000000); lia.
Qed.

(** C9: amount_converter with BTM2NEU, mBTM2NEU or NEU2mBTM returns an
    int, the quotient truncated toward zero, and with BTM2mBTM, mBTM2BTM or
    NEU2BTM a float.  Whatever it returns for the first three is an int
    and for the others a float, and on every integer amount of magnitude
    below 2^900 they do return.  For every amount, int or float, the int
    symbols return int() of the quotient (amount * target) / source that
    Python computes: a finite quotient with sign sg, mantissa m and
    exponent e gives the integer part of m * 2^e with that sign, a zero
    quotient gives 0, and an infinite or NaN quotient raises OverflowError
    or ValueError; the float symbols return that quotient itself.  On
    integer amounts in range the int returned is the exact quotient
    truncated toward zero, for each of the three symbols; so every amount
    from 0 to 99,999 NEU converts to 0 mBTM. *)
Theorem int_conversions_truncate :
  (forall amount symbol v,
      In symbol int_symbols -> amount_converter amount symbol = OK v ->
      exists z, v = PNum (NInt z)) /\
  (forall amount symbol v,
      In symbol float_symbols -> amount_converter amount symbol = OK v ->
      exists f, v = PNum (NFloat f)) /\
  (forall a symbol,
      Z.abs a < 2 ^ 900 -> In symbol int_symbols ->
      exists z, amount_converter (NInt a) symbol = OK (PNum (NInt z))) /\
  (forall a symbol,
      Z.abs a < 2 ^ 900 -> In symbol float_symbols ->
      exists f, amount_converter (NInt a) symbol = OK (PNum (NFloat f))) /\
  (forall amount source target p q,
      In source units -> In target units ->
      In (fst source ++ "2" ++ fst target)%string int_symbols ->
      PyNum.mul amount (NInt (snd target)) = OK p ->
      PyNum.truediv p (NInt (snd source)) = OK (NFloat q) ->
      amount_converter amount (fst source ++ "2" ++ fst target)%string =
      match q with
      | S754_finite sg m e =>
          OK (PNum (NInt ((if sg then -1 else 1) *
                          (Zpos m * 2 ^ Z.max e 0 / 2 ^ Z.max (- e) 0))))
      | S754_zero _ => OK (PNum (NInt 0))
      | S754_infinity _ =>
          Raise (PyOverflowError "cannot convert float infinity to integer")
      | S754_nan => Raise (PyValueError "cannot convert float NaN to integer")
      end) /\
  (forall amount source target p q,
      In source units -> In target units ->
      In (fst source ++ "2" ++ fst target)%string float_symbols ->
      PyNum.mul amount (NInt (snd target)) = OK p ->
      PyNum.truediv p (NInt (snd source)) = OK (NFloat q) ->
      amount_converter amount (fst source ++ "2" ++ fst target)%string =
      OK (PNum (NFloat q))) /\
  (forall a,
      Z.abs (a * 100000000) < 2 ^ 52 ->
      amount_converter (NInt a) "BTM2NEU" =
      OK (PNum (NInt (Z.quot (a * 100000000) 1)))) /\
  (forall a,
      Z.abs (a * 100000) < 2 ^ 52 ->
      amount_converter (NInt a) "mBTM2NEU" =
      OK (PNum (NInt (Z.quot (a * 100000000) 1000)))) /\
  (forall x,
      Z.abs x < 2 ^ 52 ->
      amount_converter (NInt x) "NEU2mBTM" =
      OK (PNum (NInt (Z.quot (x * 1000) 100000000)))) /\
  (forall x,
      Z.abs x < 2 ^ 52 ->
      amount_converter (NInt x) "NEU2mBTM" = OK (PNum (NInt (Z.quot x 100000)))) /\
  (forall x,
      0 <= x < 100000 ->
      amount_converter (NInt x) "NEU2mBTM" = OK (PNum (NInt 0))).
Proof.
  assert (Hquot : forall x, Z.abs x < 2 ^ 52 ->
            amount_converter (NInt x) "NEU2mBTM" = OK (PNum (NInt (Z.quot x 100000)))).
  { intros x Hx. rewrite amount_converter_NEU2mBTM.
    apply (rescale_int_trunc x 1000 100000000 1000 x 100000); lia. }
  assert (Hint : forall p q,
            PyNum.truediv p (NInt 1) = OK (NFloat q) \/
            PyNum.truediv p (NInt 1000) = OK (NFloat q) \/
            PyNum.truediv p (NInt 100000000) = OK (NFloat q) ->
            bind (PyNum.to_int (NFloat q)) (fun r => OK (PNum r)) =
            match q with
            | S754_finite sg m e =>
                OK (PNum (NInt ((if sg then -1 else 1) *
                                (Zpos m * 2 ^ Z.max e 0 / 2 ^ Z.max (- e) 0))))
            | S754_zero _ => OK (PNum (NInt 0))
            | S754_infinity _ =>
                Raise (PyOverflowError "cannot convert float infinity to integer")
            | S754_nan => Raise (PyValueError "cannot convert float NaN to integer")
            end).
  { intros p q _. destruct q as [sg|sg| |sg m e]; cbn [PyNum.to_int bind];
      try reflexivity.
    rewrite trunc_float_toward_zero. reflexivity. }
  split; [|split; [|split; [|split; [|split; [|split; [|split; [|split;
    [|split; [|split]]]]]]]]].
  - intros amount symbol v Hin H. cbn [int_symbols In] in Hin.
    destruct Hin as [<-|[<-|[<-|[]]]].
    + rewrite amount_converter_BTM2NEU in H. exact (rescale_int_is_int _ _ _ _ H).
    + rewrite amount_converter_mBTM2NEU in H. exact (rescale_int_is_int _ _ _ _ H).
    + rewrite amount_converter_NEU2mBTM in H. exact (rescale_int_is_int _ _ _ _ H).
  - intros amount symbol v Hin H. cbn [float_symbols In] in Hin.
    destruct Hin as [<-|[<-|[<-|[]]]].
    + rewrite amount_converter_BTM2mBTM in H. exact (rescale_float_is_float _ _ _ _ H).
    + rewrite amount_converter_mBTM2BTM in H. exact (rescale_float_is_float _ _ _ _ H).
    + rewrite amount_converter_NEU2BTM in H. exact (rescale_float_is_float _ _ _ _ H).
  - intros a symbol Ha Hin. cbn [int_symbols In] in Hin.
    assert (H27 : 2 ^ 900 * 100000000 < 2 ^ 1000) by reflexivity.
    destruct Hin as [<-|[<-|[<-|[]]]].
    + rewrite amount_converter_BTM2NEU. apply rescale_int_returns; lia.
    + rewrite amount_converter_mBTM2NEU. apply rescale_int_returns; lia.
    + rewrite amount_converter_NEU2mBTM. apply rescale_int_returns; lia.
  - intros a symbol Ha Hin. cbn [float_symbols In] in Hin.
    assert (H27 : 2 ^ 900 * 100000000 < 2 ^ 1000) by reflexivity.
    destruct Hin as [<-|[<-|[<-|[]]]].
    + rewrite amount_converter_BTM2mBTM. apply rescale_float_returns; lia.
    + rewrite amount_converter_mBTM2BTM. apply rescale_float_returns; lia.
    + rewrite amount_converter_NEU2BTM. apply rescale_float_returns; lia.
  - intros amount source target p q Hs Ht Hin Hp Hq.
    split_units Hs; split_units Ht; cbn [fst snd] in *; cbn in Hin;
      try (exfalso; intuition discriminate).
    + rewrite amount_converter_BTM2NEU, Hp. cbn [bind]. rewrite Hq. cbn [bind].
      apply (Hint p q). auto.
    + rewrite amount_converter_mBTM2NEU, Hp. cbn [bind]. rewrite Hq. cbn [bind].
      apply (Hint p q). auto.
    + rewrite amount_converter_NEU2mBTM, Hp. cbn [bind]. rewrite Hq. cbn [bind].
      apply (Hint p q). auto.
  - intros amount source target p q Hs Ht Hin Hp Hq.
    split_units Hs; split_units Ht; cbn [fst snd] in *; cbn in Hin;
      try (exfalso; intuition discriminate).
    + rewrite amount_converter_BTM2mBTM, Hp. cbn [bind]. rewrite Hq. reflexivity.
    + rewrite amount_converter_mBTM2BTM, Hp. cbn [bind]. rewrite Hq. reflexivity.
    + rewrite amount_converter_NEU2BTM, Hp. cbn [bind]. rewrite Hq. reflexivity.
  - intros a Ha. rewrite amount_converter_BTM2NEU.
    apply (rescale_int_trunc a 100000000 1 1 (a * 100000000) 1); lia.
  - intros a Ha. rewrite amount_converter_mBTM2NEU.
    rewrite (rescale_int_trunc a 100000000 1000 1000 (a * 100000) 1) by lia.
    do 3 f_equal. rewrite Z.quot_1_r.
    replace (a * 100000000) with (a * 100000 * 1000) by ring.
    rewrite Z.quot_mul by lia. reflexivity.
  - intros x Hx. rewrite Hquot by assumption. do 3 f_equal.
    replace 100000000 with (100000 * 1000) by reflexivity.
    rewrite Z.quot_mul_cancel_r by lia. reflexivity.
  - exact Hquot.
  - intros x Hx. rewrite Hquot by lia. do 3 f_equal.
    apply Z.quot_small. lia.
Qed.

(** ** The refund command *)

Local Open Scope string_scope.

Section RefundFacts.

Variable transaction : Type.
Variable RefundTransaction : string -> result transaction.
Variable build_transaction :
  transaction -> string -> string -> pyval -> bool -> string -> result transaction.
Variable transaction_raw : transaction -> result string.
Variable amount_unit_converter : num -> string -> result pyval.
Variable exn_str : exn -> string.
Variable style_reset : string.

Notation refund_amount' := (refund_amount amount_unit_converter).
Notation refund_try' :=
  (refund_try transaction RefundTransaction build_transaction transaction_raw
     amount_unit_converter).
Notation refund' :=
  (refund transaction RefundTransaction build_transaction transaction_raw
     amount_unit_converter exn_str style_reset).

Lemma builder_calls_app (l1 l2 : list event) :
  builder_calls (l1 ++ l2) = (builder_calls l1 ++ builder_calls l2)%list.
Proof. apply filter_app. Qed.

Lemma refund_events (address transaction_id : string) (amount : num)
    (max_amount : bool) (unit asset network : string) :
  fst (refund' address transaction_id amount max_amount unit asset network) =
  (fst (refund_try' address transaction_id amount max_amount unit asset network) ++
   match snd (refund_try' address transaction_id amount max_amount unit asset network) with
   | OK _ => []
   | Raise e =>
       if is_Exception e
       then [Echo (error_message style_reset (exn_str e)) true]
       else []
   end)%list.
Proof.
  unfold refund.
  destruct (refund_try' address transaction_id amount max_amount unit asset network)
    as [evs [u|e]]; cbn [fst snd].
  - rewrite app_nil_r. reflexivity.
  - destruct (is_Exception e); cbn [fst]; [reflexivity|].
    rewrite app_nil_r. reflexivity.
Qed.

(** C6: once RefundTransaction(network) is constructed, the refund command
    computes the amount, int(amount), the amount truncated toward zero,
    when the unit is 'NEU', and otherwise the result of the unit converter
    called with the amount and the symbol unit + '2NEU', and applies
    build_transaction once to the flags address, transaction id, max
    amount and asset unchanged and to that amount: the run is what the
    result of that application makes it, the echo of the raw of the
    transaction it returns or the report of the exception it raises; when
    the computation of the amount raises, the builder is not called. *)
Theorem refund_builds_with_converted_amount
    (address transaction_id : string) (amount : num) (max_amount : bool)
    (unit asset network : string) (t : transaction) :
  RefundTransaction network = OK t ->
  (forall a,
      refund_amount' amount unit = OK a ->
      refund' address transaction_id amount max_amount unit asset network =
      match build_transaction t address transaction_id a max_amount asset with
      | OK t' =>
          match transaction_raw t' with
          | OK raw =>
              ([Build address transaction_id a max_amount asset; Echo raw false],
               Returned)
          | Raise e =>
              if is_Exception e
              then ([Build address transaction_id a max_amount asset;
                     Echo ("Error: " ++ exn_str e ++ style_reset) true], Exited)
              else ([Build address transaction_id a max_amount asset],
                    Propagated e)
          end
      | Raise e =>
          if is_Exception e
          then ([Build address transaction_id a max_amount asset;
                 Echo ("Error: " ++ exn_str e ++ style_reset) true], Exited)
          else ([Build address transaction_id a max_amount asset], Propagated e)
      end) /\
  (forall e,
      refund_amount' amount unit = Raise e ->
      refund' address transaction_id amount max_amount unit asset network =
      if is_Exception e
      then ([Echo ("Error: " ++ exn_str e ++ style_reset) true], Exited)
      else ([], Propagated e)) /\
  (forall a,
      refund_amount' amount unit = OK a ->
      builder_calls
        (fst (refund' address transaction_id amount max_amount unit asset network)) =
      [Build address transaction_id a max_amount asset]) /\
  (forall e,
      refund_amount' amount unit = Raise e ->
      builder_calls
        (fst (refund' address transaction_id amount max_amount unit asset network)) =
      []) /\
  (unit = "NEU" ->
   refund_amount' amount unit = bind (PyNum.to_int amount) (fun r => OK (PNum r))) /\
  (unit = "NEU" ->
   forall sg m e,
     amount = NFloat (S754_finite sg m e) ->
     refund_amount' amount unit =
     OK (PNum (NInt ((if sg then -1 else 1) *
                     (Zpos m * 2 ^ Z.max e 0 / 2 ^ Z.max (- e) 0))%Z))) /\
  (unit <> "NEU" ->
   refund_amount' amount unit = amount_unit_converter amount (unit ++ "2NEU")).
Proof.
  intros Ht. split; [|split]; [| |repeat split].
  - intros a Ha. unfold refund, refund_try, cli_bind, cli_lift, emit.
    rewrite Ht, Ha. cbn [app].
    destruct (build_transaction t address transaction_id a max_amount asset)
      as [t'|e]; [|destruct (is_Exception e); reflexivity].
    destruct (transaction_raw t') as [raw|e];
      [reflexivity|destruct (is_Exception e); reflexivity].
  - intros e He. unfold refund, refund_try, cli_bind, cli_lift, emit.
    rewrite Ht, He. destruct (is_Exception e); reflexivity.
  - intros a Ha. rewrite refund_events, builder_calls_app.
    unfold refund_try, cli_bind, cli_lift, emit. rewrite Ht, Ha. cbn [app].
    destruct (build_transaction t address transaction_id a max_amount asset)
      as [t'|e]; cbn [fst snd].
    + destruct (transaction_raw t') as [raw|e]; cbn [fst snd app builder_calls filter].
      * reflexivity.
      * destruct (is_Exception e); reflexivity.
    + cbn [app builder_calls filter]. destruct (is_Exception e); reflexivity.
  - intros e He. rewrite refund_events, builder_calls_app.
    unfold refund_try, cli_bind, cli_lift, emit. rewrite Ht, He.
    cbn [fst snd app builder_calls filter]. destruct (is_Exception e); reflexivity.
  - intros ->. reflexivity.
  - intros -> sg m e ->. unfold refund_amount. cbn [String.eqb Ascii.eqb Bool.eqb].
    cbn [PyNum.to_int bind]. rewrite trunc_float_toward_zero. reflexivity.
  - intros Hne. unfold refund_amount.
    destruct (String.eqb_spec unit "NEU") as [E|_]; [contradiction|reflexivity].
Qed.

(** C7: when the body of the refund command raises an exception that is an
    instance of Exception, the command does not propagate it: after the
    events of the body it echoes 'Error: ' followed by the exception text
    (and the reset code that click.style appends) to stderr and exits;
    an exception outside Exception (KeyboardInterrupt, SystemExit)
    propagates. *)
Theorem refund_reports_exceptions
    (address transaction_id : string) (amount : num) (max_amount : bool)
    (unit asset network : string) (evs : list event) (e : exn) :
  refund_try' address transaction_id amount max_amount unit asset network =
    (evs, Raise e) ->
  (is_Exception e = true ->
   refund' address transaction_id amount max_amount unit asset network =
   ((evs ++ [Echo ("Error: " ++ exn_str e ++ style_reset) true])%list, Exited)) /\
  (is_Exception e = false ->
   refund' address transaction_id amount max_amount unit asset network =
   (evs, Propagated e)).
Proof.
  intros H. unfold refund. rewrite H. split; intros ->; reflexivity.
Qed.

End RefundFacts.

(** * Further properties *)

(** ** The one request of decode_transaction_raw and submit_transaction_raw *)

Section UtilsMore.

Variable clean_transaction_raw : string -> result string.
Variable str_encode : string -> lib_result bytes.
Variable bytes_decode : bytes -> lib_result string.
Variable b64decode : bytes -> lib_result bytes.
Variable json_loads : string -> lib_result pyval.
Variable json_dumps : pyval -> lib_result string.
Variable config : list (string * pyval).
Variable format : pyval -> string.
Variable requests_post : request -> lib_result response.
Variable utcnow : string.
Variable btm_is_address : string -> option string -> bool -> bool.

Notation load :=
  (load_transaction_raw clean_transaction_raw str_encode bytes_decode
     b64decode json_loads).
Notation is_raw :=
  (is_transaction_raw clean_transaction_raw str_encode bytes_decode
     b64decode json_loads).
Notation decode :=
  (decode_transaction_raw clean_transaction_raw str_encode bytes_decode
     b64decode json_loads json_dumps config format requests_post).
Notation submit :=
  (submit_transaction_raw clean_transaction_raw str_encode bytes_decode
     b64decode json_loads json_dumps config format requests_post utcnow).

Lemma io_bind_lift {A B} (r : result A) (k : A -> io B) (log : list request) :
  io_bind (io_lift r) k log =
  match r with
  | OK a => k a log
  | Raise e => (log, Raise e)
  end.
Proof. unfold io_bind, io_lift. destruct r; reflexivity. Qed.

Lemma io_bind_post {B} (r : request) (k : response -> io B) (log : list request) :
  io_bind (post requests_post r) k log =
  match requests_post r with
  | inl resp => k resp (log ++ [r])%list
  | inr e => ((log ++ [r])%list, Raise (LibError e))
  end.
Proof. unfold io_bind, post. destruct (requests_post r); reflexivity. Qed.

Lemma decode_run (s : string) (headers timeout : pyval) :
  run (decode s headers timeout) =
  one_post_run (is_raw (PStr s)) (load s)
    (fun loaded => decode_prepare json_dumps config format loaded headers timeout)
    requests_post decode_finish.
Proof.
  unfold run, decode_transaction_raw, one_post_run. rewrite io_bind_lift.
  destruct (is_raw (PStr s)) as [[|]|e]; cbn [negb]; try reflexivity.
  rewrite io_bind_lift. destruct (load s) as [loaded|e]; [|reflexivity].
  unfold decode_prepare.
  rewrite io_bind_lift.
  destruct (getitem_str loaded "network") as [network|e] eqn:Hn; cbn [bind];
    [|reflexivity].
  rewrite io_bind_lift.
  destruct (dict_getitem config network) as [node|e]; cbn [bind]; [|reflexivity].
  rewrite io_bind_lift.
  destruct (getitem_str node "vapor-core") as [core|e]; cbn [bind]; [|reflexivity].
  rewrite io_bind_lift.
  destruct (getitem_str loaded "raw") as [raw|e]; cbn [bind]; [|reflexivity].
  rewrite io_bind_lift.
  destruct (json_dumps (PDict [("raw_transaction", raw)])) as [body|e];
    cbn [bind lift]; [|reflexivity].
  rewrite io_bind_post. cbn [app].
  destruct (requests_post _) as [resp|e]; [|reflexivity].
  unfold decode_finish. rewrite io_bind_lift.
  destruct (lift (response_json resp)) as [rj|e]; cbn [bind]; [|reflexivity].
  destruct (status_code resp =? 400)%Z.
  - rewrite io_bind_lift. destruct (getitem_str rj "msg"); cbn [bind]; [|reflexivity].
    rewrite io_bind_lift. destruct (getitem_str rj "code"); reflexivity.
  - rewrite io_bind_lift.
    destruct (getitem_str loaded "fee"); cbn [bind]; [|reflexivity].
    rewrite io_bind_lift.
    destruct (getitem_str loaded "address"); cbn [bind]; [|reflexivity].
    rewrite io_bind_lift.
    destruct (getitem_str loaded "type"); cbn [bind]; [|reflexivity].
    rewrite io_bind_lift.
    destruct (getitem_str rj "data"); cbn [bind]; [|reflexivity].
    rewrite io_bind_lift.
    destruct (getitem_str loaded "unsigned_datas"); cbn [bind]; [|reflexivity].
    rewrite io_bind_lift.
    destruct (getitem_str loaded "signatures"); cbn [bind]; [|reflexivity].
    rewrite io_bind_lift, Hn. reflexivity.
Qed.

Lemma submit_run (s : string) (headers timeout : pyval) :
  run (submit s headers timeout) =
  one_post_run (is_raw (PStr s)) (load s)
    (fun loaded => submit_prepare json_dumps config format loaded headers timeout)
    requests_post (submit_finish utcnow).
Proof.
  unfold run, submit_transaction_raw, one_post_run. rewrite io_bind_lift.
  destruct (is_raw (PStr s)) as [[|]|e]; cbn [negb]; try reflexivity.
  rewrite io_bind_lift. destruct (load s) as [loaded|e]; [|reflexivity].
  unfold submit_prepare.
  rewrite io_bind_lift.
  destruct (getitem_str loaded "network") as [network|e] eqn:Hn; cbn [bind];
    [|reflexivity].
  rewrite io_bind_lift.
  destruct (dict_getitem config network) as [node|e]; cbn [bind]; [|reflexivity].
  rewrite io_bind_lift.
  destruct (getitem_str node "blockcenter") as [center|e]; cbn [bind]; [|reflexivity].
  rewrite io_bind_lift.
  destruct (getitem_str loaded "raw") as [raw|e]; cbn [bind]; [|reflexivity].
  rewrite io_bind_lift.
  destruct (getitem_str loaded "signatures") as [signatures|e]; cbn [bind]; [|reflexivity].
  rewrite io_bind_lift.
  destruct (getitem_str loaded "address") as [address|e]; cbn [bind]; [|reflexivity].
  rewrite io_bind_lift.
  destruct (json_dumps _) as [body|e]; cbn [bind lift]; [|reflexivity].
  rewrite io_bind_post. cbn [app].
  destruct (requests_post _) as [resp|e]; [|reflexivity].
  unfold submit_finish. rewrite io_bind_lift.
  destruct (lift (response_json resp)) as [rj|e]; cbn [bind]; [|reflexivity].
  rewrite io_bind_lift.
  destruct (getitem_str rj "code") as [code|e] eqn:Hcode; cbn [bind]; [|reflexivity].
  destruct (ne_int code 200).
  - rewrite io_bind_lift. destruct (getitem_str rj "msg"); cbn [bind]; [|reflexivity].
    rewrite io_bind_lift. reflexivity.
  - rewrite io_bind_lift.
    destruct (getitem_str loaded "fee"); cbn [bind]; [|reflexivity].
    rewrite io_bind_lift.
    destruct (getitem_str loaded "type"); cbn [bind]; [|reflexivity].
    rewrite io_bind_lift.
    destruct (getitem_str rj "data") as [data|e]; cbn [bind]; [|reflexivity].
    rewrite io_bind_lift.
    destruct (getitem_str data "tx_hash"); cbn [bind]; [|reflexivity].
    rewrite io_bind_lift, Hn. reflexivity.
Qed.

Lemma decode_prepare_OK (loaded headers timeout : pyval) (req : request) :
  decode_prepare json_dumps config format loaded headers timeout = OK req <->
  exists network node core raw body,
    getitem_str loaded "network" = OK network /\
    dict_getitem config network = OK node /\
    getitem_str node "vapor-core" = OK core /\
    getitem_str loaded "raw" = OK raw /\
    json_dumps (PDict [("raw_transaction", raw)]) = inl body /\
    req = {| req_url := format core ++ "/decode-raw-transaction";
             req_data := body; req_params := None;
             req_headers := headers; req_timeout := timeout |}.
Proof.
  unfold decode_prepare. split.
  - intros H.
    apply bind_OK in H as (network & Hn & H).
    apply bind_OK in H as (node & Hnode & H).
    apply bind_OK in H as (core & Hcore & H).
    apply bind_OK in H as (raw & Hraw & H).
    apply bind_OK in H as (body & Hbody & H). apply lift_OK in Hbody.
    inversion H. exists network, node, core, raw, body. auto 10.
  - intros (network & node & core & raw & body & Hn & Hnode & Hcore & Hraw & Hbody & ->).
    rewrite Hn. cbn [bind]. rewrite Hnode. cbn [bind]. rewrite Hcore. cbn [bind].
    rewrite Hraw. cbn [bind]. rewrite Hbody. reflexivity.
Qed.

Lemma submit_prepare_OK (loaded headers timeout : pyval) (req : request) :
  submit_prepare json_dumps config format loaded headers timeout = OK req <->
  exists network node center raw signatures address body,
    getitem_str loaded "network" = OK network /\
    dict_getitem config network = OK node /\
    getitem_str node "blockcenter" = OK center /\
    getitem_str loaded "raw" = OK raw /\
    getitem_str loaded "signatures" = OK signatures /\
    getitem_str loaded "address" = OK address /\
    json_dumps (PDict [("raw_transaction", raw); ("signatures", signatures)]) =
      inl body /\
    req = {| req_url := format center ++ "/merchant/submit-payment";
             req_data := body;
             req_params := Some (PDict [("address", address)]);
             req_headers := headers; req_timeout := timeout |}.
Proof.
  unfold submit_prepare. split.
  - intros H.
    apply bind_OK in H as (network & Hn & H).
    apply bind_OK in H as (node & Hnode & H).
    apply bind_OK in H as (center & Hcenter & H).
    apply bind_OK in H as (raw & Hraw & H).
    apply bind_OK in H as (signatures & Hsig & H).
    apply bind_OK in H as (address & Haddr & H).
    apply bind_OK in H as (body & Hbody & H). apply lift_OK in Hbody.
    inversion H. exists network, node, center, raw, signatures, address, body.
    auto 12.
  - intros (network & node & center & raw & signatures & address & body &
            Hn & Hnode & Hcenter & Hraw & Hsig & Haddr & Hbody & ->).
    rewrite Hn. cbn [bind]. rewrite Hnode. cbn [bind]. rewrite Hcenter. cbn [bind].
    rewrite Hraw. cbn [bind]. rewrite Hsig. cbn [bind]. rewrite Haddr. cbn [bind].
    rewrite Hbody. reflexivity.
Qed.

Lemma one_post_run_log (valid : result bool) (loaded : result pyval)
    (prepare : pyval -> result request)
    (finish : pyval -> response -> result pyval) :
  fst (one_post_run valid loaded prepare requests_post finish) = [] \/
  exists envelope req,
    valid = OK true /\ loaded = OK envelope /\ prepare envelope = OK req /\
    fst (one_post_run valid loaded prepare requests_post finish) = [req].
Proof.
  unfold one_post_run.
  destruct valid as [[|]|e]; [|left; reflexivity|left; reflexivity].
  destruct loaded as [envelope|e]; [|left; reflexivity].
  destruct (prepare envelope) as [req|e] eqn:Hp; [|left; reflexivity].
  right. exists envelope, req. auto.
Qed.

(** X1: decode_transaction_raw posts at most one request, and only for an input
    that is_transaction_raw accepts and whose envelope names a network of
    the config and holds 'raw'.  The request goes to the network's
    'vapor-core' URL followed by '/decode-raw-transaction', without
    params, with the caller's headers and timeout, and its body is
    json.dumps of the dict that maps 'raw_transaction' to the raw. *)
Theorem decode_posts_at_most_once (s : string) (headers timeout : pyval) :
  fst (run (decode s headers timeout)) = [] \/
  exists loaded network node core raw body,
    is_raw (PStr s) = OK true /\ load s = OK loaded /\
    getitem_str loaded "network" = OK network /\
    dict_getitem config network = OK node /\
    getitem_str node "vapor-core" = OK core /\
    getitem_str loaded "raw" = OK raw /\
    json_dumps (PDict [("raw_transaction", raw)]) = inl body /\
    fst (run (decode s headers timeout)) =
      [{| req_url := format core ++ "/decode-raw-transaction";
          req_data := body; req_params := None;
          req_headers := headers; req_timeout := timeout |}].
Proof.
  rewrite decode_run.
  destruct (one_post_run_log (is_raw (PStr s)) (load s)
              (fun loaded => decode_prepare json_dumps config format loaded headers timeout)
              decode_finish) as [H|(loaded & req & Hv & Hl & Hp & H)].
  - left. exact H.
  - right. apply decode_prepare_OK in Hp
      as (network & node & core & raw & body & Hn & Hnode & Hcore & Hraw & Hbody & ->).
    exists loaded, network, node, core, raw, body. auto 10.
Qed.

(** X2: submit_transaction_raw posts at most one request, and only for an input
    that is_transaction_raw accepts and whose envelope names a network of
    the config and holds 'raw', 'signatures' and 'address'.  The request
    goes to the network's 'blockcenter' URL followed by
    '/merchant/submit-payment', its params carry the envelope's address,
    and its body is json.dumps of the raw transaction and the signatures. *)
Theorem submit_posts_at_most_once (s : string) (headers timeout : pyval) :
  fst (run (submit s headers timeout)) = [] \/
  exists loaded network node center raw signatures address body,
    is_raw (PStr s) = OK true /\ load s = OK loaded /\
    getitem_str loaded "network" = OK network /\
    dict_getitem config network = OK node /\
    getitem_str node "blockcenter" = OK center /\
    getitem_str loaded "raw" = OK raw /\
    getitem_str loaded "signatures" = OK signatures /\
    getitem_str loaded "address" = OK address /\
    json_dumps (PDict [("raw_transaction", raw); ("signatures", signatures)]) =
      inl body /\
    fst (run (submit s headers timeout)) =
      [{| req_url := format center ++ "/merchant/submit-payment";
          req_data := body;
          req_params := Some (PDict [("address", address)]);
          req_headers := headers; req_timeout := timeout |}].
Proof.
  rewrite submit_run.
  destruct (one_post_run_log (is_raw (PStr s)) (load s)
              (fun loaded => submit_prepare json_dumps config format loaded headers timeout)
              (submit_finish utcnow)) as [H|(loaded & req & Hv & Hl & Hp & H)].
  - left. exact H.
  - right. apply submit_prepare_OK in Hp
      as (network & node & center & raw & signatures & address & body &
          Hn & Hnode & Hcenter & Hraw & Hsig & Haddr & Hbody & ->).
    exists loaded, network, node, center, raw, signatures, address, body. auto 12.
Qed.

Lemma one_post_run_posted (valid : result bool) (loaded : result pyval)
    (prepare : pyval -> result request)
    (finish : pyval -> response -> result pyval)
    (envelope : pyval) (req : request) (resp : response) :
  valid = OK true -> loaded = OK envelope -> prepare envelope = OK req ->
  requests_post req = inl resp ->
  one_post_run valid loaded prepare requests_post finish =
  ([req], finish envelope resp).
Proof.
  intros -> -> Hp Hr. unfold one_post_run. rewrite Hp, Hr. reflexivity.
Qed.

Lemma is_transaction_raw_accepts (s : string) (loaded type : pyval) :
  load s = OK loaded -> getitem_str loaded "type" = OK type ->
  in_strs type tags = true -> is_raw (PStr s) = OK true.
Proof.
  intros Hl Ht Hin.
  rewrite (is_transaction_raw_str clean_transaction_raw str_encode bytes_decode
             b64decode json_loads s), Hl, Ht, Hin.
  reflexivity.
Qed.

(** X3: When the decode service answers with HTTP status 400,
    decode_transaction_raw raises APIError with the 'msg' and 'code' of the
    response JSON, whatever the envelope holds besides what the request
    needed; with any other status it goes on to build its result. *)
Theorem decode_status_400 (s : string) (headers timeout loaded : pyval)
    (req : request) (resp : response) (rj msg code : pyval) :
  is_raw (PStr s) = OK true -> load s = OK loaded ->
  decode_prepare json_dumps config format loaded headers timeout = OK req ->
  requests_post req = inl resp -> response_json resp = inl rj ->
  status_code resp = 400%Z ->
  getitem_str rj "msg" = OK msg -> getitem_str rj "code" = OK code ->
  run (decode s headers timeout) = ([req], Raise (SwapError APIError [msg; code])).
Proof.
  intros Hv Hl Hp Hr Hrj Hs Hm Hc. rewrite decode_run.
  rewrite (one_post_run_posted _ _ _ _ loaded req resp Hv Hl Hp Hr).
  unfold decode_finish. rewrite Hrj, Hs. cbn [lift bind Z.eqb Pos.eqb].
  rewrite Hm. cbn [bind]. rewrite Hc. reflexivity.
Qed.

(** X4: When the request can be prepared, the service answers with a status
    other than 400 and a JSON object holding 'data', and the envelope holds
    'fee', 'address', 'unsigned_datas' and 'signatures',
    decode_transaction_raw posts that one request and returns the dict of
    the seven fields. *)
Theorem decode_transaction_raw_returns (s : string) (headers timeout loaded : pyval)
    (req : request) (resp : response)
    (rj fee address type tx unsigned_datas signatures network : pyval) :
  is_raw (PStr s) = OK true -> load s = OK loaded ->
  decode_prepare json_dumps config format loaded headers timeout = OK req ->
  requests_post req = inl resp -> response_json resp = inl rj ->
  status_code resp <> 400%Z ->
  getitem_str loaded "fee" = OK fee ->
  getitem_str loaded "address" = OK address ->
  getitem_str loaded "type" = OK type ->
  getitem_str rj "data" = OK tx ->
  getitem_str loaded "unsigned_datas" = OK unsigned_datas ->
  getitem_str loaded "signatures" = OK signatures ->
  getitem_str loaded "network" = OK network ->
  run (decode s headers timeout) =
  ([req],
   OK (PDict [("fee", fee); ("address", address); ("type", type); ("tx", tx);
              ("unsigned_datas", unsigned_datas); ("signatures", signatures);
              ("network", network)])).
Proof.
  intros Hv Hl Hp Hr Hrj Hs Hfee Haddr Htype Htx Hu Hsig Hn. rewrite decode_run.
  rewrite (one_post_run_posted _ _ _ _ loaded req resp Hv Hl Hp Hr).
  unfold decode_finish. rewrite Hrj. cbn [lift bind].
  destruct (Z.eqb_spec (status_code resp) 400) as [E|_]; [contradiction|].
  rewrite Hfee. cbn [bind]. rewrite Haddr. cbn [bind]. rewrite Htype. cbn [bind].
  rewrite Htx. cbn [bind]. rewrite Hu. cbn [bind]. rewrite Hsig. cbn [bind].
  rewrite Hn. reflexivity.
Qed.

(** X5: decode_transaction_raw reads 'fee', 'address', 'unsigned_datas' and
    'signatures' only after the request: for an accepted envelope that
    lacks one of them the request is posted all the same, and the call
    then raises instead of returning. *)
Theorem decode_reads_metadata_after_post (s : string) (headers timeout loaded : pyval)
    (req : request) (resp : response) (k : string) (e : exn) :
  is_raw (PStr s) = OK true -> load s = OK loaded ->
  decode_prepare json_dumps config format loaded headers timeout = OK req ->
  requests_post req = inl resp ->
  In k ["fee"; "address"; "unsigned_datas"; "signatures"] ->
  getitem_str loaded k = Raise e ->
  exists e', run (decode s headers timeout) = ([req], Raise e').
Proof.
  intros Hv Hl Hp Hr Hk He. rewrite decode_run.
  rewrite (one_post_run_posted _ _ _ _ loaded req resp Hv Hl Hp Hr).
  unfold decode_finish.
  destruct (lift (response_json resp)) as [rj|e0]; cbn [bind]; [|eauto].
  destruct (status_code resp =? 400)%Z.
  { destruct (getitem_str rj "msg"); cbn [bind]; [|eauto].
    destruct (getitem_str rj "code"); cbn [bind]; eauto. }
  cbn [In] in Hk.
  destruct (getitem_str loaded "fee") eqn:Hfee; cbn [bind]; [|eauto].
  destruct (getitem_str loaded "address") eqn:Haddr; cbn [bind]; [|eauto].
  destruct (getitem_str loaded "type"); cbn [bind]; [|eauto].
  destruct (getitem_str rj "data"); cbn [bind]; [|eauto].
  destruct (getitem_str loaded "unsigned_datas") eqn:Hu; cbn [bind]; [|eauto].
  destruct (getitem_str loaded "signatures") eqn:Hsig; cbn [bind]; [|eauto].
  exfalso. destruct Hk as [<-|[<-|[<-|[<-|[]]]]]; congruence.
Qed.

(** X6: A dict returned by submit_transaction_raw has exactly the keys fee,
    type, transaction_id, network and date: fee, type and network are those
    of the envelope, transaction_id is data.tx_hash of the response JSON,
    whose 'code' equals 200, and date is the clock reading; exactly one
    request was posted. *)
Theorem submit_transaction_raw_frame (s : string) (headers timeout : pyval)
    (log : list request) (d : pyval) :
  run (submit s headers timeout) = (log, OK d) ->
  exists loaded req resp rj code data fee type transaction_id network,
    load s = OK loaded /\
    submit_prepare json_dumps config format loaded headers timeout = OK req /\
    log = [req] /\ requests_post req = inl resp /\ response_json resp = inl rj /\
    getitem_str rj "code" = OK code /\ ne_int code 200 = false /\
    getitem_str loaded "fee" = OK fee /\
    getitem_str loaded "type" = OK type /\
    getitem_str rj "data" = OK data /\
    getitem_str data "tx_hash" = OK transaction_id /\
    getitem_str loaded "network" = OK network /\
    d = PDict [("fee", fee); ("type", type); ("transaction_id", transaction_id);
               ("network", network); ("date", PStr utcnow)].
Proof.
  rewrite submit_run. unfold one_post_run.
  destruct (is_raw (PStr s)) as [[|]|e]; try discriminate.
  destruct (load s) as [loaded|e]; [|discriminate].
  destruct (submit_prepare _ _ _ loaded headers timeout) as [req|e] eqn:Hp;
    [|discriminate].
  destruct (requests_post req) as [resp|e] eqn:Hr; [|discriminate].
  intros H. inversion H as [[Hlog Hd]]. clear H.
  unfold submit_finish in Hd.
  apply bind_OK in Hd as (rj & Hrj & Hd). apply lift_OK in Hrj.
  apply bind_OK in Hd as (code & Hcode & Hd).
  destruct (ne_int code 200) eqn:Hne.
  { apply bind_OK in Hd as (msg & _ & Hd).
    apply bind_OK in Hd as (code' & _ & Hd). discriminate. }
  apply bind_OK in Hd as (fee & Hfee & Hd).
  apply bind_OK in Hd as (type & Htype & Hd).
  apply bind_OK in Hd as (data & Hdata & Hd).
  apply bind_OK in Hd as (txid & Htxid & Hd).
  apply bind_OK in Hd as (network & Hn & Hd).
  inversion Hd.
  exists loaded, req, resp, rj, code, data, fee, type, txid, network.
  repeat split; auto.
Qed.

(** X7: submit_transaction_raw judges the answer by the 'code' of the response
    JSON alone, whatever the HTTP status: when that code differs from 200
    it raises APIError with the response's 'msg' and 'code'. *)
Theorem submit_code_not_200 (s : string) (headers timeout loaded : pyval)
    (req : request) (resp : response) (rj msg code : pyval) :
  is_raw (PStr s) = OK true -> load s = OK loaded ->
  submit_prepare json_dumps config format loaded headers timeout = OK req ->
  requests_post req = inl resp -> response_json resp = inl rj ->
  getitem_str rj "code" = OK code -> ne_int code 200 = true ->
  getitem_str rj "msg" = OK msg ->
  run (submit s headers timeout) = ([req], Raise (SwapError APIError [msg; code])).
Proof.
  intros Hv Hl Hp Hr Hrj Hc Hne Hm. rewrite submit_run.
  rewrite (one_post_run_posted _ _ _ _ loaded req resp Hv Hl Hp Hr).
  unfold submit_finish. rewrite Hrj. cbn [lift bind]. rewrite Hc. cbn [bind].
  rewrite Hne, Hm. reflexivity.
Qed.

Lemma never_bind {A B} c (r : result A) (k : A -> result B) :
  never c r -> (forall a, never c (k a)) -> never c (bind r k).
Proof.
  intros Hr Hk. destruct r as [a|e]; cbn [bind]; [apply Hk|].
  intros [args H]. apply Hr. exists args. congruence.
Qed.

Lemma never_Raise {A} c c' args :
  c' <> c -> never c (@Raise A (SwapError c' args)).
Proof. intros Hne [args' H]. congruence. Qed.


Ltac never_steps :=
  repeat first
    [ apply never_OK
    | apply never_Raise; congruence
    | apply never_bind; [ solve [auto with swap] | intros ? ]
    | match goal with |- never _ (if ?b then _ else _) => destruct b end ].

Lemma one_post_run_never (c : swap_error) (valid : result bool)
    (loaded : result pyval) (prepare : pyval -> result request)
    (finish : pyval -> response -> result pyval) :
  c <> TransactionRawError ->
  never c valid -> (valid = OK true -> never c loaded) ->
  (forall envelope, never c (prepare envelope)) ->
  (forall envelope resp, never c (finish envelope resp)) ->
  never c (snd (one_post_run valid loaded prepare requests_post finish)).
Proof.
  intros Hc Hv Hl Hp Hf. unfold one_post_run.
  destruct valid as [[|]|e]; cbn [snd].
  - specialize (Hl eq_refl). destruct loaded as [envelope|e]; cbn [snd].
    + specialize (Hp envelope). destruct (prepare envelope) as [req|e]; cbn [snd].
      * destruct (requests_post req) as [resp|e]; [apply Hf|].
        intros [args H]. discriminate.
      * intros [args H]. apply Hp. exists args. congruence.
    + intros [args H]. apply Hl. exists args. congruence.
  - apply never_Raise. congruence.
  - intros [args H]. apply Hv. exists args. congruence.
Qed.

(** X8: Of the exception classes of swap.exceptions, decode_transaction_raw and
    submit_transaction_raw raise only TransactionRawError and APIError. *)
Theorem transaction_raw_functions_raise_two_classes (c : swap_error)
    (s : string) (headers timeout : pyval) :
  c <> TransactionRawError -> c <> APIError ->
  never c (snd (run (decode s headers timeout))) /\
  never c (snd (run (submit s headers timeout))).
Proof.
  intros Hc1 Hc2.
  assert (Hv : never c (is_raw (PStr s))).
  { rewrite (is_transaction_raw_str clean_transaction_raw str_encode bytes_decode
               b64decode json_loads s). apply never_OK. }
  assert (Hl : is_raw (PStr s) = OK true -> never c (load s)).
  { intros H.
    destruct (is_transaction_raw_valid clean_transaction_raw str_encode
                bytes_decode b64decode json_loads s H) as (kv & ty & E & _).
    rewrite E. apply never_OK. }
  split.
  - rewrite decode_run. apply one_post_run_never; try assumption.
    + intros envelope. unfold decode_prepare. never_steps.
    + intros envelope resp. unfold decode_finish. never_steps.
  - rewrite submit_run. apply one_post_run_never; try assumption.
    + intros envelope. unfold submit_prepare. never_steps.
    + intros envelope resp. unfold submit_finish. never_steps.
Qed.

(** X9: is_address raises NetworkError exactly when it is given a network other
    than 'mainnet', 'solonet' and 'testnet'; otherwise it returns the
    verdict of pybytom's is_address for that network (or for no network),
    asked with vapor=True. *)
Theorem is_address_checks_network (address : string) (network : option string) :
  (raises NetworkError (is_address btm_is_address address network) <->
   exists n, network = Some n /\ ~ In n networks) /\
  ((forall n, network = Some n -> In n networks) ->
   is_address btm_is_address address network =
   OK (btm_is_address address network true)).
Proof.
  unfold is_address. destruct network as [n|]; cbn [is_network bind].
  - destruct (str_in n networks) eqn:E; cbn [negb].
    + apply str_in_In in E. split.
      * split; [intros [args H]; discriminate|].
        intros (n' & Hn & Hnot). inversion Hn. subst. contradiction.
      * reflexivity.
    + assert (Hnot : ~ In n networks).
      { intros H. apply str_in_In in H. congruence. }
      split.
      * split; [eauto|]. intros _. eexists. reflexivity.
      * intros H. exfalso. apply Hnot, H. reflexivity.
  - split.
    + split; [intros [args H]; discriminate|]. intros (n & H & _). discriminate.
    + reflexivity.
Qed.

(** X10: get_address_type answers 'p2wpkh' exactly for the addresses pybytom
    accepts that are 42 characters long and 'p2wsh' exactly for those that
    are 62 characters long. *)
Theorem get_address_type_by_length (address : string) :
  (get_address_type btm_is_address address = OK (PStr "p2wpkh") <->
   btm_is_address address None true = true /\ String.length address = 42%nat) /\
  (get_address_type btm_is_address address = OK (PStr "p2wsh") <->
   btm_is_address address None true = true /\ String.length address = 62%nat).
Proof.
  unfold get_address_type, is_address. cbn [bind].
  destruct (btm_is_address address None true); cbn [negb].
  - destruct (Z.eqb_spec (Z.of_nat (String.length address)) 42) as [E42|N42].
    + split; split; try (intros [_ H]; lia); try discriminate.
      * intros _. split; [reflexivity|lia].
      * intros _. reflexivity.
    + destruct (Z.eqb_spec (Z.of_nat (String.length address)) 62) as [E62|N62].
      * split; split; try (intros [_ H]; lia); try discriminate.
        -- intros _. split; [reflexivity|lia].
        -- intros _. reflexivity.
      * split; split; try (intros [_ H]; lia); discriminate.
  - split; split; try discriminate; intros [H _]; discriminate.
Qed.

End UtilsMore.

(** ** The outcomes of the refund command *)

Section RefundMore.

Variable transaction : Type.
Variable RefundTransaction : string -> result transaction.
Variable build_transaction :
  transaction -> string -> string -> pyval -> bool -> string -> result transaction.
Variable transaction_raw : transaction -> result string.
Variable amount_unit_converter : num -> string -> result pyval.
Variable exn_str : exn -> string.
Variable style_reset : string.

Notation refund_amount' := (refund_amount amount_unit_converter).
Notation refund' :=
  (refund transaction RefundTransaction build_transaction transaction_raw
     amount_unit_converter exn_str style_reset).

Lemma refund_unfold (address transaction_id : string) (amount : num)
    (max_amount : bool) (unit asset network : string) :
  refund' address transaction_id amount max_amount unit asset network =
  let failed (evs : list event) (e : exn) :=
    if is_Exception e
    then ((evs ++ [Echo (error_message style_reset (exn_str e)) true])%list, Exited)
    else (evs, Propagated e) in
  match RefundTransaction network with
  | Raise e => failed [] e
  | OK t =>
      match refund_amount' amount unit with
      | Raise e => failed [] e
      | OK a =>
          let call := Build address transaction_id a max_amount asset in
          match build_transaction t address transaction_id a max_amount asset with
          | Raise e => failed [call] e
          | OK t' =>
              match transaction_raw t' with
              | Raise e => failed [call] e
              | OK raw => ([call; Echo raw false], Returned)
              end
          end
      end
  end.
Proof.
  unfold refund, refund_try, cli_bind, cli_lift, emit. cbv zeta.
  destruct (RefundTransaction network) as [t|e]; [|reflexivity].
  destruct (refund_amount' amount unit) as [a|e]; [|reflexivity].
  cbn [app].
  destruct (build_transaction t address transaction_id a max_amount asset)
    as [t'|e]; [|reflexivity].
  destruct (transaction_raw t') as [raw|e]; reflexivity.
Qed.

(** X11: Every run of the refund command ends in one of three ways: it returns
    after one builder call and one echo of the transaction raw to stdout;
    or it exits after at most one builder call and one echo of an error
    line to stderr; or an exception outside Exception propagates after at
    most one builder call and no echo.  So it never echoes twice, never
    writes the raw after an error and never calls the builder twice. *)
Theorem refund_outcomes (address transaction_id : string) (amount : num)
    (max_amount : bool) (unit asset network : string) :
  let run := refund' address transaction_id amount max_amount unit asset network in
  (exists a raw,
      run = ([Build address transaction_id a max_amount asset; Echo raw false],
             Returned)) \/
  (exists e calls,
      is_Exception e = true /\
      (calls = [] \/
       exists a, calls = [Build address transaction_id a max_amount asset]) /\
      run = ((calls ++ [Echo ("Error: " ++ exn_str e ++ style_reset) true])%list,
             Exited)) \/
  (exists e calls,
      is_Exception e = false /\
      (calls = [] \/
       exists a, calls = [Build address transaction_id a max_amount asset]) /\
      run = (calls, Propagated e)).
Proof.
  cbv zeta. rewrite refund_unfold. cbv zeta.
  assert (Hfail : forall calls e,
    (calls = [] \/
     exists a, calls = [Build address transaction_id a max_amount asset]) ->
    let r := if is_Exception e
             then ((calls ++ [Echo (error_message style_reset (exn_str e)) true])%list,
                   Exited)
             else (calls, Propagated e) in
    (exists a raw,
        r = ([Build address transaction_id a max_amount asset; Echo raw false],
             Returned)) \/
    (exists e calls,
        is_Exception e = true /\
        (calls = [] \/
         exists a, calls = [Build address transaction_id a max_amount asset]) /\
        r = ((calls ++ [Echo ("Error: " ++ exn_str e ++ style_reset) true])%list,
             Exited)) \/
    (exists e calls,
        is_Exception e = false /\
        (calls = [] \/
         exists a, calls = [Build address transaction_id a max_amount asset]) /\
        r = (calls, Propagated e))).
  { intros calls e Hc. cbv zeta. destruct (is_Exception e) eqn:E.
    - right. left. exists e, calls. auto.
    - right. right. exists e, calls. auto. }
  destruct (RefundTransaction network) as [t|e]; [|apply Hfail; auto].
  destruct (refund_amount' amount unit) as [a|e]; [|apply Hfail; auto].
  destruct (build_transaction t address transaction_id a max_amount asset)
    as [t'|e]; [|apply Hfail; eauto].
  destruct (transaction_raw t') as [raw|e]; [|apply Hfail; eauto].
  left. eauto.
Qed.

(** X12: The refund command echoes a transaction raw to stdout and returns
    exactly when the constructor, the amount conversion, the builder and
    transaction_raw() all succeed; the raw echoed is the one of the
    built transaction. *)
Theorem refund_echoes_raw_iff (address transaction_id : string) (amount : num)
    (max_amount : bool) (unit asset network : string) (a : pyval) (raw : string) :
  refund' address transaction_id amount max_amount unit asset network =
    ([Build address transaction_id a max_amount asset; Echo raw false], Returned) <->
  exists t t',
    RefundTransaction network = OK t /\
    refund_amount' amount unit = OK a /\
    build_transaction t address transaction_id a max_amount asset = OK t' /\
    transaction_raw t' = OK raw.
Proof.
  rewrite refund_unfold. cbv zeta. split.
  - destruct (RefundTransaction network) as [t|e];
      [|destruct (is_Exception e); discriminate].
    destruct (refund_amount' amount unit) as [a0|e];
      [|destruct (is_Exception e); discriminate].
    destruct (build_transaction t address transaction_id a0 max_amount asset)
      as [t'|e] eqn:Hb; [|destruct (is_Exception e); discriminate].
    destruct (transaction_raw t') as [raw0|e] eqn:Hr;
      [|destruct (is_Exception e); discriminate].
    intros H. inversion H. subst. exists t, t'. auto.
  - intros (t & t' & Ht & Ha & Hb & Hr). rewrite Ht, Ha, Hb, Hr. reflexivity.
Qed.

(** X13: With the unit 'NEU' an amount that is infinite or not a number cannot
    be turned into an int: the command echoes the error to stderr and
    exits without calling the builder. *)
Theorem refund_rejects_non_finite_amount (address transaction_id : string)
    (f : spec_float) (max_amount : bool) (asset network : string) (t : transaction) :
  RefundTransaction network = OK t ->
  (f = S754_nan \/ exists sg, f = S754_infinity sg) ->
  exists e,
    PyNum.to_int (NFloat f) = Raise e /\
    refund' address transaction_id (NFloat f) max_amount "NEU" asset network =
    ([Echo ("Error: " ++ exn_str e ++ style_reset) true], Exited).
Proof.
  intros Ht Hf. rewrite refund_unfold. cbv zeta. rewrite Ht.
  destruct Hf as [->|[sg ->]]; eexists; (split; [reflexivity|]); reflexivity.
Qed.

End RefundMore.

(** ** Round trips, symmetry and accuracy of amount_converter *)

Local Open Scope Z_scope.

(** X14: Going from mBTM to NEU and back is the identity on integer amounts:
    up to 2^52 NEU, mBTM2NEU multiplies by 100,000 exactly and NEU2mBTM
    gives the amount back. *)
Theorem mBTM_round_trip_exact (x : Z) :
  Z.abs (x * 100000) < 2 ^ 52 ->
  amount_converter (NInt x) "mBTM2NEU" = OK (PNum (NInt (x * 100000))) /\
  amount_converter (NInt (x * 100000)) "NEU2mBTM" = OK (PNum (NInt x)).
Proof.
  intros Hx. split.
  - rewrite amount_converter_mBTM2NEU.
    rewrite (rescale_int_trunc x 100000000 1000 1000 (x * 100000) 1) by lia.
    rewrite Z.quot_1_r. reflexivity.
  - rewrite amount_converter_NEU2mBTM.
    rewrite (rescale_int_trunc (x * 100000) 1000 100000000 100000000 x 1) by lia.
    rewrite Z.quot_1_r. reflexivity.
Qed.

(** X15: Going from NEU to mBTM and back drops what does not fill a whole mBTM:
    an integer amount x below 2^52 comes back as x minus the remainder of
    x by 100,000, the multiple of 100,000 next to x toward zero. *)
Theorem NEU_via_mBTM_drops_remainder (x : Z) :
  Z.abs x < 2 ^ 52 ->
  exists k,
    amount_converter (NInt x) "NEU2mBTM" = OK (PNum (NInt k)) /\
    amount_converter (NInt k) "mBTM2NEU" = OK (PNum (NInt (x - Z.rem x 100000))).
Proof.
  intros Hx. exists (Z.quot x 100000). split.
  - rewrite amount_converter_NEU2mBTM.
    apply (rescale_int_trunc x 1000 100000000 1000 x 100000); lia.
  - pose proof (Z.quot_rem' x 100000) as E.
    assert (Hk : Z.abs (Z.quot x 100000 * 100000) < 2 ^ 52).
    { pose proof (Z.rem_bound_pos (Z.abs x) 100000 ltac:(lia) ltac:(lia)) as Hr.
      assert (Habs : Z.abs x = 100000 * Z.abs (Z.quot x 100000) + Z.abs (Z.rem x 100000)).
      { destruct (Z.le_gt_cases 0 x) as [Hp|Hn].
        - pose proof (Z.quot_pos x 100000 Hp ltac:(lia)).
          pose proof (Z.rem_nonneg x 100000 ltac:(lia) Hp). lia.
        - pose proof (Z.quot_opp_l x 100000 ltac:(lia)) as Eq.
          pose proof (Z.rem_opp_l x 100000 ltac:(lia)) as Er.
          pose proof (Z.quot_pos (- x) 100000 ltac:(lia) ltac:(lia)).
          pose proof (Z.rem_nonneg (- x) 100000 ltac:(lia) ltac:(lia)).
          pose proof (Z.quot_rem' (- x) 100000). lia. }
      rewrite Z.abs_mul. change (Z.abs 100000) with 100000. lia. }
    rewrite amount_converter_mBTM2NEU.
    rewrite (rescale_int_trunc (Z.quot x 100000) 100000000 1000 1000
               (Z.quot x 100000 * 100000) 1) by lia.
    rewrite Z.quot_1_r. do 3 f_equal. lia.
Qed.

Lemma length_append (a b : string) :
  String.length (a ++ b) = (String.length a + String.length b)%nat.
Proof. induction a as [|c a IH]; cbn; [reflexivity|]. rewrite IH. reflexivity. Qed.

Lemma append_inv_tail (a b c : string) : a ++ c = b ++ c -> a = b.
Proof.
  revert b. induction a as [|x a IH]; intros [|y b] H; cbn in H.
  - reflexivity.
  - apply (f_equal String.length) in H. cbn in H. rewrite length_append in H. lia.
  - apply (f_equal String.length) in H. cbn in H. rewrite length_append in H. lia.
  - inversion H. f_equal. apply IH. assumption.
Qed.

(** X16: Among the symbols that convert to NEU, amount_converter knows
    'BTM2NEU' and 'mBTM2NEU' only: for every other unit, and for 'NEU'
    itself, the symbol unit + '2NEU' raises SymbolError. *)
Theorem symbols_into_NEU (amount : num) (unit : string) :
  (In (unit ++ "2NEU")%string symbols <-> unit = "BTM" \/ unit = "mBTM") /\
  (unit <> "BTM" -> unit <> "mBTM" ->
   amount_converter amount (unit ++ "2NEU")%string =
   Raise (symbol_error (unit ++ "2NEU")%string)).
Proof.
  assert (H : In (unit ++ "2NEU")%string symbols <-> unit = "BTM" \/ unit = "mBTM").
  { split.
    - cbn [symbols In]. intros [E|[E|[E|[E|[E|[E|[]]]]]]].
      + pose proof (f_equal String.length E) as El. rewrite length_append in El.
        cbn in El.
        assert (Hlen : String.length unit = 4%nat) by lia.
        destruct unit as [|c1 [|c2 [|c3 [|c4 [|c5 u]]]]]; cbn in Hlen; try lia.
        cbn in E. discriminate.
      + left. apply (append_inv_tail unit "BTM" "2NEU"). symmetry. exact E.
      + pose proof (f_equal String.length E) as El. rewrite length_append in El.
        cbn in El.
        assert (Hlen : String.length unit = 4%nat) by lia.
        destruct unit as [|c1 [|c2 [|c3 [|c4 [|c5 u]]]]]; cbn in Hlen; try lia.
        cbn in E. discriminate.
      + right. apply (append_inv_tail unit "mBTM" "2NEU"). symmetry. exact E.
      + pose proof (f_equal String.length E) as El. rewrite length_append in El.
        cbn in El.
        assert (Hlen : String.length unit = 3%nat) by lia.
        destruct unit as [|c1 [|c2 [|c3 [|c4 u]]]]; cbn in Hlen; try lia.
        cbn in E. discriminate.
      + pose proof (f_equal String.length E) as El. rewrite length_append in El.
        cbn in El.
        assert (Hlen : String.length unit = 4%nat) by lia.
        destruct unit as [|c1 [|c2 [|c3 [|c4 [|c5 u]]]]]; cbn in Hlen; try lia.
        cbn in E. discriminate.
    - intros [->| ->]; cbn; auto. }
  split; [exact H|].
  intros H1 H2. apply amount_converter_invalid. rewrite H. tauto.
Qed.

Lemma binary_round_aux_opp (sg : bool) (m e : Z) (l : location) :
  binary_round_aux 53 1024 (negb sg) m e l =
  SFopp (binary_round_aux 53 1024 sg m e l).
Proof.
  unfold binary_round_aux.
  destruct (shr_fexp 53 1024 m e l) as [mrs' e'].
  destruct (shr_fexp 53 1024 _ e' loc_Exact) as [mrs'' e''].
  destruct (shr_m mrs'') as [|p|p]; try reflexivity.
  destruct (e'' <=? 1024 - 53); reflexivity.
Qed.

Lemma int_truediv_opp (x b : Z) :
  x <> 0 -> 0 < b ->
  PyNum.int_truediv (- x) b =
  match PyNum.int_truediv x b with
  | OK f => OK (SFopp f)
  | Raise e => Raise e
  end.
Proof.
  intros Hx Hb. unfold PyNum.int_truediv.
  assert (E : SFdiv PyNum.prec PyNum.emax
                (S754_finite (- x <? 0) (Z.to_pos (Z.abs (- x))) 0)
                (S754_finite (b <? 0) (Z.to_pos (Z.abs b)) 0) =
              SFopp (SFdiv PyNum.prec PyNum.emax
                (S754_finite (x <? 0) (Z.to_pos (Z.abs x)) 0)
                (S754_finite (b <? 0) (Z.to_pos (Z.abs b)) 0))).
  { rewrite Z.abs_opp.
    replace (- x <? 0) with (negb (x <? 0))
      by (destruct (Z.ltb_spec x 0), (Z.ltb_spec (- x) 0); cbn; lia).
    unfold PyNum.prec, PyNum.emax. cbn [SFdiv].
    destruct (SFdiv_core_binary 53 1024 _ 0 _ 0) as [[mz ez] lz].
    replace (xorb (negb (x <? 0)) (b <? 0)) with (negb (xorb (x <? 0) (b <? 0)))
      by (destruct (x <? 0), (b <? 0); reflexivity).
    apply binary_round_aux_opp. }
  destruct x as [|px|px]; try lia; destruct b as [|pb|pb]; try lia;
    cbn [Z.opp]; cbn [Z.opp] in E; rewrite E;
    match goal with
    | |- context [PyNum.is_inf (SFopp ?f)] => destruct f as [| | |]; reflexivity
    end.
Qed.

Lemma to_int_opp (f : spec_float) :
  PyNum.to_int (NFloat (SFopp f)) =
  match PyNum.to_int (NFloat f) with
  | OK (NInt z) => OK (NInt (- z))
  | r => r
  end.
Proof.
  destruct f as [sg|sg| |sg m e]; cbn [SFopp PyNum.to_int]; try reflexivity.
  unfold PyNum.trunc_float. destruct sg; cbn [negb]; do 2 f_equal; lia.
Qed.

Lemma rescale_int_opp (a ft fs : Z) :
  a <> 0 -> 0 < ft -> 0 < fs ->
  bind (PyNum.mul (NInt (- a)) (NInt ft)) (fun p =>
  bind (PyNum.truediv p (NInt fs)) (fun q =>
  bind (PyNum.to_int q) (fun r => OK (PNum r)))) =
  negated
    (bind (PyNum.mul (NInt a) (NInt ft)) (fun p =>
     bind (PyNum.truediv p (NInt fs)) (fun q =>
     bind (PyNum.to_int q) (fun r => OK (PNum r))))).
Proof.
  intros Ha Hft Hfs. cbn [PyNum.mul bind PyNum.truediv].
  replace (- a * ft) with (- (a * ft)) by lia.
  rewrite int_truediv_opp by nia.
  destruct (PyNum.int_truediv (a * ft) fs) as [f|e]; cbn [bind]; [|reflexivity].
  rewrite to_int_opp.
  destruct (PyNum.to_int (NFloat f)) as [[z|g]|e] eqn:E; cbn [bind negated];
    try reflexivity.
  apply to_int_is_int in E as [z E]. discriminate.
Qed.

Lemma rescale_float_opp (a ft fs : Z) :
  a <> 0 -> 0 < ft -> 0 < fs ->
  bind (PyNum.mul (NInt (- a)) (NInt ft)) (fun p =>
  bind (PyNum.truediv p (NInt fs)) (fun q =>
  bind (PyNum.to_float q) (fun r => OK (PNum r)))) =
  negated
    (bind (PyNum.mul (NInt a) (NInt ft)) (fun p =>
     bind (PyNum.truediv p (NInt fs)) (fun q =>
     bind (PyNum.to_float q) (fun r => OK (PNum r))))).
Proof.
  intros Ha Hft Hfs. cbn [PyNum.mul bind PyNum.truediv].
  replace (- a * ft) with (- (a * ft)) by lia.
  rewrite int_truediv_opp by nia.
  destruct (PyNum.int_truediv (a * ft) fs) as [f|e]; reflexivity.
Qed.

(** X17: amount_converter is odd on the integers: for every symbol, a nonzero
    integer amount and its negation convert to results that are negations
    of each other, and raise the same error when one raises; the int
    conversions therefore truncate toward zero on both sides. *)
Theorem amount_converter_odd (a : Z) (symbol : string) :
  a <> 0 ->
  amount_converter (NInt (- a)) symbol = negated (amount_converter (NInt a) symbol).
Proof.
  intros Ha. destruct (str_in symbol symbols) eqn:E.
  - apply str_in_In in E. cbn [symbols In] in E.
    destruct E as [<-|[<-|[<-|[<-|[<-|[<-|[]]]]]]].
    + rewrite !amount_converter_BTM2mBTM. apply rescale_float_opp; lia.
    + rewrite !amount_converter_BTM2NEU. apply rescale_int_opp; lia.
    + rewrite !amount_converter_mBTM2BTM. apply rescale_float_opp; lia.
    + rewrite !amount_converter_mBTM2NEU. apply rescale_int_opp; lia.
    + rewrite !amount_converter_NEU2BTM. apply rescale_float_opp; lia.
    + rewrite !amount_converter_NEU2mBTM. apply rescale_int_opp; lia.
  - unfold amount_converter. rewrite E. reflexivity.
Qed.

(** A multiple [G] of [P] within half of [P] of [N] lies between the
    multiples of [S] around [N], when [S] is itself a multiple of [P]. *)
Lemma nearest_multiple (G N P S m u k : Z) :
  0 < P -> 0 < u -> G = m * P -> S = u * P ->
  2 * G - P <= 2 * N <= 2 * G + P ->
  k * S <= N < (k + 1) * S ->
  k * S <= G <= (k + 1) * S.
Proof.
  intros HP Hu -> -> Hnear Hk.
  assert (H1 : k * u <= m).
  { destruct (Z.le_gt_cases (k * u) m) as [|Hlt]; [assumption|].
    assert (P * (m + 1) <= P * (k * u)) by (apply Z.mul_le_mono_nonneg_l; lia).
    lia. }
  assert (H2 : m <= (k + 1) * u).
  { destruct (Z.le_gt_cases m ((k + 1) * u)) as [|Hgt]; [assumption|].
    assert (P * ((k + 1) * u + 1) <= P * m) by (apply Z.mul_le_mono_nonneg_l; lia).
    lia. }
  split.
  - replace (k * (u * P)) with (k * u * P) by ring.
    apply Z.mul_le_mono_nonneg_r; lia.
  - replace ((k + 1) * (u * P)) with ((k + 1) * u * P) by ring.
    apply Z.mul_le_mono_nonneg_r; lia.
Qed.

(** X18: BTM2NEU on a float amount: for a normal binary64 of magnitude below
    2^26 BTM, written m * 2^e with a mantissa m of 53 bits, the result is
    the exact product m * 2^e * 10^8 truncated toward zero, or the next
    integer away from zero when the float product rounds up to it: the
    conversion from BTM never loses a NEU. *)
Theorem BTM2NEU_float_within_one (sg : bool) (m : positive) (e : Z) :
  2 ^ 52 <= Zpos m < 2 ^ 53 -> -1000 <= e <= -27 ->
  exists r,
    amount_converter (NFloat (S754_finite sg m e)) "BTM2NEU" = OK (PNum (NInt r)) /\
    (Z.abs r = Zpos m * 100000000 / 2 ^ (- e) \/
     Z.abs r = Zpos m * 100000000 / 2 ^ (- e) + 1) /\
    (sg = true -> r <= 0) /\ (sg = false -> 0 <= r).
Proof.
  intros Hm He. rewrite amount_converter_BTM2NEU.
  cbn [PyNum.mul PyNum.as_float bind]. rewrite float_of_int_NEU. cbn [bind].
  unfold hundred_million.
  destruct (SFmul_finite_spec sg false m 6710886400000000 e (-26) 53 53)
    as (m2 & n2 & Hn20 & Hn2 & Hm2 & Hnear2 & Hres2); try lia.
  unfold PyNum.prec, PyNum.emax. rewrite Hres2, xorb_false_r.
  cbn [PyNum.truediv PyNum.as_float bind]. rewrite float_of_int_BTM. cbn [bind].
  change (PyNum.is_zero one) with false. cbn iota.
  destruct (renormalized_canonical sg m2 (e + -26 + n2) Hm2)
    as (mg & eg & Eg & Hmg & Hcaseg).
  unfold PyNum.prec, PyNum.emax.
  rewrite Eg, SFdiv_one by (try assumption; destruct Hcaseg as [[? ?]|(? & ? & ?)]; lia).
  rewrite <- Eg.
  set (af := - e). assert (Haf : 27 <= af <= 1000) by (unfold af; lia).
  replace (e + -26 + n2) with (n2 - (26 + af)) by (unfold af; lia).
  cbn [bind]. rewrite to_int_renormalized by lia. cbn [bind].
  pose proof (pow2_pos n2 Hn20) as HP2.
  pose proof (pow2_pos af ltac:(lia)) as HA.
  set (u := 26 + af - n2). assert (Hu : 0 <= u) by (unfold u; lia).
  pose proof (pow2_pos u Hu) as HU.
  assert (ES : 2 ^ (26 + af) = 2 ^ u * 2 ^ n2).
  { rewrite <- Z.pow_add_r by lia. f_equal. unfold u. lia. }
  assert (EB : 2 ^ (26 + af) = 67108864 * 2 ^ af).
  { rewrite Z.pow_add_r by lia. reflexivity. }
  set (S := 2 ^ (26 + af)) in *.
  assert (HS : 0 < S) by (unfold S; apply pow2_pos; lia).
  set (N := Zpos m * 6710886400000000).
  assert (Et : Zpos m * 100000000 / 2 ^ af = N / S).
  { rewrite EB. unfold N.
    replace (Zpos m * 6710886400000000) with (Zpos m * 100000000 * 67108864) by ring.
    rewrite (Z.mul_comm 67108864 (2 ^ af)).
    rewrite Z.div_mul_cancel_r by lia. reflexivity. }
  rewrite Et. set (k := N / S).
  assert (Hk : k * S <= N < (k + 1) * S).
  { pose proof (Z.div_mod N S ltac:(lia)) as Hdm.
    pose proof (Z.mod_pos_bound N S HS) as Hr. fold k in Hdm. lia. }
  assert (Hk0 : 0 <= k) by (apply Z.div_pos; unfold N; lia).
  set (G := m2 * 2 ^ n2).
  assert (HG : k * S <= G <= (k + 1) * S).
  { apply (nearest_multiple G N (2 ^ n2) S m2 (2 ^ u) k); try assumption;
      try reflexivity. unfold G, N. lia. }
  assert (Hdiv : G / S = k \/ G / S = k + 1).
  { destruct (Z.eq_dec G ((k + 1) * S)) as [->|Hne].
    - right. apply Z.div_mul. lia.
    - left. apply div_between; lia. }
  eexists. split; [reflexivity|]. split.
  - destruct sg; [rewrite Z.abs_opp|]; rewrite Z.abs_eq by lia; exact Hdiv.
  - split; intros ->; lia.
Qed.

Lemma Q_of_float_finite (sg : bool) (mf : positive) (e n s : Z) :
  e = n - s -> 0 <= n -> 0 <= s ->
  exists q,
    PyNum.Q_of_float (S754_finite sg mf e) = Some q /\
    (q == Qmake ((if sg then -1 else 1) * Zpos mf * 2 ^ n) (Z.to_pos (2 ^ s)))%Q.
Proof.
  intros He Hn Hs. cbn [PyNum.Q_of_float]. eexists. split; [reflexivity|].
  pose proof (pow2_pos s Hs) as HS. pose proof (pow2_pos n Hn) as HN.
  assert (Ea : (if sg then Zneg mf else Zpos mf) = (if sg then -1 else 1) * Zpos mf)
    by (destruct sg; lia).
  rewrite Ea. set (a := (if sg then -1 else 1) * Zpos mf).
  destruct e as [|p|p]; unfold Qeq, inject_Z; cbn [Qnum Qden];
    rewrite Z2Pos.id by lia.
  - replace n with s by lia. lia.
  - replace n with (Zpos p + s) by lia. rewrite Z.pow_add_r by lia. lia.
  - replace s with (Zpos p + n) by lia. rewrite Z.pow_add_r by lia.
    rewrite Pos2Z.inj_pow. lia.
Qed.

Lemma Q_of_renormalized (sg : bool) (m n s : Z) :
  2 ^ 52 <= m <= 2 ^ 53 -> 0 <= n -> 0 <= s ->
  exists q,
    PyNum.Q_of_float (renormalized sg m (n - s)) = Some q /\
    (q == Qmake ((if sg then -1 else 1) * m * 2 ^ n) (Z.to_pos (2 ^ s)))%Q.
Proof.
  intros Hm Hn Hs.
  destruct (renormalized_canonical sg m (n - s) Hm) as (mf & ef & E & Hmf & Hcase).
  rewrite E. destruct Hcase as [[Em Ee]|(Em & Emf & Ee)].
  - rewrite <- Em. apply Q_of_float_finite; lia.
  - destruct (Q_of_float_finite sg mf ef (n + 1) s) as (q & Hq & Eq); try lia.
    exists q. split; [exact Hq|]. rewrite Eq. unfold Qeq. cbn [Qnum Qden].
    rewrite Emf, Em, Z.pow_add_r by lia.
    change (2 ^ 53) with (2 ^ 52 * 2 ^ 1). ring.
Qed.

(** The quotient of two [int]s is within a relative 2^-53 of the exact
    quotient. *)
Lemma int_truediv_accurate (a b : Z) :
  0 < b -> Z.abs a < 2 ^ 1000 -> b < 2 ^ 1000 ->
  exists f q,
    PyNum.int_truediv a b = OK f /\ PyNum.Q_of_float f = Some q /\
    (Qabs (q - inject_Z a / inject_Z b) * inject_Z (2 ^ 53) <= Qabs q)%Q.
Proof.
  intros Hb Ha1 Hb1. destruct (Z.eq_dec a 0) as [->|Ha].
  { exists (S754_zero (b <? 0)), 0%Q. destruct b as [|pb|pb]; try lia.
    split; [reflexivity|]. split; [reflexivity|].
    unfold Qle, Qabs, Qminus, Qplus, Qopp, Qmult, Qdiv, Qinv, inject_Z.
    cbn. lia. }
  assert (Hpos : 0 < Z.abs a) by lia.
  destruct (digits_exist (Z.abs a) Hpos) as (da & Hda & Hna).
  destruct (digits_exist b Hb) as (db & Hdb & Hnb).
  assert (da <= 1000) by (apply (digits_le (Z.abs a)); lia).
  assert (db <= 1000) by (apply (digits_le b); lia).
  destruct (int_truediv_spec a b da db)
    as (m & s & n & Hs & Hn & Hn0 & Hm & Hnear & Hres); try lia.
  assert (Hs0 : 0 <= s) by lia.
  destruct (Q_of_renormalized (a <? 0) m n s Hm Hn0 Hs0) as (q & Hq & Eq).
  exists (renormalized (a <? 0) m (n - s)), q.
  split; [exact Hres|]. split; [exact Hq|].
  rewrite Eq. clear Eq Hq Hres q.
  pose proof (pow2_pos s Hs0) as HS. pose proof (pow2_pos n Hn0) as HN.
  set (P := 2 ^ n) in *. set (T := 2 ^ s) in *.
  assert (HB : 0 < b * P) by (apply Z.mul_pos_pos; lia).
  set (B := b * P) in *.
  assert (HW : 2 ^ 52 * B <= m * B) by (apply Z.mul_le_mono_nonneg_r; lia).
  change (2 ^ 52) with 4503599627370496 in *.
  change (2 ^ 53) with 9007199254740992 in *.
  destruct b as [|pb|pb]; try lia.
  unfold Qle, Qabs, Qminus, Qplus, Qopp, Qmult, Qdiv, Qinv, inject_Z.
  cbn [Qnum Qden]. unfold Qmult. cbn [Qnum Qden].
  rewrite !Pos2Z.inj_mul, !Z2Pos.id by lia.
  assert (Hgoal : Z.abs ((if a <? 0 then -1 else 1) * m * P * Z.pos pb + - a * T)
                  * 9007199254740992 <= m * P * Z.pos pb).
  { destruct (Z.ltb_spec a 0) as [Hneg|Hnn].
    - replace (-1 * m * P * Z.pos pb + - a * T)
        with (- (m * B - Z.abs a * T)) by (unfold B; lia).
      rewrite Z.abs_opp. replace (m * P * Z.pos pb) with (m * B) by (unfold B; ring).
      lia.
    - replace (1 * m * P * Z.pos pb + - a * T)
        with (m * B - Z.abs a * T) by (unfold B; lia).
      replace (m * P * Z.pos pb) with (m * B) by (unfold B; ring).
      lia. }
  assert (Habs : Z.abs ((if a <? 0 then -1 else 1) * m * P) = m * P).
  { assert (0 <= m * P) by (apply Z.mul_nonneg_nonneg; lia).
    destruct (a <? 0); lia. }
  rewrite Habs, !Z.mul_1_l, !Z.mul_1_r.
  replace (m * P * (T * Z.pos pb)) with (m * P * Z.pos pb * T) by ring.
  apply Z.mul_le_mono_nonneg_r; [lia|exact Hgoal].
Qed.

Lemma rescale_float_accurate (a ft fs : Z) :
  0 < fs -> Z.abs (a * ft) < 2 ^ 1000 -> fs < 2 ^ 1000 ->
  exists f q,
    bind (PyNum.mul (NInt a) (NInt ft)) (fun p =>
    bind (PyNum.truediv p (NInt fs)) (fun q =>
    bind (PyNum.to_float q) (fun r => OK (PNum r)))) = OK (PNum (NFloat f)) /\
    PyNum.Q_of_float f = Some q /\
    (Qabs (q - rescaled_exactly (inject_Z a) fs ft) * inject_Z (2 ^ 53) <= Qabs q)%Q.
Proof.
  intros Hfs Haft Hfs1.
  destruct (int_truediv_accurate (a * ft) fs) as (f & q & Hf & Hq & Hacc);
    try assumption; try nia.
  exists f, q. cbn [PyNum.mul bind PyNum.truediv]. rewrite Hf.
  split; [reflexivity|]. split; [exact Hq|].
  unfold rescaled_exactly. rewrite <- inject_Z_mult. exact Hacc.
Qed.

(** X19: The float conversions are accurate to the last bit: for BTM2mBTM,
    mBTM2BTM and NEU2BTM on an integer amount, the float returned
    differs from the exact rescaled amount by at most 2^-53 of its own
    magnitude. *)
Theorem float_conversions_accurate (a : Z) (source target : string * Z) :
  In source units -> In target units ->
  In (fst source ++ "2" ++ fst target)%string float_symbols ->
  Z.abs a < 2 ^ 900 ->
  exists f q,
    amount_converter (NInt a) (fst source ++ "2" ++ fst target)%string =
      OK (PNum (NFloat f)) /\
    PyNum.Q_of_float f = Some q /\
    (Qabs (q - rescaled_exactly (inject_Z a) (snd source) (snd target)) *
     inject_Z (2 ^ 53) <= Qabs q)%Q.
Proof.
  intros Hs Ht Hin Ha.
  assert (H27 : 2 ^ 900 * 100000000 < 2 ^ 1000) by reflexivity.
  cbn [units In] in Hs, Ht.
  destruct Hs as [<-|[<-|[<-|[]]]]; destruct Ht as [<-|[<-|[<-|[]]]];
    cbn [fst snd] in *; cbn in Hin;
    try (exfalso; intuition discriminate).
  - rewrite amount_converter_BTM2mBTM. apply rescale_float_accurate; lia.
  - rewrite amount_converter_mBTM2BTM. apply rescale_float_accurate; lia.
  - rewrite amount_converter_NEU2BTM. apply rescale_float_accurate; lia.
Qed.

Local Open Scope string_scope.

(** * Concrete runs *)

(** The exact rescaling of 50,000 NEU is half an mBTM; the converter
    returns 0. *)
Lemma amount_converter_inexact :
  exists v q,
    amount_converter (NInt 50000) "NEU2mBTM" = OK (PNum v) /\
    PyNum.Q_of_num v = Some q /\
    ~ (q == rescaled_exactly (inject_Z 50000) 100000000 1000)%Q.
Proof.
  exists (NInt 0), (inject_Z 0). split; [reflexivity|]. split; [reflexivity|].
  intros H. vm_compute in H. discriminate.
Qed.

(** 3 NEU become 2 NEU on the way to BTM and back. *)
Lemma neu_round_trip_loses_a_unit :
  neu_round_trip 3 = OK (PNum (NInt 2)) /\
  neu_round_trip 3 <> OK (PNum (NInt 3)).
Proof. split; [reflexivity|]. intros H. vm_compute in H. discriminate. Qed.

(** A KeyboardInterrupt raised inside the builder leaves the command: no
    error line is echoed and the process does not exit through sys.exit. *)
Lemma refund_propagates_interrupt :
  refund string Sample.RefundTransaction Sample.interrupted_build Sample.get_raw
    amount_converter Sample.exn_str ""
    "vp1qf78sazxs539nmzztq7md63fk2x8lew6ed2gu5rnt9um7jerrh07qcyvk37"
    "96db48d3" (NInt 1000) true "NEU" "ffffffff" "mainnet" =
  ([Build "vp1qf78sazxs539nmzztq7md63fk2x8lew6ed2gu5rnt9um7jerrh07qcyvk37"
      "96db48d3" (PNum (NInt 1000)) true "ffffffff"],
   Propagated (LibError Sample.keyboard_interrupt)).
Proof. reflexivity. Qed.

Lemma amount_converter_rescales_witness :
  amount_converter (NInt 150) "BTM2NEU" = OK (PNum (NInt 15000000000)).
Proof.
  apply (proj2 (proj2 (proj2 amount_converter_rescales))
           150%Z ("BTM", 1%Z) ("NEU", 100000000%Z)).
  - simpl. auto.
  - simpl. auto.
  - discriminate.
  - simpl. auto.
  - reflexivity.
Defined.

(** 0.29 BTM, the float 5224175567749775 * 2^-54: the product by 10^8 is
    the float 7784628223999999 * 2^-28, just below 29,000,000. *)
Lemma int_conversions_truncate_witness :
  amount_converter (NFloat (S754_finite false 5224175567749775 (-54))) "BTM2NEU" =
  OK (PNum (NInt 28999999)).
Proof.
  apply (proj1 (proj2 (proj2 (proj2 (proj2 int_conversions_truncate))))
           (NFloat (S754_finite false 5224175567749775 (-54)))
           ("BTM", 1%Z) ("NEU", 100000000%Z)
           (NFloat (S754_finite false 7784628223999999 (-28)))
           (S754_finite false 7784628223999999 (-28))).
  - simpl. auto.
  - simpl. auto.
  - simpl. auto.
  - reflexivity.
  - reflexivity.
Defined.

Lemma neu_round_trip_within_one_witness :
  exists r, neu_round_trip 29 = OK (PNum (NInt r)) /\
            (r = 29%Z \/ r = (29 - Z.sgn 29)%Z).
Proof. apply (neu_round_trip_within_one 29). reflexivity. Defined.

Lemma is_transaction_raw_total_witness :
  is_transaction_raw Sample.clean_transaction_raw Sample.str_encode
    Sample.bytes_decode Sample.b64decode Sample.json_loads (PStr "e30=") = OK false.
Proof.
  apply (proj2 (proj2 (proj2 (proj2 (proj2
           (is_transaction_raw_total Sample.clean_transaction_raw Sample.str_encode
              Sample.bytes_decode Sample.b64decode Sample.json_loads "e30="))))) []).
  - reflexivity.
  - reflexivity.
Defined.

Lemma transaction_raw_checked_first_witness :
  fst (run (decode_transaction_raw Sample.clean_transaction_raw Sample.str_encode
              Sample.bytes_decode Sample.b64decode Sample.json_loads
              Sample.json_dumps Sample.config Sample.format Sample.requests_post
              "W10=" Sample.headers Sample.timeout)) = [] /\
  fst (run (submit_transaction_raw Sample.clean_transaction_raw Sample.str_encode
              Sample.bytes_decode Sample.b64decode Sample.json_loads
              Sample.json_dumps Sample.config Sample.format Sample.requests_post
              "2020-01-01" "W10=" Sample.headers Sample.timeout)) = [].
Proof.
  apply (proj2 (proj2
           (transaction_raw_checked_first Sample.clean_transaction_raw
              Sample.str_encode Sample.bytes_decode Sample.b64decode
              Sample.json_loads Sample.json_dumps Sample.config Sample.format
              Sample.requests_post "2020-01-01" "W10=" Sample.headers
              Sample.timeout))).
  reflexivity.
Defined.

Lemma decode_transaction_raw_frame_witness :
  exists loaded,
    load_transaction_raw Sample.clean_transaction_raw Sample.str_encode
      Sample.bytes_decode Sample.b64decode Sample.json_loads
      Sample.transaction_raw = OK loaded /\
    exists v, getitem_str loaded "fee" = OK v /\
              getitem_str Sample.decoded "fee" = OK v.
Proof.
  destruct (decode_transaction_raw_frame Sample.clean_transaction_raw
              Sample.str_encode Sample.bytes_decode Sample.b64decode
              Sample.json_loads Sample.json_dumps Sample.config Sample.format
              Sample.requests_post Sample.transaction_raw Sample.headers
              Sample.timeout [Sample.decode_request] Sample.decoded)
    as (loaded & req & resp & rj & items & H1 & H2 & H3 & H4 & H5 & H6 & H7 & H8).
  - vm_compute. reflexivity.
  - exists loaded. split; [exact H1|]. apply H7. simpl. auto.
Defined.

Lemma get_address_type_other_witness :
  get_address_type Sample.btm_is_address "vp1qmock" = OK PNone.
Proof.
  apply (proj1 (get_address_type_other Sample.btm_is_address "vp1qmock")).
  - reflexivity.
  - simpl. lia.
  - simpl. lia.
Defined.

Lemma refund_builds_with_converted_amount_witness :
  refund string Sample.RefundTransaction Sample.build_transaction
    Sample.get_raw amount_converter Sample.exn_str ""
    "vp1qmock" "96db48d3" (NFloat (S754_finite false 3 (-1))) true
    "BTM" "ffffffff" "mainnet" =
  ([Build "vp1qmock" "96db48d3" (PNum (NInt 150000000)) true "ffffffff";
    Echo "mainnet:150000000" false], Returned).
Proof.
  apply (proj1 (refund_builds_with_converted_amount string
                  Sample.RefundTransaction Sample.build_transaction
                  Sample.get_raw amount_converter Sample.exn_str ""
                  "vp1qmock" "96db48d3" (NFloat (S754_finite false 3 (-1))) true
                  "BTM" "ffffffff" "mainnet" "mainnet" eq_refl)
           (PNum (NInt 150000000))).
  reflexivity.
Defined.

Lemma refund_reports_exceptions_witness :
  refund string Sample.RefundTransaction Sample.build_transaction
    Sample.get_raw amount_converter Sample.exn_str ""
    "vp1qmock" "96db48d3" (NInt 5) true "satoshi" "ffffffff" "mainnet" =
  ([Echo "Error: Invalid 'satoshi2NEU' symbol/type" true], Exited).
Proof.
  apply (proj1 (refund_reports_exceptions string
                  Sample.RefundTransaction Sample.build_transaction
                  Sample.get_raw amount_converter Sample.exn_str ""
                  "vp1qmock" "96db48d3" (NInt 5) true "satoshi" "ffffffff"
                  "mainnet" [] (symbol_error "satoshi2NEU") eq_refl)).
  reflexivity.
Defined.

(** ** Runs of the further properties *)

Lemma decode_status_400_witness :
  run (decode_transaction_raw Sample.clean_transaction_raw Sample.str_encode
         Sample.bytes_decode Sample.b64decode Sample.json_loads Sample.json_dumps
         Sample.config Sample.format (Service.rejecting_post 400)
         Sample.transaction_raw Sample.headers Sample.timeout) =
  ([Sample.decode_request],
   Raise (SwapError APIError [PStr "invalid transaction"; PNum (NInt 300)])).
Proof.
  apply (decode_status_400 Sample.clean_transaction_raw Sample.str_encode
           Sample.bytes_decode Sample.b64decode Sample.json_loads
           Sample.json_dumps Sample.config Sample.format
           (Service.rejecting_post 400) Sample.transaction_raw Sample.headers
           Sample.timeout Sample.envelope Sample.decode_request
           {| status_code := 400;
              response_json := inl (PDict [("code", PNum (NInt 300));
                                           ("msg", PStr "invalid transaction")]) |}
           (PDict [("code", PNum (NInt 300)); ("msg", PStr "invalid transaction")]));
    vm_compute; reflexivity.
Defined.

Lemma decode_transaction_raw_returns_witness :
  run (decode_transaction_raw Sample.clean_transaction_raw Sample.str_encode
         Sample.bytes_decode Sample.b64decode Sample.json_loads Sample.json_dumps
         Sample.config Sample.format Sample.requests_post
         Sample.transaction_raw Sample.headers Sample.timeout) =
  ([Sample.decode_request], OK Sample.decoded).
Proof.
  apply (decode_transaction_raw_returns Sample.clean_transaction_raw
           Sample.str_encode Sample.bytes_decode Sample.b64decode
           Sample.json_loads Sample.json_dumps Sample.config Sample.format
           Sample.requests_post Sample.transaction_raw Sample.headers
           Sample.timeout Sample.envelope Sample.decode_request
           {| status_code := 200;
              response_json := inl (PDict [("code", PNum (NInt 200)); ("msg", PStr "");
                                           ("data", Sample.decoded_tx)]) |}
           (PDict [("code", PNum (NInt 200)); ("msg", PStr "");
                   ("data", Sample.decoded_tx)]));
    try (vm_compute; reflexivity).
  cbn. discriminate.
Defined.

Lemma decode_reads_metadata_after_post_witness :
  exists e,
    run (decode_transaction_raw Sample.clean_transaction_raw Sample.str_encode
           Sample.bytes_decode Sample.b64decode Service.json_loads_short
           Sample.json_dumps Sample.config Sample.format Sample.requests_post
           "e30=" Sample.headers Sample.timeout) =
    ([Sample.decode_request], Raise e).
Proof.
  apply (decode_reads_metadata_after_post Sample.clean_transaction_raw
           Sample.str_encode Sample.bytes_decode Sample.b64decode
           Service.json_loads_short Sample.json_dumps Sample.config Sample.format
           Sample.requests_post "e30=" Sample.headers Sample.timeout
           Service.short_envelope Sample.decode_request
           {| status_code := 200;
              response_json := inl (PDict [("code", PNum (NInt 200)); ("msg", PStr "");
                                           ("data", Sample.decoded_tx)]) |}
           "fee" (PyKeyError (PStr "fee")));
    try (vm_compute; reflexivity).
  simpl. auto.
Defined.

Lemma submit_transaction_raw_frame_witness :
  exists loaded fee,
    load_transaction_raw Sample.clean_transaction_raw Sample.str_encode
      Sample.bytes_decode Sample.b64decode Sample.json_loads
      Sample.transaction_raw = OK loaded /\
    getitem_str loaded "fee" = OK fee /\
    getitem_str Service.submitted "fee" = OK fee.
Proof.
  destruct (submit_transaction_raw_frame Sample.clean_transaction_raw
              Sample.str_encode Sample.bytes_decode Sample.b64decode
              Sample.json_loads Sample.json_dumps Sample.config Sample.format
              Service.accepting_post "2020-01-01" Sample.transaction_raw
              Sample.headers Sample.timeout [Service.submit_request]
              Service.submitted)
    as (loaded & req & resp & rj & code & data & fee & type & txid & network &
        Hl & Hp & Hlog & Hr & Hrj & Hc & Hne & Hfee & Ht & Hd & Htx & Hn & E).
  - vm_compute. reflexivity.
  - exists loaded, fee. split; [exact Hl|]. split; [exact Hfee|].
    inversion E. reflexivity.
Defined.

Lemma submit_code_not_200_witness :
  run (submit_transaction_raw Sample.clean_transaction_raw Sample.str_encode
         Sample.bytes_decode Sample.b64decode Sample.json_loads Sample.json_dumps
         Sample.config Sample.format (Service.rejecting_post 200) "2020-01-01"
         Sample.transaction_raw Sample.headers Sample.timeout) =
  ([Service.submit_request],
   Raise (SwapError APIError [PStr "invalid transaction"; PNum (NInt 300)])).
Proof.
  apply (submit_code_not_200 Sample.clean_transaction_raw Sample.str_encode
           Sample.bytes_decode Sample.b64decode Sample.json_loads
           Sample.json_dumps Sample.config Sample.format
           (Service.rejecting_post 200) "2020-01-01" Sample.transaction_raw
           Sample.headers Sample.timeout Sample.envelope Service.submit_request
           {| status_code := 200;
              response_json := inl (PDict [("code", PNum (NInt 300));
                                           ("msg", PStr "invalid transaction")]) |}
           (PDict [("code", PNum (NInt 300)); ("msg", PStr "invalid transaction")]));
    vm_compute; reflexivity.
Defined.

Lemma transaction_raw_functions_raise_two_classes_witness :
  never NetworkError
    (snd (run (decode_transaction_raw Sample.clean_transaction_raw
                 Sample.str_encode Sample.bytes_decode Sample.b64decode
                 Sample.json_loads Sample.json_dumps Sample.config Sample.format
                 Sample.requests_post Sample.transaction_raw Sample.headers
                 Sample.timeout))) /\
  never NetworkError
    (snd (run (submit_transaction_raw Sample.clean_transaction_raw
                 Sample.str_encode Sample.bytes_decode Sample.b64decode
                 Sample.json_loads Sample.json_dumps Sample.config Sample.format
                 Sample.requests_post "2020-01-01" Sample.transaction_raw
                 Sample.headers Sample.timeout))).
Proof.
  apply (transaction_raw_functions_raise_two_classes Sample.clean_transaction_raw
           Sample.str_encode Sample.bytes_decode Sample.b64decode
           Sample.json_loads Sample.json_dumps Sample.config Sample.format
           Sample.requests_post "2020-01-01" NetworkError Sample.transaction_raw
           Sample.headers Sample.timeout); discriminate.
Defined.

Lemma is_address_checks_network_witness :
  is_address Sample.btm_is_address "vp1qmock" (Some "testnet") = OK true.
Proof.
  apply (proj2 (is_address_checks_network Sample.btm_is_address "vp1qmock"
                  (Some "testnet"))).
  intros n H. inversion H. simpl. auto.
Defined.

Lemma refund_rejects_non_finite_amount_witness :
  exists e,
    PyNum.to_int (NFloat S754_nan) = Raise e /\
    refund string Sample.RefundTransaction Sample.build_transaction
      Sample.get_raw amount_converter Sample.exn_str ""
      "vp1qmock" "96db48d3" (NFloat S754_nan) true "NEU" "ffffffff" "mainnet" =
    ([Echo ("Error: " ++ Sample.exn_str e ++ "") true], Exited).
Proof.
  apply (refund_rejects_non_finite_amount string Sample.RefundTransaction
           Sample.build_transaction Sample.get_raw amount_converter
           Sample.exn_str "" "vp1qmock" "96db48d3" S754_nan true "ffffffff"
           "mainnet" "mainnet").
  - reflexivity.
  - left. reflexivity.
Defined.

Lemma mBTM_round_trip_exact_witness :
  amount_converter (NInt 5) "mBTM2NEU" = OK (PNum (NInt (5 * 100000))) /\
  amount_converter (NInt (5 * 100000)) "NEU2mBTM" = OK (PNum (NInt 5)).
Proof. apply (mBTM_round_trip_exact 5%Z). reflexivity. Defined.

Lemma NEU_via_mBTM_drops_remainder_witness :
  exists k,
    amount_converter (NInt 123456) "NEU2mBTM" = OK (PNum (NInt k)) /\
    amount_converter (NInt k) "mBTM2NEU" =
      OK (PNum (NInt (123456 - Z.rem 123456 100000))).
Proof. apply (NEU_via_mBTM_drops_remainder 123456%Z). reflexivity. Defined.

Lemma symbols_into_NEU_witness :
  amount_converter (NInt 5) ("satoshi" ++ "2NEU") =
  Raise (symbol_error ("satoshi" ++ "2NEU")).
Proof.
  apply (proj2 (symbols_into_NEU (NInt 5) "satoshi")); discriminate.
Defined.

Lemma amount_converter_odd_witness :
  amount_converter (NInt (- 3)) "NEU2BTM" =
  negated (amount_converter (NInt 3) "NEU2BTM").
Proof. apply (amount_converter_odd 3%Z "NEU2BTM"). discriminate. Defined.

(** 0.29 BTM: the float is 5224175567749775 * 2^-54. *)
Lemma BTM2NEU_float_within_one_witness :
  exists r,
    amount_converter (NFloat (S754_finite false 5224175567749775 (-54))) "BTM2NEU" =
      OK (PNum (NInt r)) /\
    (Z.abs r = (Zpos 5224175567749775 * 100000000 / 2 ^ (- -54))%Z \/
     Z.abs r = (Zpos 5224175567749775 * 100000000 / 2 ^ (- -54) + 1)%Z) /\
    (false = true -> (r <= 0)%Z) /\ (false = false -> (0 <= r)%Z).
Proof.
  apply (BTM2NEU_float_within_one false 5224175567749775%positive (-54)%Z); lia.
Defined.

Lemma float_conversions_accurate_witness :
  exists f q,
    amount_converter (NInt 10000000) "NEU2BTM" = OK (PNum (NFloat f)) /\
    PyNum.Q_of_float f = Some q /\
    (Qabs (q - rescaled_exactly (inject_Z 10000000) 100000000 1) *
     inject_Z (2 ^ 53) <= Qabs q)%Q.
Proof.
  apply (float_conversions_accurate 10000000%Z ("NEU", 100000000%Z) ("BTM", 1%Z)).
  - simpl. auto.
  - simpl. auto.
  - simpl. auto.
  - reflexivity.
Defined.
